(** * KubeBao: a shallow embedding of the secret-management core

    The development follows the Go sources of the repository:
    - [internal/csi/secrets.go] (secrets fetcher and its cache, the
      BaoPolicy and BaoSecret reconcilers that share the file),
    - the CSI provider ([Provider.Mount], [parseMountParams]),
    - the KMS plugin server ([Server.performHealthCheck], [Server.Status]),
    - [internal/openbao/client.go] ([Client.RefreshToken]),
    - [api/v1alpha1] ([BaoPolicy.ToHCL], [BaoPolicy.GetPolicyName]).

    Conventions.  Go [string] and [[]byte] are byte sequences and are both
    modelled by [string].  Go [int], [int32], [int64] and [time.Duration]
    are [Z].  A Go [(T, error)] result is a [Result T]; a run-time panic is
    the [Panicked] outcome of the effect monad [M].  A Go map that is only
    looked up and updated is a [gmap]; where the program ranges over a map
    the visiting order is an explicit argument, because the Go runtime
    picks it afresh for every [range] statement. *)

From Stdlib Require Import ZArith String Ascii List Lia Bool.
From Stdlib Require Import DecimalString DecimalZ DecimalPos.
From stdpp Require Import gmap strings list.

Set Warnings "-register-all".
Local Open Scope Z_scope.

(* ===================================================================== *)
(** * Results, panics and effects *)
(* ===================================================================== *)

Module Eff.

(** A Go [error] is represented by its message; [(T, error)] with the
    usual discipline (the value is meaningful only when the error is
    [nil]) is a [Result T]. *)
Inductive Result (T : Type) : Type :=
| Ok (t : T)
| Err (e : string).
Arguments Ok {T} t.
Arguments Err {T} e.

(** How a call ends: it returns, it panics, or it is still running when
    the iteration budget of an unbounded loop is used up. *)
Inductive Outcome (A : Type) : Type :=
| Done (a : A)
| Panicked (msg : string)
| OutOfFuel.
Arguments Done {A} a.
Arguments Panicked {A} msg.
Arguments OutOfFuel {A}.

(** Computations over a world [W] (the backend, the cluster, the clock,
    the process state). *)
Definition M (W A : Type) : Type := W -> Outcome (A * W).

Definition ret {W A} (a : A) : M W A := fun w => Done (a, w).

Definition bind {W A B} (c : M W A) (k : A -> M W B) : M W B :=
  fun w => match c w with
           | Done (a, w') => k a w'
           | Panicked msg => Panicked msg
           | OutOfFuel => OutOfFuel
           end.

Definition panic {W A} (msg : string) : M W A := fun _ => Panicked msg.

Definition timeout {W A} : M W A := fun _ => OutOfFuel.

(** A world operation that always returns. *)
Definition call {W A} (f : W -> A * W) : M W A := fun w => Done (f w).

Declare Scope eff_scope.
Delimit Scope eff_scope with eff.
Notation "x <- c ;; k" := (bind c (fun x => k))
  (at level 100, c at next level, right associativity) : eff_scope.

End Eff.

(* ===================================================================== *)
(** * Time *)
(* ===================================================================== *)

Module GoTime.

(** A [time.Time]: nanoseconds since the zero instant (January 1, year 1
    UTC), the only instant for which [IsZero] holds. *)
Definition Time : Type := Z.

(** A [time.Duration]: a signed 64-bit count of nanoseconds. *)
Definition Duration : Type := Z.

Definition Nanosecond : Duration := 1.
Definition Second : Duration := 1000000000.
Definition Minute : Duration := 60 * Second.
Definition Hour : Duration := 60 * Minute.

Definition maxDuration : Duration := 2 ^ 63 - 1.
Definition minDuration : Duration := - 2 ^ 63.

(** Signed 64-bit wrap-around of an arithmetic result. *)
Definition wrap64 (x : Z) : Z := (x + 2 ^ 63) mod 2 ^ 64 - 2 ^ 63.

Definition IsZero (t : Time) : bool := t =? 0.

(** [t.After(u)] *)
Definition After (t u : Time) : bool := u <? t.

(** [t.Add(d)] *)
Definition Add (t : Time) (d : Duration) : Time := t + d.

(** [t.Sub(u)]: the difference, saturated to the range of [Duration]. *)
Definition Sub (t u : Time) : Duration :=
  let d := t - u in
  if maxDuration <? d then maxDuration
  else if d <? minDuration then minDuration
  else d.

(** [time.Until(t)], read at the instant [now]. *)
Definition Until (now t : Time) : Duration := Sub t now.

End GoTime.

(* ===================================================================== *)
(** * Go strings *)
(* ===================================================================== *)

Module GoStrings.

(** [len(s)] *)
Definition len (s : string) : Z := Z.of_nat (String.length s).

(** [s[i:j]] when [0 <= i <= j <= len(s)]. *)
Definition substr (s : string) (i j : Z) : string :=
  String.substring (Z.to_nat i) (Z.to_nat (j - i)) s.

(** [s[i:j]] with the bounds check of the runtime: [None] is the panic
    "slice bounds out of range". *)
Definition slice (s : string) (i j : Z) : option string :=
  if (0 <=? i) && (i <=? j) && (j <=? len s) then Some (substr s i j) else None.

(** [strings.HasPrefix] *)
Definition HasPrefix (s p : string) : bool := String.prefix p s.

(** One step of a search loop [for i := i0; i <= len(s)-len(sub); i++]
    returning the first [i] with [s[i:i+len(sub)] == sub], or [-1]. *)
Fixpoint indexOf_loop (fuel : nat) (i : Z) (s sub : string) : Z :=
  match fuel with
  | O => -1
  | S fuel' =>
      if i <=? len s - len sub then
        if String.eqb (substr s i (i + len sub)) sub then i
        else indexOf_loop fuel' (i + 1) s sub
      else -1
  end.

(** [indexOf] of [secrets.go]: the index of [substr] in [s], or [-1].
    The loop variable runs over [0 .. len(s)-len(substr)], so
    [len(s)+1] iterations are enough. *)
Definition indexOf (s sub : string) : Z :=
  indexOf_loop (S (String.length s)) 0 s sub.

(** [strings.Contains] *)
Definition Contains (s sub : string) : bool := 0 <=? indexOf s sub.

(** [strings.SplitN(s, sep, 2)] for a one-byte separator: the part before
    the first separator and the rest, or the string alone. *)
Definition SplitN2 (s sep : string) : list string :=
  let idx := indexOf s sep in
  if 0 <=? idx then [substr s 0 idx; substr s (idx + len sep) (len s)] else [s].

End GoStrings.

(* ===================================================================== *)
(** * Dynamically typed values ([interface{}]) *)
(* ===================================================================== *)

Module GoValues.

(** The values a decoded backend response holds in a
    [map[string]interface{}]: the API client decodes numbers as
    [json.Number], a string type. *)
Inductive Value : Type :=
| VNil
| VBool (b : bool)
| VNumber (lit : string)
| VString (s : string)
| VList (l : list Value)
| VMap (m : list (string * Value)).

(** [strings.Join(l, " ")] *)
Fixpoint join_sp (l : list string) : string :=
  match l with
  | [] => ""
  | [x] => x
  | x :: l' => x +:+ " " +:+ join_sp l'
  end.

Fixpoint insert_by_key (e : string * string) (l : list (string * string)) : list (string * string) :=
  match l with
  | [] => [e]
  | e' :: l' => if String.leb (fst e) (fst e') then e :: l else e' :: insert_by_key e l'
  end.

Definition sort_by_key (l : list (string * string)) : list (string * string) :=
  fold_right insert_by_key [] l.

(** [fmt.Sprintf("%v", v)]: strings and numbers print as they are, maps
    print their entries sorted by key. *)
Fixpoint Sprint (v : Value) : string :=
  match v with
  | VNil => "<nil>"
  | VBool true => "true"
  | VBool false => "false"
  | VNumber lit => lit
  | VString s => s
  | VList l => "[" +:+ join_sp (List.map Sprint l) +:+ "]"
  | VMap m =>
      let printed := List.map (fun kv => match kv with (k, x) => (k, Sprint x) end) m in
      "map[" +:+ join_sp (List.map (fun kv => fst kv +:+ ":" +:+ snd kv) (sort_by_key printed)) +:+ "]"
  end.

(** The type assertion [v.(map[string]interface{})]. *)
Definition as_map (v : Value) : option (list (string * Value)) :=
  match v with VMap m => Some m | _ => None end.

(** The type assertions [v.(string)] and [v.(bool)]. *)
Definition as_string (v : Value) : option string :=
  match v with VString s => Some s | _ => None end.

Definition as_bool (v : Value) : option bool :=
  match v with VBool b => Some b | _ => None end.

(** The type assertion [v.(float64)], with the number converted by
    [int(...)]: a decoded response holds every number as a [json.Number],
    so the assertion succeeds on no value. *)
Definition as_float64 (v : Value) : option Z :=
  match v with
  | VNil | VBool _ | VNumber _ | VString _ | VList _ | VMap _ => None
  end.

(** [m[k]] with the comma-ok result, on the entries of a decoded map. *)
Fixpoint lookup_entry (k : string) (m : list (string * Value)) : option Value :=
  match m with
  | [] => None
  | (k', v) :: m' => if String.eqb k' k then Some v else lookup_entry k m'
  end.

End GoValues.

(* ===================================================================== *)
(** * Literal template substitution (BaoSecret reconciler) *)
(* ===================================================================== *)

Module Template.
Import GoStrings GoValues.

(** The body of the [for] loop of [replaceAll]: replace the first
    occurrence of [old] in [s], if there is one. *)
Definition replaceAll_body (s old new : string) : string :=
  let newS := s in
  let idx := indexOf newS old in
  if 0 <=? idx
  then substr newS 0 idx +:+ new +:+ substr newS (idx + len old) (len newS)
  else newS.

(** [replaceAll] of [secrets.go]:
<<
    for {
        newS := s
        if idx := indexOf(newS, old); idx >= 0 { newS = newS[:idx] + new + newS[idx+len(old):] }
        if newS == s { break }
        s = newS
    }
    return s
>>
    The loop has no bound of its own; [fuel] counts its iterations and
    [None] means that the loop is still running after [fuel] of them. *)
Fixpoint replaceAll (fuel : nat) (s old new : string) : option string :=
  match fuel with
  | O => None
  | S fuel' =>
      let newS := replaceAll_body s old new in
      if String.eqb newS s then Some s
      else replaceAll fuel' newS old new
  end.

(** The call [replaceAll(s, old, new)] returns [r]. *)
Definition replaceAll_returns (s old new r : string) : Prop :=
  exists fuel, replaceAll fuel s old new = Some r.

(** The call [replaceAll(s, old, new)] terminates. *)
Definition replaceAll_terminates (s old new : string) : Prop :=
  exists r, replaceAll_returns s old new r.

(** [fmt.Sprintf("{{ .Data.%s }}", k)] *)
Definition placeholder (k : string) : string := "{{ .Data." +:+ k +:+ " }}".

(** The inner loop of [applyTemplate]:
<<
    value := tmpl
    for k, v := range sourceData {
        placeholder := fmt.Sprintf("{{ .Data.%s }}", k)
        value = replaceAll(value, placeholder, fmt.Sprintf("%v", v))
    }
>>
    [visit] is the order in which this [range] statement visits the
    entries of [sourceData]. *)
Fixpoint substituteFields (fuel : nat) (visit : list (string * Value)) (value : string)
  : option string :=
  match visit with
  | [] => Some value
  | (k, v) :: rest =>
      match replaceAll fuel value (placeholder k) (Sprint v) with
      | Some value' => substituteFields fuel rest value'
      | None => None
      end
  end.

(** One of the two outer loops of [applyTemplate]:
<<
    for key, tmpl := range template.StringData {
        ... inner loop ...
        result[key] = []byte(value)
    }
>>
    [fields] is the order in which the template entries are visited and
    [visit key] the order of the inner [range] while [key] is rendered. *)
Fixpoint renderFields (fuel : nat) (fields : list (string * string))
  (visit : string -> list (string * Value)) (result : gmap string string)
  : option (gmap string string) :=
  match fields with
  | [] => Some result
  | (key, tmpl) :: rest =>
      match substituteFields fuel (visit key) tmpl with
      | Some value => renderFields fuel rest visit (<[key := value]> result)
      | None => None
      end
  end.

(** [SecretTemplate] of [api/v1alpha1]. *)
Record SecretTemplate : Type := {
  Data : gmap string string;
  StringData : gmap string string
}.

(** The visiting orders the runtime chooses for the [range] statements
    of one call of [applyTemplate]: for the two template maps, and for
    [sourceData] each time a template entry [key] is rendered. *)
Record Ranges : Type := {
  over_StringData : gmap string string -> list (string * string);
  over_Data : gmap string string -> list (string * string);
  over_source_StringData : string -> gmap string Value -> list (string * Value);
  over_source_Data : string -> gmap string Value -> list (string * Value)
}.

(** Every order of [rng] visits each entry of the map once. *)
Definition ranges_valid (rng : Ranges) : Prop :=
  (forall m, over_StringData rng m ≡ₚ map_to_list m) /\
  (forall m, over_Data rng m ≡ₚ map_to_list m) /\
  (forall key m, over_source_StringData rng key m ≡ₚ map_to_list m) /\
  (forall key m, over_source_Data rng key m ≡ₚ map_to_list m).

(** [BaoSecretReconciler.applyTemplate]: copy [data], then render the
    [StringData] templates, then the [Data] templates.  [None]: one of
    the [replaceAll] calls is still running after [fuel] iterations. *)
Definition applyTemplate (fuel : nat) (rng : Ranges) (data : gmap string string)
  (template : SecretTemplate) (sourceData : gmap string Value)
  : option (gmap string string) :=
  let result := data in
  match renderFields fuel (over_StringData rng (StringData template))
                     (fun key => over_source_StringData rng key sourceData) result with
  | Some result' =>
      renderFields fuel (over_Data rng (Data template))
                   (fun key => over_source_Data rng key sourceData) result'
  | None => None
  end.

(** ** The substitution the specification describes

    "replacing every literal occurrence of the placeholder with the
    string form of the corresponding source field": one pass from left
    to right over the text, the replaced text is not scanned again. *)
Fixpoint spec_replaceEvery_from (n : nat) (s old new : string) : string :=
  match n with
  | O => s
  | S n' =>
      let idx := indexOf s old in
      if 0 <=? idx
      then substr s 0 idx +:+ new
           +:+ spec_replaceEvery_from n' (substr s (idx + len old) (len s)) old new
      else s
  end.

Definition spec_replaceEvery (s old new : string) : string :=
  spec_replaceEvery_from (String.length s) s old new.

Definition spec_substituteFields (visit : list (string * Value)) (value : string) : string :=
  fold_left (fun acc kv => spec_replaceEvery acc (placeholder (fst kv)) (Sprint (snd kv)))
            visit value.

End Template.

(* ===================================================================== *)
(** * Kubernetes object metadata shared by the two reconcilers *)
(* ===================================================================== *)

Module K8s.
Import GoTime.

Inductive ConditionStatus : Type := ConditionTrue | ConditionFalse | ConditionUnknown.

Definition ConditionStatus_eqb (a b : ConditionStatus) : bool :=
  match a, b with
  | ConditionTrue, ConditionTrue | ConditionFalse, ConditionFalse
  | ConditionUnknown, ConditionUnknown => true
  | _, _ => false
  end.

(** [metav1.Condition] *)
Record Condition : Type := {
  Type_ : string;
  Status_ : ConditionStatus;
  LastTransitionTime : Time;
  Reason : string;
  Message : string
}.

Definition ConditionTypeReady : string := "Ready".
Definition ConditionTypeSynced : string := "Synced".
Definition ReasonSuccess : string := "Success".
Definition ReasonFailed : string := "Failed".
Definition ReasonSyncSuspended : string := "SyncSuspended".

(** [setCondition] of both reconcilers, on the condition list: the first
    condition of type [condType] is updated in place (its transition time
    only when the status changes), otherwise a condition is appended. *)
Fixpoint setCondition (now : Time) (conds : list Condition) (condType : string)
  (status : ConditionStatus) (reason message : string) : list Condition :=
  match conds with
  | [] => [ {| Type_ := condType; Status_ := status; LastTransitionTime := now;
               Reason := reason; Message := message |} ]
  | c :: rest =>
      if String.eqb (Type_ c) condType then
        {| Type_ := Type_ c;
           Status_ := status;
           LastTransitionTime :=
             if ConditionStatus_eqb (Status_ c) status then LastTransitionTime c else now;
           Reason := reason;
           Message := message |} :: rest
      else c :: setCondition now rest condType status reason message
  end.

(** [controllerutil.ContainsFinalizer], [AddFinalizer], [RemoveFinalizer]
    on the finalizer list of an object. *)
Definition ContainsFinalizer (fs : list string) (f : string) : bool :=
  existsb (String.eqb f) fs.

Definition AddFinalizer (fs : list string) (f : string) : list string :=
  if ContainsFinalizer fs f then fs else fs ++ [f].

Definition RemoveFinalizer (fs : list string) (f : string) : list string :=
  List.filter (fun g => negb (String.eqb g f)) fs.

(** [ctrl.Result] *)
Record CtrlResult : Type := { RequeueAfter : Duration }.

Definition NoRequeue : CtrlResult := {| RequeueAfter := 0 |}.

(** What [client.Get] reports. *)
Inductive GetResult (T : Type) : Type :=
| Found (obj : T)
| NotFound
| GetFailed (e : string).
Arguments Found {T} obj.
Arguments NotFound {T}.
Arguments GetFailed {T} e.

End K8s.

(* ===================================================================== *)
(** * SHA-256 and hexadecimal encoding *)
(* ===================================================================== *)

Module SHA256.

Definition w32 (x : Z) : Z := x mod 2 ^ 32.
Definition add32 (x y : Z) : Z := w32 (x + y).
Definition rotr (n x : Z) : Z := w32 (Z.lor (Z.shiftr x n) (Z.shiftl x (32 - n))).
Definition shr (n x : Z) : Z := Z.shiftr x n.
Definition not32 (x : Z) : Z := 2 ^ 32 - 1 - x.

Definition Ch (x y z : Z) : Z := Z.lxor (Z.land x y) (Z.land (not32 x) z).
Definition Maj (x y z : Z) : Z := Z.lxor (Z.lxor (Z.land x y) (Z.land x z)) (Z.land y z).
Definition Sigma0 (x : Z) : Z := Z.lxor (Z.lxor (rotr 2 x) (rotr 13 x)) (rotr 22 x).
Definition Sigma1 (x : Z) : Z := Z.lxor (Z.lxor (rotr 6 x) (rotr 11 x)) (rotr 25 x).
Definition sigma0 (x : Z) : Z := Z.lxor (Z.lxor (rotr 7 x) (rotr 18 x)) (shr 3 x).
Definition sigma1 (x : Z) : Z := Z.lxor (Z.lxor (rotr 17 x) (rotr 19 x)) (shr 10 x).

(** The primes below [bound], by trial division. *)
Definition is_prime (n : nat) : bool :=
  (1 <? n)%nat && forallb (fun d => negb (n mod d =? 0)%nat) (seq 2 (n - 2)).

Definition primes_below (bound : nat) : list Z :=
  List.map Z.of_nat (List.filter is_prime (seq 0 bound)).

(** The integer cube root of a number below [2 ^ 105], bit by bit. *)
Definition icbrt (n : Z) : Z :=
  fold_left (fun r k => let r' := r + 2 ^ Z.of_nat k in
                        if r' * r' * r' <=? n then r' else r)
            (rev (seq 0 35)) 0.

(** The round constants: the first 32 bits of the fractional parts of the
    cube roots of the first 64 primes. *)
Definition K : list Z :=
  Eval vm_compute in List.map (fun p => w32 (icbrt (p * 2 ^ 96))) (primes_below 312).

(** The initial hash value: the first 32 bits of the fractional parts of
    the square roots of the first 8 primes. *)
Definition H0 : list Z :=
  Eval vm_compute in List.map (fun p => w32 (Z.sqrt (p * 2 ^ 64))) (primes_below 20).

Fixpoint bytes_of_string (s : string) : list Z :=
  match s with
  | EmptyString => []
  | String c s' => Z.of_nat (nat_of_ascii c) :: bytes_of_string s'
  end.

(** Big-endian bytes of a [nbytes]-byte word. *)
Fixpoint be_bytes (nbytes : nat) (x : Z) : list Z :=
  match nbytes with
  | O => []
  | S n => (Z.shiftr x (8 * Z.of_nat n)) mod 256 :: be_bytes n x
  end.

(** The message followed by the bit 1, zero bytes up to 56 modulo 64, and
    the bit length as a 64-bit big-endian number. *)
Definition pad (msg : list Z) : list Z :=
  let l := Z.of_nat (length msg) in
  let zeros := Z.to_nat ((55 - l) mod 64) in
  msg ++ [0x80] ++ List.repeat 0 zeros ++ be_bytes 8 (8 * l).

Fixpoint words_of_bytes (n : nat) (bs : list Z) : list Z :=
  match n with
  | O => []
  | S n' =>
      match bs with
      | b0 :: b1 :: b2 :: b3 :: rest =>
          (b0 * 2 ^ 24 + b1 * 2 ^ 16 + b2 * 2 ^ 8 + b3) :: words_of_bytes n' rest
      | _ => []
      end
  end.

(** The message schedule, most recent word first. *)
Fixpoint schedule (n : nat) (rev_w : list Z) : list Z :=
  match n with
  | O => rev_w
  | S n' =>
      let w2 := nth 1 rev_w 0 in
      let w7 := nth 6 rev_w 0 in
      let w15 := nth 14 rev_w 0 in
      let w16 := nth 15 rev_w 0 in
      schedule n' (add32 (add32 (sigma1 w2) w7) (add32 (sigma0 w15) w16) :: rev_w)
  end.

Definition round (st : list Z) (kw : Z * Z) : list Z :=
  match st with
  | [a; b; c; d; e; f; g; h] =>
      let t1 := add32 (add32 (add32 h (Sigma1 e)) (add32 (Ch e f g) (fst kw))) (snd kw) in
      let t2 := add32 (Sigma0 a) (Maj a b c) in
      [add32 t1 t2; a; b; c; add32 d t1; e; f; g]
  | _ => st
  end.

Definition compress (h : list Z) (block : list Z) : list Z :=
  let w := rev (schedule 48 (rev (words_of_bytes 16 block))) in
  let st := fold_left round (combine K w) h in
  List.map (fun p => add32 (fst p) (snd p)) (combine h st).

Fixpoint blocks (n : nat) (h : list Z) (bs : list Z) : list Z :=
  match n with
  | O => h
  | S n' =>
      match bs with
      | [] => h
      | _ => blocks n' (compress h (firstn 64 bs)) (skipn 64 bs)
      end
  end.

(** [sha256.Sum256]: the 32 bytes of the digest. *)
Definition Sum256 (msg : string) : list Z :=
  let bs := pad (bytes_of_string msg) in
  flat_map (be_bytes 4) (blocks (length bs) H0 bs).

Definition hex_digit (d : Z) : string :=
  String.substring (Z.to_nat d) 1 "0123456789abcdef".

(** [hex.EncodeToString] *)
Fixpoint EncodeToString (bs : list Z) : string :=
  match bs with
  | [] => ""
  | b :: rest => hex_digit (b / 16) +:+ hex_digit (b mod 16) +:+ EncodeToString rest
  end.

End SHA256.

(* ===================================================================== *)
(** * The backend client ([internal/openbao/client.go]) *)
(* ===================================================================== *)

Module OpenBao.
Import Eff GoTime GoValues.
Local Open Scope eff_scope.

(** [api.SecretAuth] and [api.Secret], the fields the program reads. *)
Record SecretAuth : Type := {
  ClientToken : string;
  LeaseDuration : Z
}.

Record Secret : Type := {
  RequestID : string;
  SecretData : option (list (string * Value));
  Auth : option SecretAuth
}.

(** The requests the API client sends to the backend. *)
Inductive ApiCall : Type :=
| ApiRead (token path : string)
| ApiWrite (token path : string) (data : list (string * Value))
| ApiRenewSelf (token : string).

(** The backend as the API client sees it: [Logical().Read],
    [Logical().Write] and [Auth().Token().RenewSelf], each sent with the
    current token of the client. *)
Class Api (W : Type) : Type := {
  logical_Read : string -> string -> W -> Result (option Secret) * W;
  logical_Write : string -> string -> list (string * Value) -> W -> Result (option Secret) * W;
  token_RenewSelf : string -> Z -> W -> Result (option Secret) * W
}.

(** The operating system: [time.Now], [os.Getenv], [os.ReadFile]. *)
Class Sys (W : Type) : Type := {
  time_Now : W -> Time * W;
  os_Getenv : string -> W -> string;
  os_ReadFile : string -> W -> Result string
}.

(** The state a call runs in: the world and the log of the requests sent
    to the backend so far. *)
Record Proc (W : Type) : Type := {
  world : W;
  apiLog : list ApiCall
}.
Arguments world {W} p.
Arguments apiLog {W} p.
Arguments Build_Proc {W} world apiLog.

Section Client.
Context {W : Type} `{Api W} `{Sys W}.

Definition Now : M (Proc W) Time :=
  call (fun p => let (t, w) := time_Now (world p) in
                 (t, {| world := w; apiLog := apiLog p |})).

Definition Getenv (name : string) : M (Proc W) string :=
  call (fun p => (os_Getenv name (world p), p)).

Definition ReadFile (path : string) : M (Proc W) (Result string) :=
  call (fun p => (os_ReadFile path (world p), p)).

Definition LogicalRead (token path : string) : M (Proc W) (Result (option Secret)) :=
  call (fun p => let (r, w) := logical_Read token path (world p) in
                 (r, {| world := w; apiLog := apiLog p ++ [ApiRead token path] |})).

Definition LogicalWrite (token path : string) (data : list (string * Value))
  : M (Proc W) (Result (option Secret)) :=
  call (fun p => let (r, w) := logical_Write token path data (world p) in
                 (r, {| world := w; apiLog := apiLog p ++ [ApiWrite token path data] |})).

Definition RenewSelf (token : string) (increment : Z) : M (Proc W) (Result (option Secret)) :=
  call (fun p => let (r, w) := token_RenewSelf token increment (world p) in
                 (r, {| world := w; apiLog := apiLog p ++ [ApiRenewSelf token] |})).

Record KubernetesAuthConfig : Type := {
  Role : string;
  MountPath : string;
  TokenPath : string
}.

Record Config : Type := {
  Address : string;
  Token : string;
  KubernetesAuth : option KubernetesAuthConfig;
  TransitMount : string;
  KVMount : string
}.

(** [Client]: its configuration, the token held by the wrapped API
    client, and [tokenExpiry]. *)
Record Client : Type := {
  config : Config;
  token : string;
  tokenExpiry : Time
}.

Definition SetToken (c : Client) (t : string) : Client :=
  {| config := config c; token := t; tokenExpiry := tokenExpiry c |}.

Definition setTokenExpiry (c : Client) (t : Time) : Client :=
  {| config := config c; token := token c; tokenExpiry := t |}.

(** [time.Duration(lease) * time.Second] in 64-bit arithmetic. *)
Definition leaseDuration (lease : Z) : Duration := wrap64 (lease * Second).

(** [Client.authenticateKubernetes] *)
Definition authenticateKubernetes (c : Client) (k8sAuth : KubernetesAuthConfig)
  : M (Proc W) (option string * Client) :=
  let mountPath := if String.eqb (MountPath k8sAuth) EmptyString
                   then "kubernetes" else MountPath k8sAuth in
  let tokenPath := if String.eqb (TokenPath k8sAuth) EmptyString
                   then "/var/run/secrets/kubernetes.io/serviceaccount/token"
                   else TokenPath k8sAuth in
  jwt <- ReadFile tokenPath ;;
  match jwt with
  | Err e => ret (Some ("failed to read service account token: " +:+ e), c)
  | Ok jwt =>
      let loginPath := "auth/" +:+ mountPath +:+ "/login" in
      let loginData := [("role", VString (Role k8sAuth)); ("jwt", VString jwt)] in
      r <- LogicalWrite (token c) loginPath loginData ;;
      match r with
      | Err e => ret (Some ("failed to login with Kubernetes auth: " +:+ e), c)
      | Ok None => ret (Some "no auth info returned from Kubernetes login", c)
      | Ok (Some secret) =>
          match Auth secret with
          | None => ret (Some "no auth info returned from Kubernetes login", c)
          | Some auth =>
              let c1 := SetToken c (ClientToken auth) in
              if 0 <? LeaseDuration auth then
                now <- Now ;;
                ret (None, setTokenExpiry c1 (Add now (leaseDuration (LeaseDuration auth))))
              else ret (None, c1)
          end
      end
  end.

(** [Client.authenticate] *)
Definition authenticate (c : Client) : M (Proc W) (option string * Client) :=
  if negb (String.eqb (Token (config c)) EmptyString) then
    ret (None, SetToken c (Token (config c)))
  else
    match KubernetesAuth (config c) with
    | Some k8sAuth => authenticateKubernetes c k8sAuth
    | None =>
        t1 <- Getenv "OPENBAO_TOKEN" ;;
        if negb (String.eqb t1 EmptyString) then ret (None, SetToken c t1)
        else
          t2 <- Getenv "VAULT_TOKEN" ;;
          if negb (String.eqb t2 EmptyString) then ret (None, SetToken c t2)
          else ret (Some "no authentication method configured", c)
    end.

(** [Client.RefreshToken] *)
Definition RefreshToken (c : Client) : M (Proc W) (option string * Client) :=
  let expiry := tokenExpiry c in
  if IsZero expiry then ret (None, c)
  else
    now <- Now ;;
    if 5 * Minute <? Until now expiry then ret (None, c)
    else
      r <- RenewSelf (token c) 0 ;;
      match r with
      | Ok (Some {| Auth := Some auth |}) =>
          now' <- Now ;;
          ret (None, setTokenExpiry c (Add now' (leaseDuration (LeaseDuration auth))))
      | _ => authenticate c
      end.


(** A computation that always returns and only appends to the log of
    backend requests. *)
Definition appending {A} (c : M (Proc W) A) : Prop :=
  forall p, exists a p' pre, c p = Done (a, p') /\ apiLog p' = apiLog p ++ pre.

(** [Client.WriteSecret]: a failed refresh is logged and otherwise
    ignored. *)
Definition WriteSecret (c : Client) (path : string) (data : list (string * Value))
  : M (Proc W) (Result (option Secret) * Client) :=
  rc <- RefreshToken c ;;
  let c1 := snd rc in
  r <- LogicalWrite (token c1) path data ;;
  match r with
  | Err e => ret (Err ("failed to write secret: " +:+ e), c1)
  | Ok secret => ret (Ok secret, c1)
  end.

(** [Client.ReadSecret] *)
Definition ReadSecret (c : Client) (path : string)
  : M (Proc W) (Result (option Secret) * Client) :=
  rc <- RefreshToken c ;;
  let c1 := snd rc in
  r <- LogicalRead (token c1) path ;;
  match r with
  | Err e => ret (Err ("failed to read secret: " +:+ e), c1)
  | Ok secret => ret (Ok secret, c1)
  end.

(** [Client.KVRead] *)
Definition KVRead (c : Client) (path : string)
  : M (Proc W) (Result (list (string * Value)) * Client) :=
  rc <- RefreshToken c ;;
  let c1 := snd rc in
  let fullPath := KVMount (config c1) +:+ "/data/" +:+ path in
  r <- LogicalRead (token c1) fullPath ;;
  match r with
  | Err e => ret (Err ("failed to read secret: " +:+ e), c1)
  | Ok None => ret (Err ("secret not found: " +:+ path), c1)
  | Ok (Some secret) =>
      match SecretData secret with
      | None => ret (Err ("secret not found: " +:+ path), c1)
      | Some d =>
          match lookup_entry "data" d with
          | Some (VMap data) => ret (Ok data, c1)
          | _ => ret (Err "invalid secret format", c1)
          end
      end
  end.

End Client.
End OpenBao.

(* ===================================================================== *)
(** * BaoPolicy: rendering and the policy reconciler *)
(* ===================================================================== *)

Module Policy.
Import Eff GoTime GoValues K8s OpenBao.
Local Open Scope eff_scope.

Definition dquote : string := String (ascii_of_nat 34) EmptyString.
Definition newline : string := String (ascii_of_nat 10) EmptyString.

(** [PolicyRule] of [api/v1alpha1] *)
Record PolicyRule : Type := {
  Path : string;
  Capabilities : list string;
  AllowedParameters : gmap string (list string);
  DeniedParameters : list string;
  RequiredParameters : list string;
  MinWrappingTTL : string;
  MaxWrappingTTL : string
}.

Record BaoPolicySpec : Type := {
  PolicyName : string;
  Rules : list PolicyRule
}.

Record BaoPolicyStatus : Type := {
  Conditions : list Condition;
  LastSyncTime : option Time;
  PolicyVersion : string;
  AppliedPolicyName : string;
  ObservedGeneration : Z
}.

Record BaoPolicy : Type := {
  Name : string;
  Namespace : string;
  Generation : Z;
  DeletionTimestamp : option Time;
  Finalizers : list string;
  Spec : BaoPolicySpec;
  Status : BaoPolicyStatus
}.

(** The loop that appends the elements of [xs] in double quotes,
    separated by a comma and a space:
<<
    for i, x := range xs { if i > 0 { hcl += ", " }; hcl += quote + x + quote }
>>
    started at index [i]. *)
Fixpoint quotedList (i : nat) (xs : list string) (hcl : string) : string :=
  match xs with
  | [] => hcl
  | x :: rest =>
      let hcl1 := if (0 <? i)%nat then hcl +:+ ", " else hcl in
      quotedList (S i) rest (hcl1 +:+ dquote +:+ x +:+ dquote)
  end.

(** The loop over [rule.AllowedParameters], its entries in the order
    [visit] of the [range] statement. *)
Fixpoint allowedEntries (visit : list (string * list string)) (hcl : string) : string :=
  match visit with
  | [] => hcl
  | (key, values) :: rest =>
      let hcl1 := hcl +:+ "    " +:+ dquote +:+ key +:+ dquote +:+ " = [" in
      let hcl2 := quotedList 0 values hcl1 in
      allowedEntries rest (hcl2 +:+ "]" +:+ newline)
  end.

Fixpoint deniedEntries (keys : list string) (hcl : string) : string :=
  match keys with
  | [] => hcl
  | key :: rest =>
      deniedEntries rest (hcl +:+ "    " +:+ dquote +:+ key +:+ dquote +:+ " = []" +:+ newline)
  end.

(** The body of the loop of [ToHCL] for one rule. *)
Definition ruleHCL (visit : list (string * list string)) (rule : PolicyRule) (hcl : string)
  : string :=
  let hcl := hcl +:+ "path " +:+ dquote +:+ Path rule +:+ dquote +:+ " {" +:+ newline in
  let hcl := hcl +:+ "  capabilities = [" in
  let hcl := quotedList 0 (Capabilities rule) hcl in
  let hcl := hcl +:+ "]" +:+ newline in
  let hcl :=
    if (0 <? size (AllowedParameters rule))%nat then
      allowedEntries visit (hcl +:+ "  allowed_parameters = {" +:+ newline)
        +:+ "  }" +:+ newline
    else hcl in
  let hcl :=
    if (0 <? length (DeniedParameters rule))%nat then
      deniedEntries (DeniedParameters rule) (hcl +:+ "  denied_parameters = {" +:+ newline)
        +:+ "  }" +:+ newline
    else hcl in
  let hcl :=
    if (0 <? length (RequiredParameters rule))%nat then
      quotedList 0 (RequiredParameters rule) (hcl +:+ "  required_parameters = [")
        +:+ "]" +:+ newline
    else hcl in
  let hcl :=
    if negb (String.eqb (MinWrappingTTL rule) EmptyString) then
      hcl +:+ "  min_wrapping_ttl = " +:+ dquote +:+ MinWrappingTTL rule +:+ dquote +:+ newline
    else hcl in
  let hcl :=
    if negb (String.eqb (MaxWrappingTTL rule) EmptyString) then
      hcl +:+ "  max_wrapping_ttl = " +:+ dquote +:+ MaxWrappingTTL rule +:+ dquote +:+ newline
    else hcl in
  hcl +:+ "}" +:+ newline +:+ newline.

(** The orders in which one call of [ToHCL] ranges over the
    [AllowedParameters] maps: [visit i m] for the map [m] of the rule at
    index [i]. *)
Definition RangeOrders : Type :=
  nat -> gmap string (list string) -> list (string * list string).

(** Every order of [visit] visits each entry of the map once. *)
Definition ranges_valid (visit : RangeOrders) : Prop :=
  forall i m, visit i m ≡ₚ map_to_list m.

Fixpoint rulesHCL (visit : RangeOrders) (i : nat) (rules : list PolicyRule) (hcl : string)
  : string :=
  match rules with
  | [] => hcl
  | rule :: rest =>
      rulesHCL visit (S i) rest (ruleHCL (visit i (AllowedParameters rule)) rule hcl)
  end.

(** [BaoPolicy.ToHCL] *)
Definition ToHCL (visit : RangeOrders) (p : BaoPolicy) : string :=
  rulesHCL visit 0 (Rules (Spec p)) EmptyString.

(** [BaoPolicy.GetPolicyName] *)
Definition GetPolicyName (p : BaoPolicy) : string :=
  if negb (String.eqb (PolicyName (Spec p)) EmptyString) then PolicyName (Spec p)
  else Name p.

(** [hex.EncodeToString(hash[:8])] for [hash := sha256.Sum256(doc)] *)
Definition contentVersion (doc : string) : string :=
  SHA256.EncodeToString (firstn 8 (SHA256.Sum256 doc)).

Definition setStatus (p : BaoPolicy) (st : BaoPolicyStatus) : BaoPolicy :=
  {| Name := Name p; Namespace := Namespace p; Generation := Generation p;
     DeletionTimestamp := DeletionTimestamp p; Finalizers := Finalizers p;
     Spec := Spec p; Status := st |}.

Definition setFinalizers (p : BaoPolicy) (fs : list string) : BaoPolicy :=
  {| Name := Name p; Namespace := Namespace p; Generation := Generation p;
     DeletionTimestamp := DeletionTimestamp p; Finalizers := fs;
     Spec := Spec p; Status := Status p |}.

Definition baoPolicyFinalizer : string := "kubebao.io/policy-finalizer".

(** [metav1.Time.IsZero] on the optional deletion timestamp. *)
Definition timestampIsZero (t : option Time) : bool :=
  match t with
  | None => true
  | Some t => IsZero t
  end.

(** The cluster API client of the reconciler ([client.Client] of
    controller-runtime) for objects of type [T]. *)
Class Cluster (W T : Type) : Type := {
  k8s_Get : string -> string -> W -> GetResult T * W;
  k8s_Update : T -> W -> option string * W;
  k8s_StatusUpdate : T -> W -> option string * W
}.

Section Reconciler.
Context {W : Type} `{Api W} `{Sys W} `{Cluster W BaoPolicy}.

Definition Get (ns name : string) : M (Proc W) (GetResult BaoPolicy) :=
  call (fun p => let (r, w) := k8s_Get ns name (world p) in
                 (r, {| world := w; apiLog := apiLog p |})).

Definition Update (obj : BaoPolicy) : M (Proc W) (option string) :=
  call (fun p => let (r, w) := k8s_Update obj (world p) in
                 (r, {| world := w; apiLog := apiLog p |})).

Definition StatusUpdate (obj : BaoPolicy) : M (Proc W) (option string) :=
  call (fun p => let (r, w) := k8s_StatusUpdate obj (world p) in
                 (r, {| world := w; apiLog := apiLog p |})).

(** [BaoPolicyReconciler.syncPolicy]: the error, the policy object as the
    call leaves it, and the reconciler's backend client as the call
    leaves it.  [visit] gives the orders of the [range] statements of
    this call's [ToHCL]. *)
Definition syncPolicy (visit : RangeOrders) (baoClient : option Client) (baoPolicy : BaoPolicy)
  : M (Proc W) (option string * BaoPolicy * option Client) :=
  match baoClient with
  | None => ret (Some "OpenBao client not configured", baoPolicy, baoClient)
  | Some c =>
      let policyHCL := ToHCL visit baoPolicy in
      let policyName := GetPolicyName baoPolicy in
      let version := contentVersion policyHCL in
      if String.eqb (PolicyVersion (Status baoPolicy)) version then
        ret (None, baoPolicy, baoClient)
      else
        let path := "sys/policies/acl/" +:+ policyName in
        let data := [("policy", VString policyHCL)] in
        rc <- WriteSecret c path data ;;
        match fst rc with
        | Err e =>
            ret (Some ("failed to write policy to OpenBao: " +:+ e), baoPolicy, Some (snd rc))
        | Ok _ =>
            let st := Status baoPolicy in
            let st' := {| Conditions := Conditions st;
                          LastSyncTime := LastSyncTime st;
                          PolicyVersion := version;
                          AppliedPolicyName := policyName;
                          ObservedGeneration := ObservedGeneration st |} in
            ret (None, setStatus baoPolicy st', Some (snd rc))
        end
  end.

Definition setReadyCondition (now : Time) (p : BaoPolicy) (status : ConditionStatus)
  (reason message : string) : BaoPolicy :=
  let st := Status p in
  setStatus p {| Conditions := setCondition now (Conditions st) ConditionTypeReady
                                            status reason message;
                 LastSyncTime := LastSyncTime st;
                 PolicyVersion := PolicyVersion st;
                 AppliedPolicyName := AppliedPolicyName st;
                 ObservedGeneration := ObservedGeneration st |}.

(** [BaoPolicyReconciler.handleDeletion]: the backend policy is not
    deleted, the finalizer is removed. *)
Definition handleDeletion (baoPolicy : BaoPolicy) : M (Proc W) (CtrlResult * option string) :=
  if ContainsFinalizer (Finalizers baoPolicy) baoPolicyFinalizer then
    let p' := setFinalizers baoPolicy (RemoveFinalizer (Finalizers baoPolicy) baoPolicyFinalizer) in
    e <- Update p' ;;
    match e with
    | Some e => ret (NoRequeue, Some e)
    | None => ret (NoRequeue, None)
    end
  else ret (NoRequeue, None).

(** [BaoPolicyReconciler.Reconcile] *)
Definition Reconcile (visit : RangeOrders) (baoClient : option Client) (ns name : string)
  : M (Proc W) (CtrlResult * option string * option Client) :=
  g <- Get ns name ;;
  match g with
  | NotFound => ret (NoRequeue, None, baoClient)
  | GetFailed e => ret (NoRequeue, Some e, baoClient)
  | Found baoPolicy =>
      if negb (timestampIsZero (DeletionTimestamp baoPolicy)) then
        r <- handleDeletion baoPolicy ;;
        ret (r, baoClient)
      else
        let withFinalizer :=
          setFinalizers baoPolicy (AddFinalizer (Finalizers baoPolicy) baoPolicyFinalizer) in
        e <- (if negb (ContainsFinalizer (Finalizers baoPolicy) baoPolicyFinalizer)
              then Update withFinalizer else ret None) ;;
        match e with
        | Some e => ret (NoRequeue, Some e, baoClient)
        | None =>
            let baoPolicy :=
              if negb (ContainsFinalizer (Finalizers baoPolicy) baoPolicyFinalizer)
              then withFinalizer else baoPolicy in
            r <- syncPolicy visit baoClient baoPolicy ;;
            let '(err, baoPolicy, baoClient) := r in
            match err with
            | Some err =>
                now <- Now ;;
                let p' := setReadyCondition now baoPolicy ConditionFalse ReasonFailed err in
                e <- StatusUpdate p' ;;
                match e with
                | Some e => ret (NoRequeue, Some e, baoClient)
                | None => ret ({| RequeueAfter := 30 * Second |}, None, baoClient)
                end
            | None =>
                now <- Now ;;
                let st := Status baoPolicy in
                let p1 := setStatus baoPolicy
                            {| Conditions := Conditions st;
                               LastSyncTime := Some now;
                               PolicyVersion := PolicyVersion st;
                               AppliedPolicyName := AppliedPolicyName st;
                               ObservedGeneration := Generation baoPolicy |} in
                now' <- Now ;;
                let p2 := setReadyCondition now' p1 ConditionTrue ReasonSuccess
                                            "Policy synced successfully" in
                e <- StatusUpdate p2 ;;
                match e with
                | Some e => ret (NoRequeue, Some e, baoClient)
                | None => ret ({| RequeueAfter := 5 * Minute |}, None, baoClient)
                end
            end
        end
  end.

End Reconciler.
End Policy.

(* ===================================================================== *)
(** * The KMS plugin server *)
(* ===================================================================== *)

Module KMS.
Import Eff.
Local Open Scope eff_scope.

(** [fmt.Sprintf("%d", n)] for a Go [int]. *)
Definition itoa (n : Z) : string := NilZero.string_of_int (Z.to_int n).

(** [TransitKeyInfo] of [internal/kms/transit.go] *)
Record TransitKeyInfo : Type := {
  Name : string;
  LatestVersion : Z;
  Type_ : string;
  Exportable : bool
}.

(** The operations of [TransitClient] the server calls;
    [Transit.transitClient] below gives them as [internal/kms/transit.go]
    and [internal/openbao/client.go] define them. *)
Class Transit (W : Type) : Type := {
  transit_GetKeyInfo : string -> W -> Result TransitKeyInfo * W;
  transit_CreateKey : string -> string -> W -> option string * W;
  transit_Encrypt : string -> string -> W -> Result string * W;
  transit_Decrypt : string -> string -> W -> Result string * W
}.

Record Config : Type := {
  KeyName : string;
  KeyType : string;
  CreateKeyIfNotExists : bool
}.

(** The guarded state of [Server]: [keyID] and [healthy]. *)
Record Server : Type := {
  config : Config;
  keyID : string;
  healthy : bool
}.

Definition APIVersion : string := "v2".
Definition HealthStatusOK : string := "ok".

(** [v2.StatusResponse] *)
Record StatusResponse : Type := {
  Version : string;
  Healthz : string;
  KeyId : string
}.

(** [v2.EncryptResponse] *)
Record EncryptResponse : Type := {
  Ciphertext : string;
  EncKeyId : string;
  Annotations : list (string * string)
}.

(** [v2.DecryptResponse] *)
Record DecryptResponse : Type := {
  Plaintext : string
}.

(** [fmt.Sprintf("%s:v%d", name, version)] *)
Definition formatKeyID (name : string) (version : Z) : string :=
  name +:+ ":v" +:+ itoa version.

Section Server.
Context {W : Type} `{Transit W}.

Definition GetKeyInfo (name : string) : M W (Result TransitKeyInfo) :=
  call (transit_GetKeyInfo name).

Definition CreateKey (name type : string) : M W (option string) :=
  call (transit_CreateKey name type).

(** [NewServer] leaves [healthy] false and [keyID] empty before
    [initialize] runs. *)
Definition newServer (cfg : Config) : Server :=
  {| config := cfg; keyID := EmptyString; healthy := false |}.

(** [Server.initialize] *)
Definition initialize (s : Server) : M W (option string * Server) :=
  let ready (info : TransitKeyInfo) :=
    {| config := config s;
       keyID := formatKeyID (KeyName (config s)) (LatestVersion info);
       healthy := true |} in
  r <- GetKeyInfo (KeyName (config s)) ;;
  match r with
  | Ok keyInfo => ret (None, ready keyInfo)
  | Err e =>
      if negb (CreateKeyIfNotExists (config s)) then
        ret (Some ("transit key not found and createKeyIfNotExists is false: " +:+ e), s)
      else
        ce <- CreateKey (KeyName (config s)) (KeyType (config s)) ;;
        match ce with
        | Some e => ret (Some ("failed to create transit key: " +:+ e), s)
        | None =>
            r2 <- GetKeyInfo (KeyName (config s)) ;;
            match r2 with
            | Err e => ret (Some ("failed to get key info after creation: " +:+ e), s)
            | Ok keyInfo => ret (None, ready keyInfo)
            end
        end
  end.

(** [Server.Status]: no effect on the server or the world. *)
Definition Status (s : Server) : StatusResponse :=
  let healthStatus := if negb (healthy s) then "unhealthy" else HealthStatusOK in
  {| Version := APIVersion; Healthz := healthStatus; KeyId := keyID s |}.

(** [Server.Encrypt] *)
Definition Encrypt (s : Server) (plaintext : string) : M W (Result EncryptResponse) :=
  if (String.length plaintext =? 0)%nat then ret (Err "plaintext cannot be empty")
  else
    r <- call (transit_Encrypt (KeyName (config s)) plaintext) ;;
    match r with
    | Err e => ret (Err ("encryption failed: " +:+ e))
    | Ok ciphertext =>
        ret (Ok {| Ciphertext := ciphertext;
                   EncKeyId := keyID s;
                   Annotations := [("kubebao.io/key-name", KeyName (config s))] |})
    end.

(** [Server.Decrypt]: the key id of the request is logged and not looked
    at otherwise. *)
Definition Decrypt (s : Server) (keyId ciphertext : string) : M W (Result DecryptResponse) :=
  if (String.length ciphertext =? 0)%nat then ret (Err "ciphertext cannot be empty")
  else
    r <- call (transit_Decrypt (KeyName (config s)) ciphertext) ;;
    match r with
    | Err e => ret (Err ("decryption failed: " +:+ e))
    | Ok plaintext => ret (Ok {| Plaintext := plaintext |})
    end.

(** [Server.GetKeyID] and [Server.IsHealthy] *)
Definition GetKeyID (s : Server) : string := keyID s.
Definition IsHealthy (s : Server) : bool := healthy s.

(** [Server.performHealthCheck] *)
Definition performHealthCheck (s : Server) : M W Server :=
  r <- GetKeyInfo (KeyName (config s)) ;;
  match r with
  | Err _ => ret {| config := config s; keyID := keyID s; healthy := false |}
  | Ok keyInfo =>
      let newKeyID := formatKeyID (KeyName (config s)) (LatestVersion keyInfo) in
      let keyID' := if negb (String.eqb newKeyID (keyID s)) then newKeyID else keyID s in
      ret {| config := config s; keyID := keyID'; healthy := true |}
  end.

(** [Server.healthCheckLoop], for the ticks delivered before the context
    is cancelled. *)
Fixpoint healthCheckLoop (ticks : nat) (s : Server) : M W Server :=
  match ticks with
  | O => ret s
  | S n => s' <- performHealthCheck s ;; healthCheckLoop n s'
  end.

End Server.
End KMS.

(* ===================================================================== *)
(** * The BaoSecret reconciler *)
(* ===================================================================== *)

Module SecretSync.
Import Eff GoTime GoValues K8s OpenBao Template.
Local Open Scope eff_scope.

Record SecretTarget : Type := {
  TargetName : string;
  TargetNamespace : string;
  TargetType : string;
  Labels : gmap string string;
  Annotations : gmap string string;
  CreationPolicy : string
}.

Record BaoSecretSpec : Type := {
  SecretPath : string;
  SecretKey : string;
  Target : SecretTarget;
  RefreshInterval : string;
  Template : option SecretTemplate;
  SuspendSync : bool
}.

Record BaoSecretStatus : Type := {
  Conditions : list Condition;
  LastSyncTime : option Time;
  SecretVersion : string;
  SyncedSecretName : string;
  SyncedSecretNamespace : string;
  ObservedGeneration : Z
}.

Record BaoSecret : Type := {
  Name : string;
  Namespace : string;
  Generation : Z;
  DeletionTimestamp : option Time;
  Finalizers : list string;
  Spec : BaoSecretSpec;
  Status : BaoSecretStatus
}.

(** [corev1.Secret], the fields the reconciler sets; [Controller] is the
    controlling owner reference, if any. *)
Record K8sSecret : Type := {
  ObjName : string;
  ObjNamespace : string;
  ObjLabels : gmap string string;
  ObjAnnotations : gmap string string;
  ObjType : string;
  ObjData : gmap string string;
  Controller : option (string * string)
}.

Definition baoSecretFinalizer : string := "kubebao.io/finalizer".
Definition defaultRefreshInterval : Duration := Hour.

(** Library functions of the Go runtime the reconciler calls:
    [time.ParseDuration] and [json.Marshal] on a [map[string][]byte]. *)
Class GoLib : Type := {
  time_ParseDuration : string -> Result Duration;
  json_Marshal_data : gmap string string -> string
}.

(** The cluster API client for BaoSecret objects and for the target
    Secret: [controllerutil.CreateOrUpdate] fetches the object, applies
    the mutation to it and creates or updates it. *)
Class Cluster (W : Type) : Type := {
  k8s_Get : string -> string -> W -> GetResult BaoSecret * W;
  k8s_Update : BaoSecret -> W -> option string * W;
  k8s_StatusUpdate : BaoSecret -> W -> option string * W;
  k8s_CreateOrUpdate :
    K8sSecret -> (K8sSecret -> Result K8sSecret) -> W -> Result K8sSecret * W
}.

Section Reconciler.
Context {W : Type} `{Api W} `{Sys W} `{Cluster W} `{GoLib}.

(** [BaoSecretReconciler.parseRefreshInterval] *)
Definition parseRefreshInterval (interval : string) : Duration :=
  if String.eqb interval EmptyString then defaultRefreshInterval
  else
    match time_ParseDuration interval with
    | Err _ => defaultRefreshInterval
    | Ok d => if d <? Minute then Minute else d
    end.

(** [BaoSecretReconciler.calculateVersion] *)
Definition calculateVersion (data : gmap string string) : string :=
  SHA256.EncodeToString (firstn 8 (SHA256.Sum256 (json_Marshal_data data))).

Definition Get (ns name : string) : M (Proc W) (GetResult BaoSecret) :=
  call (fun p => let (r, w) := k8s_Get ns name (world p) in
                 (r, {| world := w; apiLog := apiLog p |})).

Definition Update (obj : BaoSecret) : M (Proc W) (option string) :=
  call (fun p => let (r, w) := k8s_Update obj (world p) in
                 (r, {| world := w; apiLog := apiLog p |})).

Definition StatusUpdate (obj : BaoSecret) : M (Proc W) (option string) :=
  call (fun p => let (r, w) := k8s_StatusUpdate obj (world p) in
                 (r, {| world := w; apiLog := apiLog p |})).

Definition CreateOrUpdate (obj : K8sSecret) (mutate : K8sSecret -> Result K8sSecret)
  : M (Proc W) (Result K8sSecret) :=
  call (fun p => let (r, w) := k8s_CreateOrUpdate obj mutate (world p) in
                 (r, {| world := w; apiLog := apiLog p |})).

Definition setStatus (b : BaoSecret) (st : BaoSecretStatus) : BaoSecret :=
  {| Name := Name b; Namespace := Namespace b; Generation := Generation b;
     DeletionTimestamp := DeletionTimestamp b; Finalizers := Finalizers b;
     Spec := Spec b; Status := st |}.

Definition setFinalizers (b : BaoSecret) (fs : list string) : BaoSecret :=
  {| Name := Name b; Namespace := Namespace b; Generation := Generation b;
     DeletionTimestamp := DeletionTimestamp b; Finalizers := fs;
     Spec := Spec b; Status := Status b |}.

(** [BaoSecretReconciler.setCondition] *)
Definition setConditionOf (now : Time) (b : BaoSecret) (condType : string)
  (status : ConditionStatus) (reason message : string) : BaoSecret :=
  let st := Status b in
  setStatus b {| Conditions := setCondition now (Conditions st) condType status reason message;
                 LastSyncTime := LastSyncTime st;
                 SecretVersion := SecretVersion st;
                 SyncedSecretName := SyncedSecretName st;
                 SyncedSecretNamespace := SyncedSecretNamespace st;
                 ObservedGeneration := ObservedGeneration st |}.

(** [controllerutil.SetControllerReference]: refused when the object is
    controlled by another owner. *)
Definition SetControllerReference (owner : BaoSecret) (obj : K8sSecret) : Result K8sSecret :=
  let ref := (Namespace owner, Name owner) in
  let owned := {| ObjName := ObjName obj; ObjNamespace := ObjNamespace obj;
                  ObjLabels := ObjLabels obj; ObjAnnotations := ObjAnnotations obj;
                  ObjType := ObjType obj; ObjData := ObjData obj;
                  Controller := Some ref |} in
  match Controller obj with
  | None => Ok owned
  | Some r =>
      if String.eqb (fst r) (fst ref) && String.eqb (snd r) (snd ref) then Ok owned
      else Err "Object is already owned by another controller"
  end.

(** The mutation function [syncSecret] passes to [CreateOrUpdate]. *)
Definition mutateSecret (baoSecret : BaoSecret) (targetNamespace version : string)
  (data : gmap string string) (secret : K8sSecret) : Result K8sSecret :=
  let target := Target (Spec baoSecret) in
  let labels :=
    Labels target ∪
    <["kubebao.io/baosecret" := Name baoSecret]>
      (<["kubebao.io/managed-by" := "kubebao-operator"]> (ObjLabels secret)) in
  let annotations :=
    Annotations target ∪
    <["kubebao.io/version" := version]>
      (<["kubebao.io/source-path" := SecretPath (Spec baoSecret)]> (ObjAnnotations secret)) in
  let type := if negb (String.eqb (TargetType target) EmptyString)
              then TargetType target else "Opaque" in
  let secret' := {| ObjName := ObjName secret; ObjNamespace := ObjNamespace secret;
                    ObjLabels := labels; ObjAnnotations := annotations;
                    ObjType := type; ObjData := data;
                    Controller := Controller secret |} in
  if String.eqb (CreationPolicy target) "Owner"
     || String.eqb (CreationPolicy target) EmptyString then
    if String.eqb targetNamespace (Namespace baoSecret)
    then SetControllerReference baoSecret secret'
    else Ok secret'
  else Ok secret'.

(** [BaoSecretReconciler.syncSecret]: the error, the object and the
    backend client as the call leaves them.  [fuel] bounds the loops of
    [replaceAll] and [rng] gives the visiting orders of the template
    substitution. *)
Definition syncSecret (fuel : nat) (rng : Ranges) (baoClient : option Client)
  (baoSecret : BaoSecret) : M (Proc W) (option string * BaoSecret * option Client) :=
  match baoClient with
  | None => ret (Some "OpenBao client not configured", baoSecret, baoClient)
  | Some c =>
      rc <- KVRead c (SecretPath (Spec baoSecret)) ;;
      let baoClient := Some (snd rc) in
      match fst rc with
      | Err e => ret (Some ("failed to read secret from OpenBao: " +:+ e), baoSecret, baoClient)
      | Ok entries =>
          let secretData : gmap string Value := list_to_map entries in
          let key := SecretKey (Spec baoSecret) in
          let extracted : Result (gmap string string) :=
            if negb (String.eqb key EmptyString) then
              match secretData !! key with
              | None => Err ("key " +:+ key +:+ " not found in secret")
              | Some value => Ok {[ key := Sprint value ]}
              end
            else Ok (Sprint <$> secretData) in
          match extracted with
          | Err e => ret (Some e, baoSecret, baoClient)
          | Ok data =>
              templated <-
                match Template (Spec baoSecret) with
                | None => ret data
                | Some template =>
                    match applyTemplate fuel rng data template secretData with
                    | Some data' => ret data'
                    | None => timeout
                    end
                end ;;
              let targetNamespace :=
                if String.eqb (TargetNamespace (Target (Spec baoSecret))) EmptyString
                then Namespace baoSecret
                else TargetNamespace (Target (Spec baoSecret)) in
              let version := calculateVersion templated in
              let secret := {| ObjName := TargetName (Target (Spec baoSecret));
                               ObjNamespace := targetNamespace;
                               ObjLabels := ∅; ObjAnnotations := ∅;
                               ObjType := EmptyString; ObjData := ∅;
                               Controller := None |} in
              r <- CreateOrUpdate secret
                     (mutateSecret baoSecret targetNamespace version templated) ;;
              match r with
              | Err e => ret (Some ("failed to create/update secret: " +:+ e),
                              baoSecret, baoClient)
              | Ok stored =>
                  let st := Status baoSecret in
                  ret (None,
                       setStatus baoSecret
                         {| Conditions := Conditions st;
                            LastSyncTime := LastSyncTime st;
                            SecretVersion := version;
                            SyncedSecretName := ObjName stored;
                            SyncedSecretNamespace := ObjNamespace stored;
                            ObservedGeneration := ObservedGeneration st |},
                       baoClient)
              end
          end
      end
  end.

(** [BaoSecretReconciler.handleDeletion] *)
Definition handleDeletion (baoSecret : BaoSecret) : M (Proc W) (CtrlResult * option string) :=
  if ContainsFinalizer (Finalizers baoSecret) baoSecretFinalizer then
    let b' := setFinalizers baoSecret (RemoveFinalizer (Finalizers baoSecret) baoSecretFinalizer) in
    e <- Update b' ;;
    match e with
    | Some e => ret (NoRequeue, Some e)
    | None => ret (NoRequeue, None)
    end
  else ret (NoRequeue, None).

(** [BaoSecretReconciler.Reconcile] *)
Definition Reconcile (fuel : nat) (rng : Ranges) (baoClient : option Client) (ns name : string)
  : M (Proc W) (CtrlResult * option string * option Client) :=
  g <- Get ns name ;;
  match g with
  | NotFound => ret (NoRequeue, None, baoClient)
  | GetFailed e => ret (NoRequeue, Some e, baoClient)
  | Found baoSecret =>
      if negb (Policy.timestampIsZero (DeletionTimestamp baoSecret)) then
        r <- handleDeletion baoSecret ;;
        ret (r, baoClient)
      else
        let withFinalizer :=
          setFinalizers baoSecret (AddFinalizer (Finalizers baoSecret) baoSecretFinalizer) in
        e <- (if negb (ContainsFinalizer (Finalizers baoSecret) baoSecretFinalizer)
              then Update withFinalizer else ret None) ;;
        match e with
        | Some e => ret (NoRequeue, Some e, baoClient)
        | None =>
            let baoSecret :=
              if negb (ContainsFinalizer (Finalizers baoSecret) baoSecretFinalizer)
              then withFinalizer else baoSecret in
            if SuspendSync (Spec baoSecret) then
              now <- Now ;;
              let b' := setConditionOf now baoSecret ConditionTypeReady ConditionFalse
                                       ReasonSyncSuspended "Sync is suspended" in
              e <- StatusUpdate b' ;;
              match e with
              | Some e => ret (NoRequeue, Some e, baoClient)
              | None => ret (NoRequeue, None, baoClient)
              end
            else
              r <- syncSecret fuel rng baoClient baoSecret ;;
              let '(err, baoSecret, baoClient) := r in
              match err with
              | Some err =>
                  now1 <- Now ;;
                  let b1 := setConditionOf now1 baoSecret ConditionTypeSynced ConditionFalse
                                           ReasonFailed err in
                  now2 <- Now ;;
                  let b2 := setConditionOf now2 b1 ConditionTypeReady ConditionFalse
                                           ReasonFailed "Failed to sync secret" in
                  e <- StatusUpdate b2 ;;
                  match e with
                  | Some e => ret (NoRequeue, Some e, baoClient)
                  | None => ret ({| RequeueAfter := 30 * Second |}, None, baoClient)
                  end
              | None =>
                  now <- Now ;;
                  let st := Status baoSecret in
                  let b0 := setStatus baoSecret
                              {| Conditions := Conditions st;
                                 LastSyncTime := Some now;
                                 SecretVersion := SecretVersion st;
                                 SyncedSecretName := SyncedSecretName st;
                                 SyncedSecretNamespace := SyncedSecretNamespace st;
                                 ObservedGeneration := Generation baoSecret |} in
                  now1 <- Now ;;
                  let b1 := setConditionOf now1 b0 ConditionTypeSynced ConditionTrue
                                           ReasonSuccess "Secret synced successfully" in
                  now2 <- Now ;;
                  let b2 := setConditionOf now2 b1 ConditionTypeReady ConditionTrue
                                           ReasonSuccess "Secret is ready" in
                  e <- StatusUpdate b2 ;;
                  match e with
                  | Some e => ret (NoRequeue, Some e, baoClient)
                  | None =>
                      let refreshInterval :=
                        parseRefreshInterval (RefreshInterval (Spec baoSecret)) in
                      ret ({| RequeueAfter := refreshInterval |}, None, baoClient)
                  end
              end
        end
  end.

End Reconciler.
End SecretSync.

(* ===================================================================== *)
(** * The CSI provider: authentication, secrets fetcher, cache, Mount *)
(* ===================================================================== *)

Module CSI.
Import Eff GoTime GoStrings GoValues OpenBao.
Local Open Scope eff_scope.

(** [SecretObject] *)
Record SecretObject : Type := {
  ObjectName : string;
  SecretPath : string;
  SecretKey : string;
  SecretArgs : gmap string string;
  Encoding : string;
  FilePermission : string
}.

(** [FetchedSecret] *)
Record FetchedSecret : Type := {
  FetchedName : string;
  Content : string;
  Version : string;
  Mode : Z
}.

(** [MountParams] *)
Record MountParams : Type := {
  RoleName : string;
  OpenBaoAddress : string;
  AuthMethod : string;
  AuthMountPath : string;
  Namespace : string;
  Objects : list SecretObject;
  Audience : string
}.

(** [AuthConfig] of [internal/csi/auth.go] *)
Record AuthConfig : Type := {
  AuthAddress : string;
  AuthMethod_ : string;
  AuthMountPath_ : string;
  AuthRole : string;
  AuthNamespace : string;
  ServiceAccountToken : string;
  AuthAudience : string
}.

(** [AuthenticatedClient]: its configuration, the token held by the
    wrapped API client, and [tokenExpiry]. *)
Record AuthenticatedClient : Type := {
  authConfig : AuthConfig;
  token : string;
  tokenExpiry : Time
}.

(** The provider configuration [Config], the fields [Mount] reads. *)
Record Config : Type := {
  CacheTTL : Duration;
  DefaultAuthMethod : string;
  DefaultRole : string;
  DefaultAddress : string
}.

(** The messages of the provider protocol. *)
Record MountRequest : Type := {
  Attributes : string;
  Secrets : string;
  TargetPath : string;
  Permission : string
}.

Record File : Type := {
  FilePath : string;
  FileMode : Z;
  Contents : string
}.

Record ObjectVersion : Type := {
  Id : string;
  ObjVersion : string
}.

Record Error : Type := { Code : string }.

Record MountResponse : Type := {
  RespObjectVersion : list ObjectVersion;
  RespError : option Error;
  Files : list File
}.

(** [cacheEntry] *)
Record cacheEntry : Type := {
  secret : FetchedSecret;
  expiresAt : Time
}.

(** Library functions the provider calls.  [json_Unmarshal_map] decodes
    into a nil [map[string]string]: the map it leaves ([None]: still nil)
    and its error; [fmt_Sscanf_octal] is the value
    [fmt.Sscanf(perm, "%o", &mode)] leaves in [mode], zero when nothing is
    scanned. *)
Class CsiLib : Type := {
  json_Unmarshal_map : string -> option (gmap string string) * option string;
  yaml_Unmarshal_objects : string -> Result (list SecretObject);
  json_Unmarshal_objects : string -> Result (list SecretObject);
  json_Marshal_map : list (string * Value) -> Result string;
  base64_Encode : string -> string;
  fmt_Sscanf_octal : string -> Z;
  api_NewClient : string -> option string
}.

(** The state of the provider process: the world with the log of backend
    requests, and the entries of the secrets cache. *)
Record St (W : Type) : Type := {
  proc : Proc W;
  entries : gmap string cacheEntry
}.
Arguments proc {W} s.
Arguments entries {W} s.
Arguments Build_St {W} proc entries.

Section Provider.
Context {W : Type} `{Api W} `{Sys W} `{CsiLib}.
Variable cfg : Config.

(** Run a computation of the process in the provider state. *)
Definition liftProc {A} (c : M (Proc W) A) : M (St W) A :=
  fun st => match c (proc st) with
            | Done (a, p') => Done (a, {| proc := p'; entries := entries st |})
            | Panicked msg => Panicked msg
            | OutOfFuel => OutOfFuel
            end.

(** ** Authentication ([auth.go]) *)

Definition SetToken (c : AuthenticatedClient) (t : string) : AuthenticatedClient :=
  {| authConfig := authConfig c; token := t; tokenExpiry := tokenExpiry c |}.

Definition setTokenExpiry (c : AuthenticatedClient) (t : Time) : AuthenticatedClient :=
  {| authConfig := authConfig c; token := token c; tokenExpiry := t |}.

(** The login shared by [authenticateKubernetes] and [authenticateJWT]. *)
Definition login (c : AuthenticatedClient) (method mountPath jwt : string)
  : M (Proc W) (option string * AuthenticatedClient) :=
  let loginPath := "auth/" +:+ mountPath +:+ "/login" in
  let loginData := [("role", VString (AuthRole (authConfig c))); ("jwt", VString jwt)] in
  r <- LogicalWrite (token c) loginPath loginData ;;
  match r with
  | Err e => ret (Some (method +:+ " auth login failed: " +:+ e), c)
  | Ok None => ret (Some ("no auth info returned from " +:+ method +:+ " login"), c)
  | Ok (Some secret) =>
      match Auth secret with
      | None => ret (Some ("no auth info returned from " +:+ method +:+ " login"), c)
      | Some auth =>
          let c1 := SetToken c (ClientToken auth) in
          if 0 <? LeaseDuration auth then
            now <- Now ;;
            ret (None, setTokenExpiry c1 (Add now (leaseDuration (LeaseDuration auth))))
          else ret (None, c1)
      end
  end.

(** [AuthenticatedClient.authenticateKubernetes] *)
Definition authenticateKubernetes (c : AuthenticatedClient)
  : M (Proc W) (option string * AuthenticatedClient) :=
  let mountPath := if String.eqb (AuthMountPath_ (authConfig c)) EmptyString
                   then "kubernetes" else AuthMountPath_ (authConfig c) in
  if String.eqb (ServiceAccountToken (authConfig c)) EmptyString then
    r <- ReadFile "/var/run/secrets/kubernetes.io/serviceaccount/token" ;;
    match r with
    | Err e => ret (Some ("failed to read service account token: " +:+ e), c)
    | Ok jwt => login c "kubernetes" mountPath jwt
    end
  else login c "kubernetes" mountPath (ServiceAccountToken (authConfig c)).

(** [AuthenticatedClient.authenticateJWT] *)
Definition authenticateJWT (c : AuthenticatedClient)
  : M (Proc W) (option string * AuthenticatedClient) :=
  if String.eqb (ServiceAccountToken (authConfig c)) EmptyString then
    ret (Some "JWT token is required for jwt auth", c)
  else
    let mountPath := if String.eqb (AuthMountPath_ (authConfig c)) EmptyString
                     then "jwt" else AuthMountPath_ (authConfig c) in
    login c "jwt" mountPath (ServiceAccountToken (authConfig c)).

(** [AuthenticatedClient.authenticateToken] *)
Definition authenticateToken (c : AuthenticatedClient)
  : M (Proc W) (option string * AuthenticatedClient) :=
  t1 <- Getenv "OPENBAO_TOKEN" ;;
  t2 <- (if String.eqb t1 EmptyString then Getenv "VAULT_TOKEN" else ret t1) ;;
  if String.eqb t2 EmptyString then ret (Some "no token available for token auth", c)
  else ret (None, SetToken c t2).

(** [AuthenticatedClient.authenticate] *)
Definition authenticateClient (c : AuthenticatedClient)
  : M (Proc W) (option string * AuthenticatedClient) :=
  if String.eqb (AuthMethod_ (authConfig c)) "kubernetes" then authenticateKubernetes c
  else if String.eqb (AuthMethod_ (authConfig c)) "jwt" then authenticateJWT c
  else if String.eqb (AuthMethod_ (authConfig c)) "token" then authenticateToken c
  else ret (Some ("unsupported auth method: " +:+ AuthMethod_ (authConfig c)), c).

(** [NewAuthenticatedClient]; the provider never sets a TLS
    configuration. *)
Definition NewAuthenticatedClient (config : AuthConfig)
  : M (Proc W) (Result AuthenticatedClient) :=
  if String.eqb (AuthAddress config) EmptyString then ret (Err "OpenBao address is required")
  else
    match api_NewClient (AuthAddress config) with
    | Some e => ret (Err ("failed to create OpenBao client: " +:+ e))
    | None =>
        let authClient := {| authConfig := config; token := EmptyString; tokenExpiry := 0 |} in
        r <- authenticateClient authClient ;;
        match fst r with
        | Some e => ret (Err ("authentication failed: " +:+ e))
        | None => ret (Ok (snd r))
        end
    end.

(** [AuthenticatedClient.RefreshToken] *)
Definition RefreshToken (c : AuthenticatedClient)
  : M (Proc W) (option string * AuthenticatedClient) :=
  let expiry := tokenExpiry c in
  if IsZero expiry then ret (None, c)
  else
    now <- Now ;;
    if 5 * Minute <? Until now expiry then ret (None, c)
    else
      r <- RenewSelf (token c) 0 ;;
      match r with
      | Ok (Some {| Auth := Some auth |}) =>
          now' <- Now ;;
          ret (None, setTokenExpiry c (Add now' (leaseDuration (LeaseDuration auth))))
      | _ => authenticateClient c
      end.

(** [AuthenticatedClient.ReadSecret] *)
Definition ReadSecret (c : AuthenticatedClient) (path : string)
  : M (Proc W) (Result (option Secret) * AuthenticatedClient) :=
  rc <- RefreshToken c ;;
  r <- LogicalRead (token (snd rc)) path ;;
  ret (r, snd rc).

(** [AuthenticatedClient.WriteSecret] *)
Definition WriteSecret (c : AuthenticatedClient) (path : string)
  (data : list (string * Value))
  : M (Proc W) (Result (option Secret) * AuthenticatedClient) :=
  rc <- RefreshToken c ;;
  r <- LogicalWrite (token (snd rc)) path data ;;
  ret (r, snd rc).

(** ** The secrets cache *)

(** [secretsCache.get]: the clock is read only when the key is present. *)
Definition cache_get (key : string) : M (St W) (option FetchedSecret) :=
  fun st =>
    match entries st !! key with
    | None => Done (None, st)
    | Some entry =>
        (now <- liftProc Now ;;
         if After now (expiresAt entry) then ret None else ret (Some (secret entry))) st
    end.

(** [secretsCache.set] with [c.ttl = config.CacheTTL] *)
Definition cache_set (key : string) (s : FetchedSecret) : M (St W) unit :=
  now <- liftProc Now ;;
  fun st =>
    Done (tt, {| proc := proc st;
                 entries := <[key := {| secret := s; expiresAt := Add now (CacheTTL cfg) |}]>
                              (entries st) |}).

(** The provider state after a clock reading that leaves the world [w]. *)
Definition after_clock (st : St W) (w : W) : St W :=
  {| proc := {| world := w; apiLog := apiLog (proc st) |}; entries := entries st |}.

(** [SecretsFetcher.cacheKey] *)
Definition cacheKey (obj : SecretObject) : string :=
  SecretPath obj +:+ ":" +:+ SecretKey obj +:+ ":" +:+ ObjectName obj.

(** ** The secrets fetcher *)

(** [parseFilePermission] *)
Definition parseFilePermission (perm : string) : Z :=
  if String.eqb perm EmptyString then 420
  else
    let perm := if HasPrefix perm "0" then substr perm 1 (len perm) else perm in
    let mode := fmt_Sscanf_octal perm in
    if mode =? 0 then 420 else mode.

(** [SecretsFetcher.extractContent] *)
Definition extractContent (data : Value) (obj : SecretObject) : Result string :=
  match as_map data with
  | None => Err "unexpected data format"
  | Some dataMap =>
      let content : Result string :=
        if negb (String.eqb (SecretKey obj) EmptyString) then
          match lookup_entry (SecretKey obj) dataMap with
          | None => Err ("key " +:+ SecretKey obj +:+ " not found in secret")
          | Some value => Ok (Sprint value)
          end
        else
          match json_Marshal_map dataMap with
          | Err e => Err ("failed to marshal secret data: " +:+ e)
          | Ok jsonData => Ok jsonData
          end in
      match content with
      | Err e => Err e
      | Ok content =>
          if String.eqb (Encoding obj) "base64" then Ok (base64_Encode content)
          else if String.eqb (Encoding obj) "text" || String.eqb (Encoding obj) EmptyString
          then Ok content
          else Err ("unsupported encoding: " +:+ Encoding obj)
      end
  end.

(** The path normalisation at the head of [readFromOpenBao]. *)
Definition resolvePath (path : string) : string :=
  if negb (HasPrefix path "secret/") && negb (HasPrefix path "kv/") then
    "secret/data/" +:+ path
  else if negb (Contains path "/data/") then
    match SplitN2 path "/" with
    | [p0; p1] => p0 +:+ "/data/" +:+ p1
    | _ => path
    end
  else path.

(** The version a static read reports: [metadata.version] when it is a
    [json.Number], else the empty string. *)
Definition metadataVersion (d : list (string * Value)) : string :=
  match lookup_entry "metadata" d with
  | Some (VMap metadata) =>
      match lookup_entry "version" metadata with
      | Some (VNumber v) => v
      | _ => EmptyString
      end
  | _ => EmptyString
  end.

(** [SecretsFetcher.readFromOpenBao]: content and version, or the error;
    and the client as the call leaves it. *)
Definition readFromOpenBao (client : AuthenticatedClient) (obj : SecretObject)
  : M (Proc W) (Result (string * string) * AuthenticatedClient) :=
  let path := resolvePath (SecretPath obj) in
  let finish (sec : Value) (version : string) (client : AuthenticatedClient)
    : M (Proc W) (Result (string * string) * AuthenticatedClient) :=
    match extractContent sec obj with
    | Err e => ret (Err e, client)
    | Ok content => ret (Ok (content, version), client)
    end in
  if (0 <? size (SecretArgs obj))%nat then
    let data := (fun kv => (fst kv, VString (snd kv))) <$> map_to_list (SecretArgs obj) in
    rc <- WriteSecret client path data ;;
    let client := snd rc in
    match fst rc with
    | Err e => ret (Err ("failed to write to path: " +:+ e), client)
    | Ok None => ret (Err ("no data returned from path: " +:+ path), client)
    | Ok (Some resp) =>
        match SecretData resp with
        | None => ret (Err ("no data returned from path: " +:+ path), client)
        | Some d =>
            match slice (RequestID resp) 0 8 with
            | None => panic "slice bounds out of range"
            | Some version => finish (VMap d) version client
            end
        end
    end
  else
    rc <- ReadSecret client path ;;
    let client := snd rc in
    match fst rc with
    | Err e => ret (Err ("failed to read path: " +:+ e), client)
    | Ok None => ret (Err ("no data found at path: " +:+ path), client)
    | Ok (Some resp) =>
        match SecretData resp with
        | None => ret (Err ("no data found at path: " +:+ path), client)
        | Some d =>
            let '(sec, version) :=
              match lookup_entry "data" d with
              | Some data => (data, metadataVersion d)
              | None => (VMap d, EmptyString)
              end in
            let version := if String.eqb version EmptyString then "1" else version in
            finish sec version client
        end
    end.

(** The request a fetch of [obj] sends for its secret: a write to the
    resolved path for an object with arguments, a read of it otherwise. *)
Definition request_of (obj : SecretObject) (call : ApiCall) : Prop :=
  match call with
  | ApiRead _ path =>
      size (SecretArgs obj) = 0%nat /\ path = resolvePath (SecretPath obj)
  | ApiWrite _ path _ =>
      (0 < size (SecretArgs obj))%nat /\ path = resolvePath (SecretPath obj)
  | ApiRenewSelf _ => False
  end.

(** The part of [fetchSecret] after a cache miss: read the backend,
    build the [FetchedSecret] and store it in the cache. *)
Definition fetchMiss (client : AuthenticatedClient) (obj : SecretObject)
  : M (St W) (Result FetchedSecret * AuthenticatedClient) :=
  rc <- liftProc (readFromOpenBao client obj) ;;
  match fst rc with
  | Err e => ret (Err e, snd rc)
  | Ok (content, version) =>
      let mode := parseFilePermission (FilePermission obj) in
      let fetchedSecret := {| FetchedName := ObjectName obj; Content := content;
                              Version := version; Mode := mode |} in
      _ <- cache_set (cacheKey obj) fetchedSecret ;;
      ret (Ok fetchedSecret, snd rc)
  end.

(** [SecretsFetcher.fetchSecret] *)
Definition fetchSecret (client : AuthenticatedClient) (obj : SecretObject)
  : M (St W) (Result FetchedSecret * AuthenticatedClient) :=
  cached <- cache_get (cacheKey obj) ;;
  match cached with
  | Some s => ret (Ok s, client)
  | None => fetchMiss client obj
  end.

(** [fmt.Errorf("failed to fetch %s: %w", obj.ObjectName, err)] *)
Definition fetchError (obj : SecretObject) (e : string) : string :=
  "failed to fetch " +:+ ObjectName obj +:+ ": " +:+ e.

(** The loop of [FetchSecrets] with its two accumulators. *)
Fixpoint fetchLoop (client : AuthenticatedClient) (objects : list SecretObject)
  (secrets : list FetchedSecret) (fetchErrors : list string)
  : M (St W) (list FetchedSecret * list string * AuthenticatedClient) :=
  match objects with
  | [] => ret (secrets, fetchErrors, client)
  | obj :: rest =>
      rc <- fetchSecret client obj ;;
      match fst rc with
      | Err e => fetchLoop (snd rc) rest secrets (fetchErrors ++ [fetchError obj e])
      | Ok s => fetchLoop (snd rc) rest (secrets ++ [s]) fetchErrors
      end
  end.

Definition newline : string := String (ascii_of_nat 10) EmptyString.

(** The aggregate message of [FetchSecrets]. *)
Definition aggregateError (fetchErrors : list string) : string :=
  fold_left (fun errMsg e => errMsg +:+ newline +:+ "  - " +:+ e) fetchErrors
            "some secrets failed to fetch:".

(** [SecretsFetcher.FetchSecrets]: the secrets fetched and the aggregate
    error, if any object failed. *)
Definition FetchSecrets (client : AuthenticatedClient) (objects : list SecretObject)
  : M (St W) (list FetchedSecret * option string) :=
  r <- fetchLoop client objects [] [] ;;
  let '(secrets, fetchErrors, _) := r in
  if (0 <? length fetchErrors)%nat then ret (secrets, Some (aggregateError fetchErrors))
  else ret (secrets, None).

(** The fetches of a run of [FetchSecrets] that returns: each object
    with the result of its [fetchSecret], from the state and with the
    client the previous fetch left. *)
Inductive fetch_run : AuthenticatedClient -> list SecretObject -> St W ->
                      list (SecretObject * Result FetchedSecret) ->
                      AuthenticatedClient -> St W -> Prop :=
| fetch_run_nil (c : AuthenticatedClient) (st : St W) : fetch_run c [] st [] c st
| fetch_run_cons (c c1 c2 : AuthenticatedClient) (obj : SecretObject)
    (objs : list SecretObject) (st st1 st2 : St W) (r : Result FetchedSecret)
    (outs : list (SecretObject * Result FetchedSecret)) :
    fetchSecret c obj st = Done ((r, c1), st1) ->
    fetch_run c1 objs st1 outs c2 st2 ->
    fetch_run c (obj :: objs) st ((obj, r) :: outs) c2 st2.

(** The secrets of the objects that were fetched, in request order. *)
Fixpoint fetched (outs : list (SecretObject * Result FetchedSecret)) : list FetchedSecret :=
  match outs with
  | [] => []
  | (_, Ok s) :: rest => s :: fetched rest
  | (_, Err _) :: rest => fetched rest
  end.

(** The objects that failed, each with its error, in request order. *)
Fixpoint failures (outs : list (SecretObject * Result FetchedSecret))
  : list (SecretObject * string) :=
  match outs with
  | [] => []
  | (_, Ok _) :: rest => failures rest
  | (obj, Err e) :: rest => (obj, e) :: failures rest
  end.

(** [sub] occurs in [s]. *)
Definition occurs_in (sub s : string) : Prop :=
  exists pre post, s = pre +:+ sub +:+ post.

(** ** Mount *)

(** [Provider.parseMountParams]; [attribs] is [None] for a nil map. *)
Definition parseMountParams (attribs : option (gmap string string)) : Result MountParams :=
  match attribs with
  | None => Err "attributes are required"
  | Some attribs =>
      let get (key default : string) : string :=
        match attribs !! key with Some v => v | None => default end in
      let objects : Result (list SecretObject) :=
        match attribs !! "objects" with
        | None => Ok []
        | Some objectsStr =>
            match yaml_Unmarshal_objects objectsStr with
            | Ok objects => Ok objects
            | Err _ =>
                match json_Unmarshal_objects objectsStr with
                | Ok objects => Ok objects
                | Err e => Err ("failed to parse objects: " +:+ e)
                end
            end
        end in
      match objects with
      | Err e => Err e
      | Ok objects =>
          let params := {| RoleName := get "roleName" (DefaultRole cfg);
                           OpenBaoAddress := get "openbaoAddr" EmptyString;
                           AuthMethod := get "authMethod" (DefaultAuthMethod cfg);
                           AuthMountPath := get "authMountPath" "kubernetes";
                           Namespace := get "namespace" EmptyString;
                           Objects := objects;
                           Audience := get "audience" EmptyString |} in
          if String.eqb (RoleName params) EmptyString then Err "roleName is required"
          else if (length (Objects params) =? 0)%nat then Err "objects list cannot be empty"
          else Ok params
      end
  end.

(** [Provider.authenticate] *)
Definition authenticate (params : MountParams) (secrets : option (gmap string string))
  : M (Proc W) (Result AuthenticatedClient) :=
  let address := if String.eqb (OpenBaoAddress params) EmptyString
                 then DefaultAddress cfg else OpenBaoAddress params in
  let saToken :=
    match secrets with
    | Some secrets =>
        match secrets !! "csi.storage.k8s.io/serviceAccount.tokens" with
        | Some saTokensStr => saTokensStr
        | None => EmptyString
        end
    | None => EmptyString
    end in
  saToken <-
    (if String.eqb saToken EmptyString then
       r <- ReadFile "/var/run/secrets/kubernetes.io/serviceaccount/token" ;;
       match r with
       | Ok token => ret token
       | Err _ => ret saToken
       end
     else ret saToken) ;;
  NewAuthenticatedClient
    {| AuthAddress := address;
       AuthMethod_ := AuthMethod params;
       AuthMountPath_ := AuthMountPath params;
       AuthRole := RoleName params;
       AuthNamespace := Namespace params;
       ServiceAccountToken := saToken;
       AuthAudience := Audience params |}.

Definition errorResponse (code : string) : MountResponse :=
  {| RespObjectVersion := []; RespError := Some {| Code := code |}; Files := [] |}.

(** The loop of [Mount] that builds the response lists. *)
Fixpoint buildResponse (fetchedSecrets : list FetchedSecret)
  (files : list File) (objectVersions : list ObjectVersion)
  : list File * list ObjectVersion :=
  match fetchedSecrets with
  | [] => (files, objectVersions)
  | s :: rest =>
      buildResponse rest
        (files ++ [ {| FilePath := FetchedName s; FileMode := Mode s; Contents := Content s |} ])
        (objectVersions ++ [ {| Id := FetchedName s; ObjVersion := Version s |} ])
  end.

(** The attribute map [Mount] decodes from the request, and the error of
    the decoding; the map stays nil for empty attributes. *)
Definition requestAttributes (req : MountRequest)
  : option (gmap string string) * option string :=
  if negb (String.eqb (Attributes req) EmptyString)
  then json_Unmarshal_map (Attributes req) else (None, None).

(** The pod secrets [Mount] decodes from the request; a decoding error
    is logged and otherwise ignored. *)
Definition requestSecrets (req : MountRequest) : option (gmap string string) :=
  if negb (String.eqb (Secrets req) EmptyString)
  then fst (json_Unmarshal_map (Secrets req)) else None.

(** [Provider.Mount]: the response and the Go error of the call. *)
Definition Mount (req : MountRequest) : M (St W) (MountResponse * option string) :=
  match requestAttributes req with
  | (_, Some _) => ret (errorResponse "InvalidArgument", None)
  | (attribs, None) =>
      match parseMountParams attribs with
      | Err _ => ret (errorResponse "InvalidArgument", None)
      | Ok params =>
          let secrets := requestSecrets req in
          a <- liftProc (authenticate params secrets) ;;
          match a with
          | Err _ => ret (errorResponse "PermissionDenied", None)
          | Ok authClient =>
              r <- FetchSecrets authClient (Objects params) ;;
              match snd r with
              | Some _ => ret (errorResponse "Internal", None)
              | None =>
                  let '(files, objectVersions) := buildResponse (fst r) [] [] in
                  ret ({| RespObjectVersion := objectVersions;
                          RespError := None;
                          Files := files |}, None)
              end
          end
      end
  end.

End Provider.
End CSI.

(* ===================================================================== *)
(** * Backend configuration and client construction ([internal/openbao]) *)
(* ===================================================================== *)

Module BaoConfig.
Import Eff GoTime GoValues.
Local Open Scope eff_scope.

(** [TLSConfig] *)
Record TLSConfig : Type := {
  CACert : string;
  CAPath : string;
  ClientCert : string;
  ClientKey : string;
  TLSServerName : string;
  Insecure : bool
}.

(** [Config] with all its fields; [TLSConfig_] and [KubernetesAuth] are
    the two pointer fields. *)
Record Config : Type := {
  Address : string;
  Token : string;
  TLSConfig_ : option TLSConfig;
  KubernetesAuth : option OpenBao.KubernetesAuthConfig;
  TransitMount : string;
  KVMount : string;
  Namespace : string;
  MaxRetries : Z;
  Timeout : Duration
}.

(** The fields of the configuration a [Client] reads once it exists. *)
Definition clientConfig (c : Config) : OpenBao.Config :=
  {| OpenBao.Address := Address c;
     OpenBao.Token := Token c;
     OpenBao.KubernetesAuth := KubernetesAuth c;
     OpenBao.TransitMount := TransitMount c;
     OpenBao.KVMount := KVMount c |}.

(** Library functions: [yaml.Unmarshal] into a zero [Config],
    [api.Config.ConfigureTLS], and [api.NewClient], which answers with
    the token the new API client holds. *)
Class ApiLib : Type := {
  yaml_Unmarshal_Config : string -> Result Config;
  api_ConfigureTLS : TLSConfig -> option string;
  api_NewClient : string -> Z -> Duration -> Result string
}.

Section Env.
Context {W : Type} `{OpenBao.Api W} `{OpenBao.Sys W} `{ApiLib}.

(** [getEnv]: the value of the first variable of [keys] that is set to a
    non-empty string. *)
Fixpoint getEnv (keys : list string) (w : W) : string :=
  match keys with
  | [] => EmptyString
  | key :: rest =>
      let value := OpenBao.os_Getenv key w in
      if negb (String.eqb value EmptyString) then value else getEnv rest w
  end.

(** [getEnvDefault] *)
Definition getEnvDefault (key defaultValue : string) (w : W) : string :=
  let value := OpenBao.os_Getenv key w in
  if negb (String.eqb value EmptyString) then value else defaultValue.

(** [LoadConfigFromEnv] *)
Definition LoadConfigFromEnv (w : W) : Config :=
  let caCert := getEnv ["OPENBAO_CACERT"; "VAULT_CACERT"] w in
  let caPath := getEnv ["OPENBAO_CAPATH"; "VAULT_CAPATH"] w in
  let clientCert := getEnv ["OPENBAO_CLIENT_CERT"; "VAULT_CLIENT_CERT"] w in
  let clientKey := getEnv ["OPENBAO_CLIENT_KEY"; "VAULT_CLIENT_KEY"] w in
  let tlsServerName := getEnv ["OPENBAO_TLS_SERVER_NAME"; "VAULT_TLS_SERVER_NAME"] w in
  let skipVerify := getEnv ["OPENBAO_SKIP_VERIFY"; "VAULT_SKIP_VERIFY"] w in
  let tls :=
    if negb (String.eqb caCert EmptyString) || negb (String.eqb caPath EmptyString)
       || negb (String.eqb clientCert EmptyString) || negb (String.eqb clientKey EmptyString)
    then Some {| CACert := caCert; CAPath := caPath;
                 ClientCert := clientCert; ClientKey := clientKey;
                 TLSServerName := tlsServerName;
                 Insecure := String.eqb skipVerify "true" || String.eqb skipVerify "1" |}
    else None in
  let k8sRole := OpenBao.os_Getenv "KUBEBAO_K8S_ROLE" w in
  let k8sAuth :=
    if negb (String.eqb k8sRole EmptyString)
    then Some {| OpenBao.Role := k8sRole;
                 OpenBao.MountPath := getEnvDefault "KUBEBAO_K8S_MOUNT_PATH" "kubernetes" w;
                 OpenBao.TokenPath :=
                   getEnvDefault "KUBEBAO_K8S_TOKEN_PATH"
                                 "/var/run/secrets/kubernetes.io/serviceaccount/token" w |}
    else None in
  {| Address := getEnv ["OPENBAO_ADDR"; "VAULT_ADDR"] w;
     Token := getEnv ["OPENBAO_TOKEN"; "VAULT_TOKEN"] w;
     TLSConfig_ := tls;
     KubernetesAuth := k8sAuth;
     TransitMount := getEnvDefault "KUBEBAO_TRANSIT_MOUNT" "transit" w;
     KVMount := getEnvDefault "KUBEBAO_KV_MOUNT" "secret" w;
     Namespace := getEnv ["OPENBAO_NAMESPACE"; "VAULT_NAMESPACE"] w;
     MaxRetries := 3;
     Timeout := 30 * Second |}.

(** [DefaultConfig] *)
Definition DefaultConfig : Config :=
  {| Address := "http://127.0.0.1:8200";
     Token := EmptyString;
     TLSConfig_ := None;
     KubernetesAuth := None;
     TransitMount := "transit";
     KVMount := "secret";
     Namespace := EmptyString;
     MaxRetries := 3;
     Timeout := 30 * Second |}.

(** [Config.Validate]: the error, if any. *)
Definition Validate (c : Config) (w : W) : option string :=
  if String.eqb (Address c) EmptyString then Some "address is required"
  else
    let noAuth :=
      if String.eqb (Token c) EmptyString
         && match KubernetesAuth c with None => true | Some _ => false end
      then String.eqb (OpenBao.os_Getenv "OPENBAO_TOKEN" w) EmptyString
           && String.eqb (OpenBao.os_Getenv "VAULT_TOKEN" w) EmptyString
      else false in
    if noAuth
    then Some "no authentication method configured: set token or kubernetes auth"
    else
      match KubernetesAuth c with
      | Some k8sAuth =>
          if String.eqb (OpenBao.Role k8sAuth) EmptyString
          then Some "kubernetes auth role is required" else None
      | None => None
      end.

(** [Config.MergeWithEnv] *)
Definition MergeWithEnv (c : Config) (w : W) : Config :=
  let addr := getEnv ["OPENBAO_ADDR"; "VAULT_ADDR"] w in
  let token := getEnv ["OPENBAO_TOKEN"; "VAULT_TOKEN"] w in
  let namespace := getEnv ["OPENBAO_NAMESPACE"; "VAULT_NAMESPACE"] w in
  let transitMount := OpenBao.os_Getenv "KUBEBAO_TRANSIT_MOUNT" w in
  let kvMount := OpenBao.os_Getenv "KUBEBAO_KV_MOUNT" w in
  {| Address := if negb (String.eqb addr EmptyString) then addr else Address c;
     Token := if negb (String.eqb token EmptyString) then token else Token c;
     TLSConfig_ := TLSConfig_ c;
     KubernetesAuth := KubernetesAuth c;
     TransitMount := if negb (String.eqb transitMount EmptyString)
                     then transitMount else TransitMount c;
     KVMount := if negb (String.eqb kvMount EmptyString) then kvMount else KVMount c;
     Namespace := if negb (String.eqb namespace EmptyString) then namespace else Namespace c;
     MaxRetries := MaxRetries c;
     Timeout := Timeout c |}.

(** [LoadConfig] *)
Definition LoadConfig (path : string) (w : W) : Result Config :=
  match OpenBao.os_ReadFile path w with
  | Err e => Err ("failed to read config file: " +:+ e)
  | Ok data =>
      match yaml_Unmarshal_Config data with
      | Err e => Err ("failed to parse config file: " +:+ e)
      | Ok config =>
          if String.eqb (Address config) EmptyString then Err "address is required"
          else Ok config
      end
  end.

(** The defaults [NewClient] writes into the configuration it is given. *)
Definition withClientDefaults (cfg : Config) : Config :=
  {| Address := Address cfg;
     Token := Token cfg;
     TLSConfig_ := TLSConfig_ cfg;
     KubernetesAuth := KubernetesAuth cfg;
     TransitMount := if String.eqb (TransitMount cfg) EmptyString
                     then "transit" else TransitMount cfg;
     KVMount := if String.eqb (KVMount cfg) EmptyString then "secret" else KVMount cfg;
     Namespace := Namespace cfg;
     MaxRetries := if MaxRetries cfg =? 0 then 3 else MaxRetries cfg;
     Timeout := if Timeout cfg =? 0 then 30 * Second else Timeout cfg |}.

(** [NewClient] for a configuration that is not nil. *)
Definition NewClient (cfg : Config) : M (OpenBao.Proc W) (Result OpenBao.Client) :=
  if String.eqb (Address cfg) EmptyString then ret (Err "OpenBao address is required")
  else
    let cfg := withClientDefaults cfg in
    let tlsError :=
      match TLSConfig_ cfg with
      | Some tls => api_ConfigureTLS tls
      | None => None
      end in
    match tlsError with
    | Some e => ret (Err ("failed to configure TLS: " +:+ e))
    | None =>
        match api_NewClient (Address cfg) (MaxRetries cfg) (Timeout cfg) with
        | Err e => ret (Err ("failed to create OpenBao client: " +:+ e))
        | Ok token0 =>
            let c := {| OpenBao.config := clientConfig cfg;
                        OpenBao.token := token0;
                        OpenBao.tokenExpiry := 0 |} in
            r <- OpenBao.authenticate c ;;
            match fst r with
            | Some e => ret (Err ("failed to authenticate: " +:+ e))
            | None => ret (Ok (snd r))
            end
        end
    end.

End Env.
End BaoConfig.

(* ===================================================================== *)
(** * Transit and KV operations of the backend client *)
(* ===================================================================== *)

Module Transit.
Import Eff GoTime GoValues OpenBao.
Local Open Scope eff_scope.

(** [base64.StdEncoding]: [EncodeToString] and [DecodeString]. *)
Class Base64 : Type := {
  base64_EncodeToString : string -> string;
  base64_DecodeString : string -> Result string
}.

(** [TransitKeyInfo] of [internal/openbao/client.go] *)
Record TransitKeyInfo : Type := {
  Name : string;
  LatestVersion : Z;
  Type_ : string;
  Exportable : bool
}.

(** The transit client of the KMS server as a state: the backend client
    it wraps, whose token and token expiry change with use, and the
    process. *)
Record ClientState (W : Type) : Type := {
  client : Client;
  process : Proc W
}.
Arguments client {W} _.
Arguments process {W} _.
Arguments Build_ClientState {W} _ _.

Section Ops.
Context {W : Type} `{Api W} `{Sys W} `{Base64}.

(** [Client.TransitGetKeyInfo]: the three fields are read with the type
    assertions [.(float64)], [.(string)] and [.(bool)], and a field whose
    assertion fails keeps its zero value. *)
Definition TransitGetKeyInfo (c : Client) (keyName : string)
  : M (Proc W) (Result TransitKeyInfo * Client) :=
  rc <- RefreshToken c ;;
  let c1 := snd rc in
  let path := TransitMount (config c1) +:+ "/keys/" +:+ keyName in
  r <- LogicalRead (token c1) path ;;
  match r with
  | Err e => ret (Err ("failed to read key info: " +:+ e), c1)
  | Ok None => ret (Err ("key not found: " +:+ keyName), c1)
  | Ok (Some secret) =>
      match SecretData secret with
      | None => ret (Err ("key not found: " +:+ keyName), c1)
      | Some d =>
          let field {A} (key : string) (assertion : Value -> option A) (zero : A) : A :=
            match lookup_entry key d with
            | Some v => match assertion v with Some x => x | None => zero end
            | None => zero
            end in
          ret (Ok {| Name := keyName;
                     LatestVersion := field "latest_version" as_float64 0;
                     Type_ := field "type" as_string EmptyString;
                     Exportable := field "exportable" as_bool false |}, c1)
      end
  end.

(** [Client.TransitEncrypt] *)
Definition TransitEncrypt (c : Client) (keyName plaintext : string)
  : M (Proc W) (Result string * Client) :=
  rc <- RefreshToken c ;;
  let c1 := snd rc in
  let path := TransitMount (config c1) +:+ "/encrypt/" +:+ keyName in
  let data := [("plaintext", VString (base64_EncodeToString plaintext))] in
  r <- LogicalWrite (token c1) path data ;;
  match r with
  | Err e => ret (Err ("failed to encrypt data: " +:+ e), c1)
  | Ok None => ret (Err "no data returned from encrypt operation", c1)
  | Ok (Some secret) =>
      match SecretData secret with
      | None => ret (Err "no data returned from encrypt operation", c1)
      | Some d =>
          match lookup_entry "ciphertext" d with
          | Some (VString ciphertext) => ret (Ok ciphertext, c1)
          | _ => ret (Err "ciphertext not found in response", c1)
          end
      end
  end.

(** [Client.TransitDecrypt] *)
Definition TransitDecrypt (c : Client) (keyName ciphertext : string)
  : M (Proc W) (Result string * Client) :=
  rc <- RefreshToken c ;;
  let c1 := snd rc in
  let path := TransitMount (config c1) +:+ "/decrypt/" +:+ keyName in
  let data := [("ciphertext", VString ciphertext)] in
  r <- LogicalWrite (token c1) path data ;;
  match r with
  | Err e => ret (Err ("failed to decrypt data: " +:+ e), c1)
  | Ok None => ret (Err "no data returned from decrypt operation", c1)
  | Ok (Some secret) =>
      match SecretData secret with
      | None => ret (Err "no data returned from decrypt operation", c1)
      | Some d =>
          match lookup_entry "plaintext" d with
          | Some (VString plaintextB64) =>
              match base64_DecodeString plaintextB64 with
              | Err e => ret (Err ("failed to decode plaintext: " +:+ e), c1)
              | Ok plaintext => ret (Ok plaintext, c1)
              end
          | _ => ret (Err "plaintext not found in response", c1)
          end
      end
  end.

(** [Client.TransitCreateKey] *)
Definition TransitCreateKey (c : Client) (keyName keyType : string)
  : M (Proc W) (option string * Client) :=
  rc <- RefreshToken c ;;
  let c1 := snd rc in
  let path := TransitMount (config c1) +:+ "/keys/" +:+ keyName in
  let data := if negb (String.eqb keyType EmptyString)
              then [("type", VString keyType)] else [] in
  r <- LogicalWrite (token c1) path data ;;
  match r with
  | Err e => ret (Some ("failed to create transit key: " +:+ e), c1)
  | Ok _ => ret (None, c1)
  end.

(** [Client.KVReadWithVersion] *)
Definition KVReadWithVersion (c : Client) (path : string) (version : Z)
  : M (Proc W) (Result (list (string * Value)) * Client) :=
  rc <- RefreshToken c ;;
  let c1 := snd rc in
  let fullPath := KVMount (config c1) +:+ "/data/" +:+ path
                  +:+ "?version=" +:+ KMS.itoa version in
  r <- LogicalRead (token c1) fullPath ;;
  match r with
  | Err e => ret (Err ("failed to read secret: " +:+ e), c1)
  | Ok None => ret (Err ("secret not found: " +:+ path), c1)
  | Ok (Some secret) =>
      match SecretData secret with
      | None => ret (Err ("secret not found: " +:+ path), c1)
      | Some d =>
          match lookup_entry "data" d with
          | Some (VMap data) => ret (Ok data, c1)
          | _ => ret (Err "invalid secret format", c1)
          end
      end
  end.

(** [Client.KVWrite] *)
Definition KVWrite (c : Client) (path : string) (data : list (string * Value))
  : M (Proc W) (option string * Client) :=
  rc <- RefreshToken c ;;
  let c1 := snd rc in
  let fullPath := KVMount (config c1) +:+ "/data/" +:+ path in
  let writeData := [("data", VMap data)] in
  r <- LogicalWrite (token c1) fullPath writeData ;;
  match r with
  | Err e => ret (Some ("failed to write secret: " +:+ e), c1)
  | Ok _ => ret (None, c1)
  end.

(** ** [TransitClient] of [internal/kms/transit.go] *)

(** [TransitClient.Encrypt]: the clock is read at the start and by the
    deferred log call. *)
Definition Encrypt (c : Client) (keyName plaintext : string)
  : M (Proc W) (Result string * Client) :=
  start <- Now ;;
  rc <- TransitEncrypt c keyName plaintext ;;
  finish <- Now ;;
  match fst rc with
  | Err e => ret (Err ("transit encrypt failed: " +:+ e), snd rc)
  | Ok ciphertext => ret (Ok ciphertext, snd rc)
  end.

(** [TransitClient.Decrypt] *)
Definition Decrypt (c : Client) (keyName ciphertext : string)
  : M (Proc W) (Result string * Client) :=
  start <- Now ;;
  rc <- TransitDecrypt c keyName ciphertext ;;
  finish <- Now ;;
  match fst rc with
  | Err e => ret (Err ("transit decrypt failed: " +:+ e), snd rc)
  | Ok plaintext => ret (Ok plaintext, snd rc)
  end.

(** [TransitClient.CreateKey] *)
Definition CreateKey (c : Client) (keyName keyType : string)
  : M (Proc W) (option string * Client) :=
  TransitCreateKey c keyName keyType.

(** [TransitClient.GetKeyInfo] *)
Definition GetKeyInfo (c : Client) (keyName : string)
  : M (Proc W) (Result KMS.TransitKeyInfo * Client) :=
  rc <- TransitGetKeyInfo c keyName ;;
  match fst rc with
  | Err e => ret (Err e, snd rc)
  | Ok info => ret (Ok {| KMS.Name := Name info;
                          KMS.LatestVersion := LatestVersion info;
                          KMS.Type_ := Type_ info;
                          KMS.Exportable := Exportable info |}, snd rc)
  end.

(** [TransitClient.RotateKey]: the data of the write is a nil map. *)
Definition RotateKey (c : Client) (keyName : string) : M (Proc W) (option string * Client) :=
  let path := "transit/keys/" +:+ keyName +:+ "/rotate" in
  rc <- WriteSecret c path [] ;;
  match fst rc with
  | Err e => ret (Some ("failed to rotate key: " +:+ e), snd rc)
  | Ok _ => ret (None, snd rc)
  end.

(** [TransitClient.UpdateKeyConfig] *)
Definition UpdateKeyConfig (c : Client) (keyName : string) (config : list (string * Value))
  : M (Proc W) (option string * Client) :=
  let path := "transit/keys/" +:+ keyName +:+ "/config" in
  rc <- WriteSecret c path config ;;
  match fst rc with
  | Err e => ret (Some ("failed to update key config: " +:+ e), snd rc)
  | Ok _ => ret (None, snd rc)
  end.

(** ** The transit client the KMS server holds *)

(** An operation of the transit client, run in the state of the client.
    The four operations below always return
    ([transit_operations_return]); [aborted] is the answer on the
    outcomes that never occur. *)
Definition runOp {A} (op : Client -> M (Proc W) (A * Client)) (aborted : A)
  (s : ClientState W) : A * ClientState W :=
  match op (client s) (process s) with
  | Done ((a, c'), p') => (a, {| client := c'; process := p' |})
  | Panicked _ | OutOfFuel => (aborted, s)
  end.

(** The field [transit] of [Server]: the operations the server calls are
    the ones of [TransitClient]. *)
Definition transitClient : KMS.Transit (ClientState W) :=
  {| KMS.transit_GetKeyInfo := fun name => runOp (fun c => GetKeyInfo c name) (Err "aborted");
     KMS.transit_CreateKey := fun name type =>
       runOp (fun c => CreateKey c name type) (Some "aborted");
     KMS.transit_Encrypt := fun name plaintext =>
       runOp (fun c => Encrypt c name plaintext) (Err "aborted");
     KMS.transit_Decrypt := fun name ciphertext =>
       runOp (fun c => Decrypt c name ciphertext) (Err "aborted") |}.

End Ops.
End Transit.

(* ===================================================================== *)
(** * Configuration of the KMS plugin and of the CSI provider *)
(* ===================================================================== *)

Module KmsConfig.
Import Eff GoTime.

(** [Config] of [internal/kms] *)
Record Config : Type := {
  SocketPath : string;
  KeyName : string;
  KeyType : string;
  CreateKeyIfNotExists : bool;
  HealthCheckInterval : Duration;
  OpenBao : option BaoConfig.Config
}.

(** Library functions: [time.ParseDuration] and [yaml.Unmarshal] into a
    zero [Config]. *)
Class ConfigLib : Type := {
  time_ParseDuration : string -> Result Duration;
  yaml_Unmarshal_Config : string -> Result Config
}.

(** The part of the configuration the server works with. *)
Definition serverConfig (c : Config) : KMS.Config :=
  {| KMS.KeyName := KeyName c;
     KMS.KeyType := KeyType c;
     KMS.CreateKeyIfNotExists := CreateKeyIfNotExists c |}.

Section Env.
Context {W : Type} `{OpenBao.Api W} `{OpenBao.Sys W} `{BaoConfig.ApiLib} `{ConfigLib}.

(** [getEnvDefault] *)
Definition getEnvDefault (key defaultValue : string) (w : W) : string :=
  let value := OpenBao.os_Getenv key w in
  if negb (String.eqb value EmptyString) then value else defaultValue.

(** [getEnvBool] *)
Definition getEnvBool (key : string) (defaultValue : bool) (w : W) : bool :=
  let value := OpenBao.os_Getenv key w in
  if String.eqb value EmptyString then defaultValue
  else String.eqb value "true" || String.eqb value "1" || String.eqb value "yes".

(** [getDurationEnv] *)
Definition getDurationEnv (key : string) (defaultValue : Duration) (w : W) : Duration :=
  let value := OpenBao.os_Getenv key w in
  if String.eqb value EmptyString then defaultValue
  else
    match time_ParseDuration value with
    | Err _ => defaultValue
    | Ok d => d
    end.

(** [LoadConfigFromEnv] *)
Definition LoadConfigFromEnv (w : W) : Config :=
  {| SocketPath := getEnvDefault "KUBEBAO_KMS_SOCKET" "/var/run/kubebao/kms.sock" w;
     KeyName := getEnvDefault "KUBEBAO_KMS_KEY_NAME" "kubebao-kms" w;
     KeyType := getEnvDefault "KUBEBAO_KMS_KEY_TYPE" "aes256-gcm96" w;
     CreateKeyIfNotExists := getEnvBool "KUBEBAO_KMS_CREATE_KEY" true w;
     HealthCheckInterval := getDurationEnv "KUBEBAO_KMS_HEALTH_INTERVAL" (30 * Second) w;
     OpenBao := Some (BaoConfig.LoadConfigFromEnv w) |}.

(** [Config.setDefaults] *)
Definition setDefaults (c : Config) (w : W) : Config :=
  {| SocketPath := if String.eqb (SocketPath c) EmptyString
                   then "/var/run/kubebao/kms.sock" else SocketPath c;
     KeyName := if String.eqb (KeyName c) EmptyString then "kubebao-kms" else KeyName c;
     KeyType := if String.eqb (KeyType c) EmptyString then "aes256-gcm96" else KeyType c;
     CreateKeyIfNotExists := CreateKeyIfNotExists c;
     HealthCheckInterval := if HealthCheckInterval c =? 0
                            then 30 * Second else HealthCheckInterval c;
     OpenBao := match OpenBao c with
                | None => Some (BaoConfig.LoadConfigFromEnv w)
                | Some ob => Some ob
                end |}.

(** The lookup [validKeyTypes[keyType]]. *)
Definition validKeyTypes (keyType : string) : bool :=
  String.eqb keyType "aes128-gcm96" || String.eqb keyType "aes256-gcm96"
  || String.eqb keyType "chacha20-poly1305".

(** [Config.Validate]: the error, if any. *)
Definition Validate (c : Config) (w : W) : option string :=
  if String.eqb (SocketPath c) EmptyString then Some "socketPath is required"
  else if String.eqb (KeyName c) EmptyString then Some "keyName is required"
  else if negb (validKeyTypes (KeyType c))
  then Some ("invalid keyType: " +:+ KeyType c
             +:+ ", must be one of: aes128-gcm96, aes256-gcm96, chacha20-poly1305")
  else
    match OpenBao c with
    | None => Some "openbao configuration is required"
    | Some ob =>
        match BaoConfig.Validate ob w with
        | Some e => Some ("invalid openbao configuration: " +:+ e)
        | None => None
        end
    end.

(** [DefaultConfig] *)
Definition DefaultConfig : Config :=
  {| SocketPath := "/var/run/kubebao/kms.sock";
     KeyName := "kubebao-kms";
     KeyType := "aes256-gcm96";
     CreateKeyIfNotExists := true;
     HealthCheckInterval := 30 * Second;
     OpenBao := Some BaoConfig.DefaultConfig |}.

(** [LoadConfig] *)
Definition LoadConfig (path : string) (w : W) : Result Config :=
  match OpenBao.os_ReadFile path w with
  | Err e => Err ("failed to read config file: " +:+ e)
  | Ok data =>
      match yaml_Unmarshal_Config data with
      | Err e => Err ("failed to parse config file: " +:+ e)
      | Ok config =>
          let config := setDefaults config w in
          match Validate config w with
          | Some e => Err ("invalid configuration: " +:+ e)
          | None => Ok config
          end
      end
  end.

(** The configuration the [main] function of the plugin goes on with:
    from the file when a path is given, from the environment otherwise,
    and validated in both cases; [None] is the exit with status 1. *)
Definition mainConfig (configFile : string) (w : W) : option Config :=
  let loaded :=
    if negb (String.eqb configFile EmptyString) then LoadConfig configFile w
    else Ok (LoadConfigFromEnv w) in
  match loaded with
  | Err _ => None
  | Ok config =>
      match Validate config w with
      | Some _ => None
      | None => Some config
      end
  end.

End Env.
End KmsConfig.

Module CsiConfig.
Import Eff GoTime.

(** [Config] of [internal/csi] *)
Record Config : Type := {
  SocketPath : string;
  CacheTTL : Duration;
  EnableSecretRotation : bool;
  RotationPollInterval : Duration;
  OpenBao : option BaoConfig.Config;
  DefaultAuthMethod : string;
  DefaultRole : string
}.

(** Library functions: [time.ParseDuration] and [yaml.Unmarshal] into a
    zero [Config]. *)
Class ConfigLib : Type := {
  time_ParseDuration : string -> Result Duration;
  yaml_Unmarshal_Config : string -> Result Config
}.

Section Env.
Context {W : Type} `{OpenBao.Api W} `{OpenBao.Sys W} `{BaoConfig.ApiLib} `{ConfigLib}.

(** [getEnvDefault] *)
Definition getEnvDefault (key defaultValue : string) (w : W) : string :=
  let value := OpenBao.os_Getenv key w in
  if negb (String.eqb value EmptyString) then value else defaultValue.

(** [getEnvBool] *)
Definition getEnvBool (key : string) (defaultValue : bool) (w : W) : bool :=
  let value := OpenBao.os_Getenv key w in
  if String.eqb value EmptyString then defaultValue
  else String.eqb value "true" || String.eqb value "1" || String.eqb value "yes".

(** [getDurationEnv] *)
Definition getDurationEnv (key : string) (defaultValue : Duration) (w : W) : Duration :=
  let value := OpenBao.os_Getenv key w in
  if String.eqb value EmptyString then defaultValue
  else
    match time_ParseDuration value with
    | Err _ => defaultValue
    | Ok d => d
    end.

(** [LoadConfigFromEnv] *)
Definition LoadConfigFromEnv (w : W) : Config :=
  {| SocketPath := getEnvDefault "KUBEBAO_CSI_SOCKET" "/var/run/kubebao/csi.sock" w;
     CacheTTL := getDurationEnv "KUBEBAO_CSI_CACHE_TTL" (5 * Minute) w;
     EnableSecretRotation := getEnvBool "KUBEBAO_CSI_ENABLE_ROTATION" true w;
     RotationPollInterval := getDurationEnv "KUBEBAO_CSI_ROTATION_INTERVAL" (2 * Minute) w;
     OpenBao := Some (BaoConfig.LoadConfigFromEnv w);
     DefaultAuthMethod := getEnvDefault "KUBEBAO_CSI_AUTH_METHOD" "kubernetes" w;
     DefaultRole := OpenBao.os_Getenv "KUBEBAO_CSI_DEFAULT_ROLE" w |}.

(** [Config.setDefaults] *)
Definition setDefaults (c : Config) (w : W) : Config :=
  {| SocketPath := if String.eqb (SocketPath c) EmptyString
                   then "/provider/kubebao.sock" else SocketPath c;
     CacheTTL := if CacheTTL c =? 0 then 5 * Minute else CacheTTL c;
     EnableSecretRotation := EnableSecretRotation c;
     RotationPollInterval := if RotationPollInterval c =? 0
                             then 2 * Minute else RotationPollInterval c;
     OpenBao := match OpenBao c with
                | None => Some (BaoConfig.LoadConfigFromEnv w)
                | Some ob => Some ob
                end;
     DefaultAuthMethod := if String.eqb (DefaultAuthMethod c) EmptyString
                          then "kubernetes" else DefaultAuthMethod c;
     DefaultRole := DefaultRole c |}.

(** [Config.Validate]: the error, if any. *)
Definition Validate (c : Config) : option string :=
  if String.eqb (SocketPath c) EmptyString then Some "socketPath is required"
  else
    match OpenBao c with
    | None => Some "openbao configuration is required"
    | Some _ => None
    end.

(** [DefaultConfig] *)
Definition DefaultConfig : Config :=
  {| SocketPath := "/provider/kubebao.sock";
     CacheTTL := 5 * Minute;
     EnableSecretRotation := true;
     RotationPollInterval := 2 * Minute;
     OpenBao := Some BaoConfig.DefaultConfig;
     DefaultAuthMethod := "kubernetes";
     DefaultRole := EmptyString |}.

(** [LoadConfig] *)
Definition LoadConfig (path : string) (w : W) : Result Config :=
  match OpenBao.os_ReadFile path w with
  | Err e => Err ("failed to read config file: " +:+ e)
  | Ok data =>
      match yaml_Unmarshal_Config data with
      | Err e => Err ("failed to parse config file: " +:+ e)
      | Ok config =>
          let config := setDefaults config w in
          match Validate config with
          | Some e => Err ("invalid configuration: " +:+ e)
          | None => Ok config
          end
      end
  end.

(** The fields of the configuration [Provider.Mount] reads; [None] when
    the backend configuration is nil. *)
Definition providerConfig (c : Config) : option CSI.Config :=
  match OpenBao c with
  | None => None
  | Some ob =>
      Some {| CSI.CacheTTL := CacheTTL c;
              CSI.DefaultAuthMethod := DefaultAuthMethod c;
              CSI.DefaultRole := DefaultRole c;
              CSI.DefaultAddress := BaoConfig.Address ob |}
  end.

End Env.
End CsiConfig.

(* ===================================================================== *)
(** * A sample world and sample inputs *)
(* ===================================================================== *)

Module Samples.
Import Eff GoTime GoValues OpenBao Template.

(** A world with a clock that the program only reads, a backend that
    serves a fixed set of paths, and a switch that makes lease renewal
    fail. *)
Record World : Type := {
  clock : Time;
  renewalFails : bool
}.

Definition worldAt (t : Time) : World := {| clock := t; renewalFails := false |}.

Definition dbSecret : Secret :=
  {| RequestID := "5f0c3a9e-1d2b-4c6f-9a77-0e1f2a3b4c5d";
     SecretData := Some [("data", VMap [("username", VString "dbuser");
                                     ("password", VString "dbpass123")]);
                         ("metadata", VMap [("version", VNumber "3")])];
     Auth := None |}.

Definition plainSecret : Secret :=
  {| RequestID := "77aa0c1e-0000-4000-8000-000000000001";
     SecretData := Some [("api-key", VString "k-123")];
     Auth := None |}.

Definition credsSecret (requestID : string) : Secret :=
  {| RequestID := requestID;
     SecretData := Some [("username", VString "v-app-x1"); ("password", VString "pw-9")];
     Auth := None |}.

Definition loginSecret : Secret :=
  {| RequestID := "0a0b0c0d-aaaa-4bbb-8ccc-dddddddddddd";
     SecretData := None;
     Auth := Some {| ClientToken := "s.login"; LeaseDuration := 3600 |} |}.

Definition sampleRead (token path : string) (w : World) : Result (option Secret) * World :=
  if String.eqb path "secret/data/myapp/database" then (Ok (Some dbSecret), w)
  else if String.eqb path "secret/data/myapp/plain" then (Ok (Some plainSecret), w)
  else if String.eqb path "secret/data/myapp/absent" then (Ok None, w)
  else (Err "permission denied", w).

Definition sampleWrite (token path : string) (data : list (string * Value)) (w : World)
  : Result (option Secret) * World :=
  if String.eqb path "auth/kubernetes/login" then (Ok (Some loginSecret), w)
  else if String.eqb path "secret/data/database/creds/app"
  then (Ok (Some (credsSecret "c0ffee00-1234-4abc-8def-000000000042")), w)
  else if String.eqb path "secret/data/database/creds/short"
  then (Ok (Some (credsSecret "c0ffee")), w)
  else if GoStrings.HasPrefix path "sys/policies/acl/" then (Ok None, w)
  else (Err "permission denied", w).

Definition sampleRenew (token : string) (increment : Z) (w : World)
  : Result (option Secret) * World :=
  if renewalFails w then (Err "lease expired", w)
  else (Ok (Some {| RequestID := "renew"; SecretData := None;
                    Auth := Some {| ClientToken := token; LeaseDuration := 1800 |} |}), w).

#[export] Instance sampleApi : Api World :=
  {| logical_Read := sampleRead;
     logical_Write := sampleWrite;
     token_RenewSelf := sampleRenew |}.

#[export] Instance sampleSys : Sys World :=
  {| time_Now := fun w => (clock w, w);
     os_Getenv := fun _ _ => EmptyString;
     os_ReadFile := fun path _ =>
       if String.eqb path "/var/run/secrets/kubernetes.io/serviceaccount/token"
       then Ok "jwt-of-the-pod" else Err "no such file or directory" |}.

Definition procAt (t : Time) : Proc World := {| world := worldAt t; apiLog := [] |}.

(** A policy whose single rule constrains two parameters. *)
Definition appRule : Policy.PolicyRule :=
  {| Policy.Path := "secret/data/app/*";
     Policy.Capabilities := ["read"; "list"];
     Policy.AllowedParameters := {[ "team" := ["payments"]; "env" := ["prod"; "stage"] ]};
     Policy.DeniedParameters := [];
     Policy.RequiredParameters := [];
     Policy.MinWrappingTTL := EmptyString;
     Policy.MaxWrappingTTL := EmptyString |}.

Definition appPolicy : Policy.BaoPolicy :=
  {| Policy.Name := "app-policy";
     Policy.Namespace := "default";
     Policy.Generation := 1;
     Policy.DeletionTimestamp := None;
     Policy.Finalizers := ["kubebao.io/policy-finalizer"];
     Policy.Spec := {| Policy.PolicyName := EmptyString; Policy.Rules := [appRule] |};
     Policy.Status := {| Policy.Conditions := [];
                         Policy.LastSyncTime := None;
                         Policy.PolicyVersion := EmptyString;
                         Policy.AppliedPolicyName := EmptyString;
                         Policy.ObservedGeneration := 0 |} |}.

(** Two visiting orders the runtime may choose for a map. *)
Definition listedOrder : Policy.RangeOrders := fun _ m => map_to_list m.
Definition reversedOrder : Policy.RangeOrders := fun _ m => reverse (map_to_list m).

(** A client with a static token: it never expires. *)
Definition rootClient : Client :=
  {| config := {| Address := "http://127.0.0.1:8200"; Token := "root";
                  KubernetesAuth := None; TransitMount := "transit"; KVMount := "secret" |};
     token := "root";
     tokenExpiry := 0 |}.

#[export] Instance samplePolicyCluster : Policy.Cluster World Policy.BaoPolicy :=
  {| Policy.k8s_Get := fun _ _ w => (K8s.Found appPolicy, w);
     Policy.k8s_Update := fun _ w => (None, w);
     Policy.k8s_StatusUpdate := fun _ w => (None, w) |}.

(** The durations the sample reconciles use, as [time.ParseDuration]
    reads them. *)
Definition sampleParseDuration (s : string) : Result Duration :=
  if String.eqb s "30s" then Ok (30 * Second)
  else if String.eqb s "90s" then Ok (90 * Second)
  else if String.eqb s "5m" then Ok (5 * Minute)
  else if String.eqb s "2h" then Ok (2 * Hour)
  else if String.eqb s "-1h" then Ok (- Hour)
  else Err ("time: invalid duration " +:+ s).

#[export] Instance sampleGoLib : SecretSync.GoLib :=
  {| SecretSync.time_ParseDuration := sampleParseDuration;
     SecretSync.json_Marshal_data := fun data =>
       fold_right (fun kv acc => fst kv +:+ "=" +:+ snd kv +:+ ";" +:+ acc) EmptyString
                  (map_to_list data) |}.

(** The resource of the end-to-end scenario of the specification. *)
Definition dbBaoSecret : SecretSync.BaoSecret :=
  {| SecretSync.Name := "db";
     SecretSync.Namespace := "default";
     SecretSync.Generation := 1;
     SecretSync.DeletionTimestamp := None;
     SecretSync.Finalizers := ["kubebao.io/finalizer"];
     SecretSync.Spec :=
       {| SecretSync.SecretPath := "myapp/database";
          SecretSync.SecretKey := EmptyString;
          SecretSync.Target :=
            {| SecretSync.TargetName := "db-secret";
               SecretSync.TargetNamespace := EmptyString;
               SecretSync.TargetType := EmptyString;
               SecretSync.Labels := ∅;
               SecretSync.Annotations := ∅;
               SecretSync.CreationPolicy := EmptyString |};
          SecretSync.RefreshInterval := "30s";
          SecretSync.Template := None;
          SecretSync.SuspendSync := false |};
     SecretSync.Status :=
       {| SecretSync.Conditions := [];
          SecretSync.LastSyncTime := None;
          SecretSync.SecretVersion := EmptyString;
          SecretSync.SyncedSecretName := EmptyString;
          SecretSync.SyncedSecretNamespace := EmptyString;
          SecretSync.ObservedGeneration := 0 |} |}.

#[export] Instance sampleSecretCluster : SecretSync.Cluster World :=
  {| SecretSync.k8s_Get := fun _ _ w => (K8s.Found dbBaoSecret, w);
     SecretSync.k8s_Update := fun _ w => (None, w);
     SecretSync.k8s_StatusUpdate := fun _ w => (None, w);
     SecretSync.k8s_CreateOrUpdate := fun obj mutate w => (mutate obj, w) |}.

(** The visiting orders that follow [map_to_list]. *)
Definition listedRanges : Ranges :=
  {| over_StringData := map_to_list;
     over_Data := map_to_list;
     over_source_StringData := fun _ => map_to_list;
     over_source_Data := fun _ => map_to_list |}.

(** A template with one output field, and a source secret whose field
    [note] quotes its own placeholder. *)
Definition noteTemplate : SecretTemplate :=
  {| Data := ∅; StringData := {[ "msg" := "{{ .Data.note }}" ]} |}.

Definition noteSource : gmap string Value :=
  {[ "note" := VString "{{ .Data.note }}!" ]}.

(** ** The provider *)

Definition sampleConfig : CSI.Config :=
  {| CSI.CacheTTL := 5 * Minute;
     CSI.DefaultAuthMethod := "kubernetes";
     CSI.DefaultRole := EmptyString;
     CSI.DefaultAddress := "http://127.0.0.1:8200" |}.

Definition staticObject (name path key perm : string) : CSI.SecretObject :=
  {| CSI.ObjectName := name; CSI.SecretPath := path; CSI.SecretKey := key;
     CSI.SecretArgs := ∅; CSI.Encoding := EmptyString; CSI.FilePermission := perm |}.

Definition dynamicObject (name path : string) : CSI.SecretObject :=
  {| CSI.ObjectName := name; CSI.SecretPath := path; CSI.SecretKey := "password";
     CSI.SecretArgs := {[ "ttl" := "1h" ]};
     CSI.Encoding := EmptyString; CSI.FilePermission := EmptyString |}.

(** Two objects the backend serves and one it refuses. *)
Definition objUser : CSI.SecretObject := staticObject "db-user" "myapp/database" "username" "0600".
Definition objKey : CSI.SecretObject :=
  staticObject "api-key" "secret/data/myapp/plain" "api-key" EmptyString.
Definition objCert : CSI.SecretObject := staticObject "tls-cert" "pki/issue/web" "certificate" "0644".

(** Dynamic credentials: the backend answers the first with a request id
    of 36 characters and the second with one of 6. *)
Definition objCreds : CSI.SecretObject := dynamicObject "db-creds" "database/creds/app".
Definition objShort : CSI.SecretObject := dynamicObject "db-short" "database/creds/short".

(** The library functions on the request texts the samples use. *)
#[export] Instance sampleCsiLib : CSI.CsiLib :=
  {| CSI.json_Unmarshal_map := fun s =>
       if String.eqb s "{roleName: app, objects: [db-user, api-key, tls-cert]}"
       then (Some {[ "roleName" := "app"; "objects" := "[db-user, api-key, tls-cert]" ]}, None)
       else if String.eqb s "{roleName: app, authMethod: ldap, objects: [db-user]}"
       then (Some {[ "roleName" := "app"; "authMethod" := "ldap";
                     "objects" := "[db-user]" ]}, None)
       else if String.eqb s "{objects: [db-user]}"
       then (Some {[ "objects" := "[db-user]" ]}, None)
       else if String.eqb s "{roleName: app, objects: [db-creds]}"
       then (Some {[ "roleName" := "app"; "objects" := "[db-creds]" ]}, None)
       else if String.eqb s "{roleName: app, objects: [db-short]}"
       then (Some {[ "roleName" := "app"; "objects" := "[db-short]" ]}, None)
       else if String.eqb s "{csi.storage.k8s.io/serviceAccount.tokens: pod-jwt}"
       then (Some {[ "csi.storage.k8s.io/serviceAccount.tokens" := "pod-jwt" ]}, None)
       else (None, Some "invalid character");
     CSI.yaml_Unmarshal_objects := fun s =>
       if String.eqb s "[db-user, api-key, tls-cert]" then Ok [objUser; objKey; objCert]
       else if String.eqb s "[db-user]" then Ok [objUser]
       else if String.eqb s "[db-creds]" then Ok [objCreds]
       else if String.eqb s "[db-short]" then Ok [objShort]
       else Err "yaml: unmarshal errors";
     CSI.json_Unmarshal_objects := fun _ => Err "invalid character";
     CSI.json_Marshal_map := fun m => Ok (Sprint (VMap m));
     CSI.base64_Encode := fun s => "base64:" +:+ s;
     CSI.fmt_Sscanf_octal := fun s =>
       if String.eqb s "600" then 384
       else if String.eqb s "644" then 420
       else if String.eqb s "400" then 256
       else 0;
     CSI.api_NewClient := fun _ => None |}.

Definition podClient : CSI.AuthenticatedClient :=
  {| CSI.authConfig :=
       {| CSI.AuthAddress := "http://127.0.0.1:8200";
          CSI.AuthMethod_ := "kubernetes";
          CSI.AuthMountPath_ := "kubernetes";
          CSI.AuthRole := "app";
          CSI.AuthNamespace := EmptyString;
          CSI.ServiceAccountToken := "pod-jwt";
          CSI.AuthAudience := EmptyString |};
     CSI.token := "s.login";
     CSI.tokenExpiry := 0 |}.

(** A provider state with an empty cache. *)
Definition coldAt (t : Time) : CSI.St World :=
  {| CSI.proc := procAt t; CSI.entries := ∅ |}.

Definition threeObjectsRequest : CSI.MountRequest :=
  {| CSI.Attributes := "{roleName: app, objects: [db-user, api-key, tls-cert]}";
     CSI.Secrets := "{csi.storage.k8s.io/serviceAccount.tokens: pod-jwt}";
     CSI.TargetPath := "/var/lib/kubelet/pods/p1/volumes/secrets";
     CSI.Permission := "420" |}.

(** What the fetch of the first two objects yields. *)
Definition userSecret : CSI.FetchedSecret :=
  {| CSI.FetchedName := "db-user"; CSI.Content := "dbuser";
     CSI.Version := "3"; CSI.Mode := 384 |}.

Definition keySecret : CSI.FetchedSecret :=
  {| CSI.FetchedName := "api-key"; CSI.Content := "k-123";
     CSI.Version := "1"; CSI.Mode := 420 |}.

(** The provider state after [objUser] was fetched into an empty cache
    at the instant [t]. *)
Definition warmAt (t : Time) : CSI.St World :=
  {| CSI.proc := {| world := worldAt t;
                    apiLog := [ApiRead "s.login" "secret/data/myapp/database"] |};
     CSI.entries := {[ CSI.cacheKey objUser :=
                         {| CSI.secret := userSecret;
                            CSI.expiresAt := t + 5 * Minute |} ]} |}.

(** The same cache, looked at when the clock shows [t']. *)
Definition warmSeenAt (t t' : Time) : CSI.St World :=
  {| CSI.proc := {| world := worldAt t'; apiLog := apiLog (CSI.proc (warmAt t)) |};
     CSI.entries := CSI.entries (warmAt t) |}.



(** The provider state in which [Mount] starts fetching for the sample
    request: the pod has logged in, the cache is empty. *)
Definition loggedInAt (t : Time) : CSI.St World :=
  {| CSI.proc := {| world := worldAt t;
                apiLog := [ApiWrite EmptyString "auth/kubernetes/login"
                             [("role", VString "app"); ("jwt", VString "pod-jwt")]] |};
     CSI.entries := ∅ |}.

(** The client of the sample pod after its login at the instant [t]:
    the lease lasts 3600 seconds. *)
Definition loggedInClient (t : Time) : CSI.AuthenticatedClient :=
  {| CSI.authConfig := CSI.authConfig podClient;
     CSI.token := "s.login";
     CSI.tokenExpiry := t + 3600 * Second |}.

(** A request of the sample pod with the given attributes. *)
Definition podRequest (attributes : string) : CSI.MountRequest :=
  {| CSI.Attributes := attributes;
     CSI.Secrets := "{csi.storage.k8s.io/serviceAccount.tokens: pod-jwt}";
     CSI.TargetPath := "/var/lib/kubelet/pods/p1/volumes/secrets";
     CSI.Permission := "420" |}.

Definition bareRequest (attributes : string) : CSI.MountRequest :=
  {| CSI.Attributes := attributes; CSI.Secrets := EmptyString;
     CSI.TargetPath := "/mnt/secrets"; CSI.Permission := "420" |}.


End Samples.

(* ===================================================================== *)
(** * A world with an environment, files and stored objects *)
(* ===================================================================== *)

Module Lab.
Import Eff GoTime GoValues OpenBao Template.

(** The first value stored under [key] in an association list. *)
Fixpoint assoc {V : Type} (key : string) (l : list (string * V)) : option V :=
  match l with
  | [] => None
  | (k, v) :: rest => if String.eqb k key then Some v else assoc key rest
  end.

(** A world with a clock the program only reads, the environment
    variables and the files of the process, the paths the backend serves,
    and the two custom resources the cluster holds, if any. *)
Record World : Type := {
  clock : Time;
  environ : list (string * string);
  files : list (string * string);
  served : list (string * Secret);
  policyObject : option Policy.BaoPolicy;
  secretObject : option SecretSync.BaoSecret
}.

Definition loginSecret : Secret :=
  {| RequestID := "9d1c2b3a-aaaa-4bbb-8ccc-0123456789ab";
     SecretData := None;
     Auth := Some {| ClientToken := "s.pod"; LeaseDuration := 900 |} |}.

(** The backend: a read answers with what is stored at the path, or with
    nothing; a login hands out a token; every other write is accepted. *)
#[export] Instance labApi : Api World :=
  {| logical_Read := fun _ path w =>
       match assoc path (served w) with
       | Some s => (Ok (Some s), w)
       | None => (Ok None, w)
       end;
     logical_Write := fun _ path _ w =>
       if String.eqb path "auth/kubernetes/login" then (Ok (Some loginSecret), w)
       else (Ok None, w);
     token_RenewSelf := fun token _ w =>
       (Ok (Some {| RequestID := "renewal"; SecretData := None;
                    Auth := Some {| ClientToken := token; LeaseDuration := 900 |} |}), w) |}.

#[export] Instance labSys : Sys World :=
  {| time_Now := fun w => (clock w, w);
     os_Getenv := fun name w =>
       match assoc name (environ w) with Some v => v | None => EmptyString end;
     os_ReadFile := fun path w =>
       match assoc path (files w) with
       | Some text => Ok text
       | None => Err ("open " +:+ path +:+ ": no such file or directory")
       end |}.

#[export] Instance labPolicyCluster : Policy.Cluster World Policy.BaoPolicy :=
  {| Policy.k8s_Get := fun _ _ w =>
       match policyObject w with
       | Some p => (K8s.Found p, w)
       | None => (K8s.NotFound, w)
       end;
     Policy.k8s_Update := fun p w =>
       (None, {| clock := clock w; environ := environ w; files := files w;
                 served := served w; policyObject := Some p;
                 secretObject := secretObject w |});
     Policy.k8s_StatusUpdate := fun p w =>
       (None, {| clock := clock w; environ := environ w; files := files w;
                 served := served w; policyObject := Some p;
                 secretObject := secretObject w |}) |}.

Definition storeSecretObject (b : SecretSync.BaoSecret) (w : World) : World :=
  {| clock := clock w; environ := environ w; files := files w;
     served := served w; policyObject := policyObject w;
     secretObject := Some b |}.

#[export] Instance labSecretCluster : SecretSync.Cluster World :=
  {| SecretSync.k8s_Get := fun _ _ w =>
       match secretObject w with
       | Some b => (K8s.Found b, w)
       | None => (K8s.NotFound, w)
       end;
     SecretSync.k8s_Update := fun b w => (None, storeSecretObject b w);
     SecretSync.k8s_StatusUpdate := fun b w => (None, storeSecretObject b w);
     SecretSync.k8s_CreateOrUpdate := fun obj mutate w => (mutate obj, w) |}.

(** A transit engine whose ciphertext is the plaintext behind the
    version prefix; it refuses a ciphertext without the prefix. *)
#[export] Instance labTransit : KMS.Transit World :=
  {| KMS.transit_GetKeyInfo := fun name w =>
       (Ok {| KMS.Name := name; KMS.LatestVersion := 1;
              KMS.Type_ := "aes256-gcm96"; KMS.Exportable := false |}, w);
     KMS.transit_CreateKey := fun _ _ w => (None, w);
     KMS.transit_Encrypt := fun _ plaintext w => (Ok ("vault:v1:" +:+ plaintext), w);
     KMS.transit_Decrypt := fun _ ciphertext w =>
       if GoStrings.HasPrefix ciphertext "vault:v1:"
       then (Ok (substring 9 (String.length ciphertext - 9) ciphertext), w)
       else (Err "invalid ciphertext: no prefix", w) |}.

Definition labServer : KMS.Server :=
  {| KMS.config := {| KMS.KeyName := "etcd-key"; KMS.KeyType := "aes256-gcm96";
                      KMS.CreateKeyIfNotExists := false |};
     KMS.keyID := "etcd-key:v1";
     KMS.healthy := true |}.

(** ** The key store behind the transit client *)

(** A backend that holds the transit key [etcd-key] at the version
    [keyVersion] and rotates it on a write to its rotate path.  It
    answers a read of the key as the transit engine does, the numbers as
    [json.Number]. *)
Record KeyBackend : Type := {
  keyVersion : Z
}.

Definition keySecret (version : Z) : Secret :=
  {| RequestID := "7b0e5c11-2222-4aaa-9bbb-00000000c0de";
     SecretData := Some [("name", VString "etcd-key");
                         ("type", VString "aes256-gcm96");
                         ("latest_version", VNumber (KMS.itoa version));
                         ("min_decryption_version", VNumber "1");
                         ("exportable", VBool false)];
     Auth := None |}.

#[export] Instance keyApi : Api KeyBackend :=
  {| logical_Read := fun _ path w =>
       if String.eqb path "transit/keys/etcd-key"
       then (Ok (Some (keySecret (keyVersion w))), w)
       else (Ok None, w);
     logical_Write := fun _ path _ w =>
       if String.eqb path "transit/keys/etcd-key/rotate"
       then (Ok None, {| keyVersion := keyVersion w + 1 |})
       else (Ok None, w);
     token_RenewSelf := fun _ _ w => (Err "lease is not renewable", w) |}.

#[export] Instance keySys : Sys KeyBackend :=
  {| time_Now := fun w => (1000, w);
     os_Getenv := fun _ _ => EmptyString;
     os_ReadFile := fun path _ => Err ("open " +:+ path +:+ ": no such file or directory") |}.

#[export] Instance labBase64 : Transit.Base64 :=
  {| Transit.base64_EncodeToString := fun s => "b64(" +:+ s +:+ ")";
     Transit.base64_DecodeString := fun s =>
       if GoStrings.HasPrefix s "b64("
       then Ok (substring 4 (String.length s - 5) s)
       else Err "illegal base64 data at input byte 0" |}.

(** The transit client of the plugin, with a static token, in front of
    a backend whose key is at [version]. *)
Definition keyClientAt (version : Z) : Transit.ClientState KeyBackend :=
  {| Transit.client :=
       {| config := {| Address := "https://bao.internal:8200"; Token := "s.root";
                       KubernetesAuth := None; TransitMount := "transit";
                       KVMount := "secret" |};
          token := "s.root";
          tokenExpiry := 0 |};
     Transit.process := {| world := {| keyVersion := version |}; apiLog := [] |} |}.

(** ** The provider *)

(** Two objects that read the same backend path: the key of the first
    ends in what the name of the second begins with. *)
Definition objToken : CSI.SecretObject :=
  {| CSI.ObjectName := "token"; CSI.SecretPath := "app/tokens"; CSI.SecretKey := "svc:api";
     CSI.SecretArgs := ∅; CSI.Encoding := EmptyString; CSI.FilePermission := "0400" |}.

Definition objApiToken : CSI.SecretObject :=
  {| CSI.ObjectName := "api:token"; CSI.SecretPath := "app/tokens"; CSI.SecretKey := "svc";
     CSI.SecretArgs := ∅; CSI.Encoding := EmptyString; CSI.FilePermission := "0400" |}.

Definition tokensSecret : Secret :=
  {| RequestID := "41c7e0aa-5555-4ddd-9eee-00000000beef";
     SecretData := Some [("data", VMap [("svc:api", VString "t-api");
                                     ("svc", VString "t-svc")]);
                         ("metadata", VMap [("version", VNumber "2")])];
     Auth := None |}.

#[export] Instance labCsiLib : CSI.CsiLib :=
  {| CSI.json_Unmarshal_map := fun s =>
       if String.eqb s "{objects: [token]}"
       then (Some {[ "objects" := "[token]" ]}, None)
       else if String.eqb s "{roleName: app, objects: [token]}"
       then (Some {[ "roleName" := "app"; "objects" := "[token]" ]}, None)
       else (None, Some "unexpected end of JSON input");
     CSI.yaml_Unmarshal_objects := fun s =>
       if String.eqb s "[token]" then Ok [objToken]
       else Err "yaml: unmarshal errors";
     CSI.json_Unmarshal_objects := fun _ => Err "invalid character";
     CSI.json_Marshal_map := fun m => Ok (Sprint (VMap m));
     CSI.base64_Encode := fun s => "b64(" +:+ s +:+ ")";
     CSI.fmt_Sscanf_octal := fun s =>
       if String.eqb s "400" then 256
       else if String.eqb s "600" then 384
       else 0;
     CSI.api_NewClient := fun _ => None |}.

Definition serviceAccountTokenPath : string :=
  "/var/run/secrets/kubernetes.io/serviceaccount/token".

(** The world of a provider pod: a service account token on disk, the
    backend serving the tokens secret, no environment. *)
Definition podWorld (t : Time) : World :=
  {| clock := t;
     environ := [];
     files := [(serviceAccountTokenPath, "jwt-of-the-pod")];
     served := [("secret/data/app/tokens", tokensSecret)];
     policyObject := None;
     secretObject := None |}.

Definition podState (t : Time) : CSI.St World :=
  {| CSI.proc := {| world := podWorld t; apiLog := [] |}; CSI.entries := ∅ |}.

Definition podClient : CSI.AuthenticatedClient :=
  {| CSI.authConfig :=
       {| CSI.AuthAddress := "https://bao.internal:8200";
          CSI.AuthMethod_ := "kubernetes";
          CSI.AuthMountPath_ := "kubernetes";
          CSI.AuthRole := "app";
          CSI.AuthNamespace := EmptyString;
          CSI.ServiceAccountToken := "jwt-of-the-pod";
          CSI.AuthAudience := EmptyString |};
     CSI.token := "s.pod";
     CSI.tokenExpiry := 0 |}.

(** What the fetch of [objToken] yields, and the provider state after it
    was fetched into an empty cache at the instant [t] with the cache
    lifetime of five minutes. *)
Definition tokenFetched : CSI.FetchedSecret :=
  {| CSI.FetchedName := "token"; CSI.Content := "t-api";
     CSI.Version := "2"; CSI.Mode := 256 |}.

Definition warmState (t : Time) : CSI.St World :=
  {| CSI.proc := {| world := podWorld t;
                    apiLog := [ApiRead "s.pod" "secret/data/app/tokens"] |};
     CSI.entries := {[ CSI.cacheKey objToken :=
                         {| CSI.secret := tokenFetched;
                            CSI.expiresAt := t + 5 * Minute |} ]} |}.

(** The same cache and log, looked at when the clock shows [t']. *)
Definition warmSeenAt (t t' : Time) : CSI.St World :=
  {| CSI.proc := {| world := podWorld t'; apiLog := apiLog (CSI.proc (warmState t)) |};
     CSI.entries := CSI.entries (warmState t) |}.

(** The configuration of a pod that asks for another auth method. *)
Definition setAuthMethod (a : CSI.AuthConfig) (method : string) : CSI.AuthConfig :=
  {| CSI.AuthAddress := CSI.AuthAddress a;
     CSI.AuthMethod_ := method;
     CSI.AuthMountPath_ := CSI.AuthMountPath_ a;
     CSI.AuthRole := CSI.AuthRole a;
     CSI.AuthNamespace := CSI.AuthNamespace a;
     CSI.ServiceAccountToken := CSI.ServiceAccountToken a;
     CSI.AuthAudience := CSI.AuthAudience a |}.

Definition podConfig : CSI.Config :=
  {| CSI.CacheTTL := 5 * Minute;
     CSI.DefaultAuthMethod := "kubernetes";
     CSI.DefaultRole := "app";
     CSI.DefaultAddress := "https://bao.internal:8200" |}.

Definition tokenRequest : CSI.MountRequest :=
  {| CSI.Attributes := "{objects: [token]}"; CSI.Secrets := EmptyString;
     CSI.TargetPath := "/mnt/secrets-store"; CSI.Permission := "420" |}.

Definition roleRequest : CSI.MountRequest :=
  {| CSI.Attributes := "{roleName: app, objects: [token]}"; CSI.Secrets := EmptyString;
     CSI.TargetPath := "/mnt/secrets-store"; CSI.Permission := "420" |}.

(** ** Configuration *)

#[export] Instance labApiLib : BaoConfig.ApiLib :=
  {| BaoConfig.yaml_Unmarshal_Config := fun _ => Err "yaml: unmarshal errors";
     BaoConfig.api_ConfigureTLS := fun _ => None;
     BaoConfig.api_NewClient := fun _ _ _ => Ok EmptyString |}.

Definition labParseDuration (s : string) : Result Duration :=
  if String.eqb s "45s" then Ok (45 * Second)
  else if String.eqb s "10m" then Ok (10 * Minute)
  else Err ("time: invalid duration " +:+ s).

(** The library of the operator; the marshalled form lists the fields
    with their values. *)
#[export] Instance labGoLib : SecretSync.GoLib :=
  {| SecretSync.time_ParseDuration := labParseDuration;
     SecretSync.json_Marshal_data := fun data =>
       fold_right (fun kv acc => "<" +:+ fst kv +:+ ":" +:+ snd kv +:+ ">" +:+ acc)
                  EmptyString (map_to_list data) |}.

(** The plugin configuration file of the samples leaves every field
    unset. *)
#[export] Instance labKmsLib : KmsConfig.ConfigLib :=
  {| KmsConfig.time_ParseDuration := labParseDuration;
     KmsConfig.yaml_Unmarshal_Config := fun s =>
       if String.eqb s "{}"
       then Ok {| KmsConfig.SocketPath := EmptyString;
                  KmsConfig.KeyName := EmptyString;
                  KmsConfig.KeyType := EmptyString;
                  KmsConfig.CreateKeyIfNotExists := false;
                  KmsConfig.HealthCheckInterval := 0;
                  KmsConfig.OpenBao := None |}
       else Err "yaml: unmarshal errors" |}.

Definition emptyCsiConfig : CsiConfig.Config :=
  {| CsiConfig.SocketPath := EmptyString;
     CsiConfig.CacheTTL := 0;
     CsiConfig.EnableSecretRotation := false;
     CsiConfig.RotationPollInterval := 0;
     CsiConfig.OpenBao := None;
     CsiConfig.DefaultAuthMethod := EmptyString;
     CsiConfig.DefaultRole := EmptyString |}.

#[export] Instance labCsiConfigLib : CsiConfig.ConfigLib :=
  {| CsiConfig.time_ParseDuration := labParseDuration;
     CsiConfig.yaml_Unmarshal_Config := fun s =>
       if String.eqb s "{}" then Ok emptyCsiConfig else Err "yaml: unmarshal errors" |}.

(** The world of a plugin process that is configured through its
    environment: the backend address and a token. *)
Definition envWorld : World :=
  {| clock := 1000;
     environ := [("OPENBAO_ADDR", "https://bao.internal:8200");
                 ("VAULT_TOKEN", "s.root");
                 ("KUBEBAO_KMS_KEY_NAME", "etcd-key");
                 ("KUBEBAO_KMS_HEALTH_INTERVAL", "45s")];
     files := [("/etc/kubebao/config.yaml", "{}")];
     served := [];
     policyObject := None;
     secretObject := None |}.

Definition envProc : Proc World := {| world := envWorld; apiLog := [] |}.

(** ** Custom resources *)

(** A policy that is being deleted and still carries the finalizer of
    the operator and one of another controller. *)
Definition deletedPolicy : Policy.BaoPolicy :=
  {| Policy.Name := "reports";
     Policy.Namespace := "team-a";
     Policy.Generation := 4;
     Policy.DeletionTimestamp := Some 900;
     Policy.Finalizers := ["example.com/audit"; "kubebao.io/policy-finalizer"];
     Policy.Spec := {| Policy.PolicyName := "reports-ro"; Policy.Rules := [] |};
     Policy.Status := {| Policy.Conditions := [];
                         Policy.LastSyncTime := Some 800;
                         Policy.PolicyVersion := "abc";
                         Policy.AppliedPolicyName := "reports-ro";
                         Policy.ObservedGeneration := 4 |} |}.

Definition suspendedSecret : SecretSync.BaoSecret :=
  {| SecretSync.Name := "tokens";
     SecretSync.Namespace := "team-a";
     SecretSync.Generation := 2;
     SecretSync.DeletionTimestamp := None;
     SecretSync.Finalizers := ["kubebao.io/finalizer"];
     SecretSync.Spec :=
       {| SecretSync.SecretPath := "app/tokens";
          SecretSync.SecretKey := EmptyString;
          SecretSync.Target :=
            {| SecretSync.TargetName := "tokens";
               SecretSync.TargetNamespace := EmptyString;
               SecretSync.TargetType := EmptyString;
               SecretSync.Labels := {[ "team" := "a"; "kubebao.io/managed-by" := "team-a" ]};
               SecretSync.Annotations := ∅;
               SecretSync.CreationPolicy := "Orphan" |};
          SecretSync.RefreshInterval := "10m";
          SecretSync.Template := None;
          SecretSync.SuspendSync := true |};
     SecretSync.Status :=
       {| SecretSync.Conditions := [];
          SecretSync.LastSyncTime := None;
          SecretSync.SecretVersion := EmptyString;
          SecretSync.SyncedSecretName := EmptyString;
          SecretSync.SyncedSecretNamespace := EmptyString;
          SecretSync.ObservedGeneration := 0 |} |}.

Definition clusterWorld : World :=
  {| clock := 1000;
     environ := [];
     files := [];
     served := [("secret/data/app/tokens", tokensSecret)];
     policyObject := Some deletedPolicy;
     secretObject := Some suspendedSecret |}.

Definition clusterProc : Proc World := {| world := clusterWorld; apiLog := [] |}.

Definition operatorClient : Client :=
  {| config := {| Address := "https://bao.internal:8200"; Token := "s.root";
                  KubernetesAuth := None; TransitMount := "transit"; KVMount := "secret" |};
     token := "s.root";
     tokenExpiry := 0 |}.

(** A target Secret that exists with a label of its own. *)
Definition existingTarget : SecretSync.K8sSecret :=
  {| SecretSync.ObjName := "tokens";
     SecretSync.ObjNamespace := "team-a";
     SecretSync.ObjLabels := {[ "app" := "reports" ]};
     SecretSync.ObjAnnotations := ∅;
     SecretSync.ObjType := "Opaque";
     SecretSync.ObjData := {[ "stale" := "x" ]};
     SecretSync.Controller := None |}.

(** ** Templates *)

(** A template that names the field [user] in both of its maps, and one
    whose only field holds no placeholder. *)
Definition userTemplate : SecretTemplate :=
  {| Data := {[ "user" := "{{ .Data.username }}" ]};
     StringData := {[ "user" := "anonymous"; "realm" := "{{ .Data.realm }}" ]} |}.

Definition plainTemplate : SecretTemplate :=
  {| Data := ∅; StringData := {[ "motd" := "maintenance at noon" ]} |}.

Definition userSource : gmap string Value :=
  {[ "username" := VString "alice" ]}.

End Lab.

(* ===================================================================== *)
(** * Theorems *)
(* ===================================================================== *)

(* ===================================================================== *)
(** * Facts about Go strings *)
(* ===================================================================== *)

Section StringFacts.
Import GoStrings.

Lemma append_cons (c : ascii) (s t : string) : String c s +:+ t = String c (s +:+ t).
Proof. reflexivity. Qed.

Lemma append_empty_l (t : string) : EmptyString +:+ t = t.
Proof. reflexivity. Qed.

Lemma length_append (s t : string) :
  String.length (s +:+ t) = (String.length s + String.length t)%nat.
Proof.
  induction s as [|c s IH]; [reflexivity|].
  rewrite append_cons. cbn [String.length]. now rewrite IH.
Qed.

Lemma append_assoc (s t u : string) : (s +:+ t) +:+ u = s +:+ (t +:+ u).
Proof.
  induction s as [|c s IH]; [reflexivity|].
  rewrite !append_cons. now rewrite IH.
Qed.

Lemma append_empty_r (s : string) : s +:+ EmptyString = s.
Proof.
  induction s as [|c s IH]; [reflexivity|].
  rewrite append_cons. now rewrite IH.
Qed.

Lemma substring_zero_zero (s : string) : substring 0 0 s = EmptyString.
Proof. destruct s; reflexivity. Qed.

Lemma substring_all (s : string) : substring 0 (String.length s) s = s.
Proof. induction s as [|c s IH]; simpl; [reflexivity | now rewrite IH]. Qed.

Lemma substring_head (p t : string) : substring 0 (String.length p) (p +:+ t) = p.
Proof.
  induction p as [|c p IH].
  - apply substring_zero_zero.
  - rewrite append_cons. cbn [String.length substring]. now rewrite IH.
Qed.

Lemma substring_tail (p t : string) :
  substring (String.length p) (String.length t) (p +:+ t) = t.
Proof.
  induction p as [|c p IH].
  - apply substring_all.
  - rewrite append_cons. cbn [String.length substring]. exact IH.
Qed.

Lemma len_append (s t : string) : len (s +:+ t) = len s + len t.
Proof. unfold len. rewrite length_append. lia. Qed.

Lemma len_nonneg (s : string) : 0 <= len s.
Proof. unfold len. lia. Qed.

(** A string that starts with [p] has [p] at index 0. *)
Lemma indexOf_head (p t : string) : indexOf (p +:+ t) p = 0.
Proof.
  unfold indexOf. cbn [indexOf_loop].
  rewrite len_append.
  replace (0 <=? len p + len t - len p) with true
    by (symmetry; apply Z.leb_le; pose proof (len_nonneg t); lia).
  unfold substr. replace (0 + len p - 0) with (len p) by lia.
  unfold len. rewrite Nat2Z.id. change (Z.to_nat 0) with 0%nat.
  rewrite substring_head, String.eqb_refl. reflexivity.
Qed.

End StringFacts.

Section ReplaceAllFacts.
Import GoStrings Template.

Lemma replaceAll_body_head (p t new : string) :
  replaceAll_body (p +:+ t) p new = new +:+ t.
Proof.
  unfold replaceAll_body. rewrite indexOf_head. cbn [Z.leb Z.compare].
  unfold substr. rewrite len_append.
  replace (0 - 0) with 0 by lia.
  replace (len p + len t - (0 + len p)) with (len t) by lia.
  replace (0 + len p) with (len p) by lia.
  unfold len. rewrite !Nat2Z.id. change (Z.to_nat 0) with 0%nat.
  rewrite substring_zero_zero, substring_tail. apply append_empty_l.
Qed.

(** When the replacement is the pattern followed by more text, a string
    that starts with the pattern keeps growing: the loop of [replaceAll]
    is still running after any number of iterations. *)
Lemma replaceAll_grows (p x : string) :
  x <> EmptyString ->
  forall fuel t, replaceAll fuel (p +:+ t) p (p +:+ x) = None.
Proof.
  intros Hx fuel. induction fuel as [|fuel IH]; intros t; [reflexivity|].
  cbn [replaceAll]. rewrite replaceAll_body_head.
  destruct (String.eqb_spec ((p +:+ x) +:+ t) (p +:+ t)) as [E|_].
  - exfalso. apply (f_equal String.length) in E.
    rewrite !length_append in E.
    destruct x; [congruence | simpl in E; lia].
  - rewrite append_assoc. apply IH.
Qed.

(** More fuel does not change a result. *)
Lemma replaceAll_fuel_mono (n m : nat) (s old new r : string) :
  (n <= m)%nat -> replaceAll n s old new = Some r -> replaceAll m s old new = Some r.
Proof.
  revert m s. induction n as [|n IH]; intros m s Hle Hn; [discriminate|].
  destruct m as [|m]; [lia|].
  cbn [replaceAll] in *.
  destruct (String.eqb (replaceAll_body s old new) s); [exact Hn|].
  apply IH; [lia | exact Hn].
Qed.

(** A string without the pattern is returned as it is. *)
Lemma replaceAll_absent (fuel : nat) (s old new : string) :
  indexOf s old < 0 -> replaceAll (S fuel) s old new = Some s.
Proof.
  intros Hidx. cbn [replaceAll]. unfold replaceAll_body.
  replace (0 <=? indexOf s old) with false by (symmetry; apply Z.leb_gt; lia).
  now rewrite String.eqb_refl.
Qed.

End ReplaceAllFacts.

Section TemplateTheorems.
Import GoStrings GoValues Template Samples.

Lemma substituteFields_unmatched (fuel : nat) (visit : list (string * Value)) (tmpl : string) :
  (forall k v, In (k, v) visit -> indexOf tmpl (placeholder k) < 0) ->
  substituteFields (S fuel) visit tmpl = Some tmpl.
Proof.
  induction visit as [|[k v] rest IH]; intros Hno; [reflexivity|].
  cbn [substituteFields].
  rewrite replaceAll_absent by (apply (Hno k v); now left).
  apply IH. intros k' v' Hin. apply (Hno k' v'). now right.
Qed.

Lemma listedRanges_valid : ranges_valid listedRanges.
Proof. repeat split; intros; reflexivity. Qed.

(** The loop of [replaceAll] on the placeholder of the field [note] and
    a value that quotes this placeholder. *)
Lemma replaceAll_note_loops (fuel : nat) :
  replaceAll fuel "{{ .Data.note }}" "{{ .Data.note }}" "{{ .Data.note }}!" = None.
Proof.
  change "{{ .Data.note }}!" with ("{{ .Data.note }}" +:+ "!").
  change (replaceAll fuel ("{{ .Data.note }}" +:+ EmptyString) "{{ .Data.note }}"
                     ("{{ .Data.note }}" +:+ "!") = None).
  apply replaceAll_grows. discriminate.
Qed.

(** C10.  [replaceAll] does not terminate on every input: with the
    pattern [{{ .Data.note }}] and a replacement that is the pattern
    followed by one more character, the loop is still running after any
    number of iterations. *)
Theorem replaceAll_diverges_when_new_contains_old :
  (forall fuel,
     replaceAll fuel "{{ .Data.note }}" "{{ .Data.note }}" "{{ .Data.note }}!" = None)
  /\ ~ replaceAll_terminates "{{ .Data.note }}" "{{ .Data.note }}" "{{ .Data.note }}!".
Proof.
  split; [exact replaceAll_note_loops|].
  intros [r [fuel Hr]]. rewrite replaceAll_note_loops in Hr. discriminate.
Qed.

(** C5.  On a source secret whose field quotes its own placeholder,
    [applyTemplate] produces no output at all, whatever the visiting
    orders are, whereas the literal substitution the specification
    describes yields the field's text. *)
Theorem applyTemplate_not_literal_substitution (rng : Ranges) :
  ranges_valid rng ->
  (forall fuel, applyTemplate fuel rng ∅ noteTemplate noteSource = None)
  /\ spec_substituteFields (map_to_list noteSource) "{{ .Data.note }}" = "{{ .Data.note }}!".
Proof.
  intros (HS & HD & HsS & HsD). split; [|reflexivity].
  intros fuel. unfold applyTemplate.
  pose proof (HS (StringData noteTemplate)) as H1.
  unfold noteTemplate in *. cbn [StringData Data] in *.
  rewrite map_to_list_singleton in H1. apply Permutation_singleton_r in H1.
  rewrite H1. cbn [renderFields].
  pose proof (HsS "msg" noteSource) as H2. unfold noteSource in *.
  rewrite map_to_list_singleton in H2. apply Permutation_singleton_r in H2.
  rewrite H2. cbn [substituteFields Sprint].
  change (placeholder "note") with "{{ .Data.note }}".
  now rewrite replaceAll_note_loops.
Qed.

Lemma applyTemplate_not_literal_substitution_witness :
  ranges_valid listedRanges /\
  (forall fuel, applyTemplate fuel listedRanges ∅ noteTemplate noteSource = None)
  /\ spec_substituteFields (map_to_list noteSource) "{{ .Data.note }}" = "{{ .Data.note }}!".
Proof.
  split; [exact listedRanges_valid|].
  exact (applyTemplate_not_literal_substitution listedRanges listedRanges_valid).
Defined.

End TemplateTheorems.

Section TimeFacts.
Import GoTime.


End TimeFacts.

Section ClientTheorems.
Import Eff GoTime GoValues OpenBao.
Context {W : Type} `{Api W} `{Sys W}.


End ClientTheorems.

Section ClientWitness.
Import Eff GoTime GoValues OpenBao Samples.


End ClientWitness.

Section KeyIdFacts.
Import KMS.

Lemma append_inj_l (p a b : string) : p +:+ a = p +:+ b -> a = b.
Proof.
  induction p as [|c p IH]; [exact id|].
  rewrite !append_cons. intros [= E]. exact (IH E).
Qed.

Lemma to_int_proper (n : Z) : Z.to_int n <> Decimal.Pos Decimal.Nil /\ Z.to_int n <> Decimal.Neg Decimal.Nil.
Proof.
  destruct n as [|p|p]; cbn [Z.to_int]; split; try discriminate;
    intros [= E]; exact (Unsigned.to_uint_nonnil p E).
Qed.

(** Decimal printing is injective. *)
Lemma itoa_inj (n m : Z) : itoa n = itoa m -> n = m.
Proof.
  unfold itoa. intros E.
  apply (f_equal NilZero.int_of_string) in E.
  destruct (to_int_proper n) as [Hn1 Hn2], (to_int_proper m) as [Hm1 Hm2].
  rewrite !NilZero.isi in E by assumption.
  injection E as E. now apply DecimalZ.to_int_inj.
Qed.

Lemma formatKeyID_inj (name : string) (n m : Z) :
  formatKeyID name n = formatKeyID name m -> n = m.
Proof.
  unfold formatKeyID. intros E.
  apply append_inj_l in E. apply append_inj_l in E. now apply itoa_inj.
Qed.

End KeyIdFacts.

Section PolicyTheorems.
Import Eff GoTime K8s OpenBao Policy.
Context {W : Type} `{Api W} `{Sys W} `{Cluster W BaoPolicy}.

(** Case analysis on the answers of the clock and of the cluster. *)
Ltac answer :=
  cbn [world apiLog];
  match goal with
  | |- context [time_Now ?w] => destruct (time_Now w) as [? ?]
  | |- context [k8s_StatusUpdate ?o ?w] => destruct (k8s_StatusUpdate o w) as [[?|] ?]
  | |- context [k8s_Update ?o ?w] => destruct (k8s_Update o w) as [[?|] ?]
  end.

(** The rendering reads the specification of the policy only. *)
Lemma ToHCL_setStatus (visit : RangeOrders) (p : BaoPolicy) (st : BaoPolicyStatus) :
  ToHCL visit (setStatus p st) = ToHCL visit p.
Proof. reflexivity. Qed.

Lemma ToHCL_setFinalizers (visit : RangeOrders) (p : BaoPolicy) (fs : list string) :
  ToHCL visit (setFinalizers p fs) = ToHCL visit p.
Proof. reflexivity. Qed.

(** The hash gate of [syncPolicy]: when the stored version is the hash
    of the rendered document, the call returns nil and does nothing. *)
Lemma syncPolicy_skips_unchanged (visit : RangeOrders) (baoClient : option Client)
  (p : BaoPolicy) (st : Proc W) :
  baoClient <> None ->
  PolicyVersion (Status p) = contentVersion (ToHCL visit p) ->
  syncPolicy visit baoClient p st = Done ((None, p, baoClient), st).
Proof.
  intros Hcl Hver. destruct baoClient as [c|]; [|congruence].
  unfold syncPolicy. rewrite Hver, String.eqb_refl. reflexivity.
Qed.

(** Without a client, or with an unchanged document, [syncPolicy] sends
    nothing to the backend. *)
Lemma syncPolicy_unchanged_log (visit : RangeOrders) (baoClient : option Client)
  (p : BaoPolicy) (st : Proc W) :
  PolicyVersion (Status p) = contentVersion (ToHCL visit p) ->
  exists err, syncPolicy visit baoClient p st = Done ((err, p, baoClient), st).
Proof.
  intros Hver. destruct baoClient as [c|].
  - exists None. now apply syncPolicy_skips_unchanged.
  - eexists. reflexivity.
Qed.

(** A reconcile of a policy whose stored version is the hash of its
    rendered document sends no request to the backend. *)
Lemma Reconcile_unchanged_sends_nothing (visit : RangeOrders) (baoClient : option Client)
  (ns name : string) (st : Proc W) (p : BaoPolicy) (w1 : W) :
  k8s_Get ns name (world st) = (Found p, w1) ->
  PolicyVersion (Status p) = contentVersion (ToHCL visit p) ->
  exists r st',
    Reconcile visit baoClient ns name st = Done (r, st') /\ apiLog st' = apiLog st.
Proof.
  intros Hget Hver.
  unfold Reconcile. unfold bind at 1. unfold Get, call. rewrite Hget.
  destruct (timestampIsZero (DeletionTimestamp p)); cbn [negb].
  - (* the object is live *)
    set (p1 := if negb (ContainsFinalizer (Finalizers p) baoPolicyFinalizer)
               then setFinalizers p (AddFinalizer (Finalizers p) baoPolicyFinalizer)
               else p).
    assert (Hver1 : PolicyVersion (Status p1) = contentVersion (ToHCL visit p1)).
    { subst p1. destruct (ContainsFinalizer _ _); cbn [negb]; exact Hver. }
    destruct (syncPolicy_unchanged_log visit baoClient p1
                {| world := w1; apiLog := apiLog st |} Hver1) as [err Hsync].
    assert (Htail : forall st1 : Proc W, apiLog st1 = apiLog st ->
               exists r st',
                 bind (syncPolicy visit baoClient p1) (fun r =>
                   let '(err, baoPolicy, baoClient) := r in
                   match err with
                   | Some err =>
                       bind Now (fun now =>
                       bind (StatusUpdate (setReadyCondition now baoPolicy ConditionFalse
                                                             ReasonFailed err)) (fun e =>
                       match e with
                       | Some e => ret (NoRequeue, Some e, baoClient)
                       | None => ret ({| RequeueAfter := 30 * Second |}, None, baoClient)
                       end))
                   | None =>
                       bind Now (fun now =>
                       let st := Status baoPolicy in
                       let p1 := setStatus baoPolicy
                                   {| Conditions := Conditions st;
                                      LastSyncTime := Some now;
                                      PolicyVersion := PolicyVersion st;
                                      AppliedPolicyName := AppliedPolicyName st;
                                      ObservedGeneration := Generation baoPolicy |} in
                       bind Now (fun now' =>
                       bind (StatusUpdate (setReadyCondition now' p1 ConditionTrue ReasonSuccess
                                                             "Policy synced successfully"))
                            (fun e =>
                       match e with
                       | Some e => ret (NoRequeue, Some e, baoClient)
                       | None => ret ({| RequeueAfter := 5 * Minute |}, None, baoClient)
                       end)))
                   end) st1 = Done (r, st') /\ apiLog st' = apiLog st).
    { intros st1 Hlog.
      destruct (syncPolicy_unchanged_log visit baoClient p1 st1 Hver1) as [err1 Hsync1].
      unfold bind at 1. rewrite Hsync1.
      destruct err1 as [e|]; unfold bind, Now, StatusUpdate, call, ret;
        repeat answer;
        eexists; eexists; (split; [reflexivity | exact Hlog]). }
    subst p1.
    destruct (ContainsFinalizer (Finalizers p) baoPolicyFinalizer); cbn [negb].
    + unfold bind at 1. unfold ret at 1. apply Htail. reflexivity.
    + unfold bind at 1. unfold Update, call. answer.
      * eexists; eexists; split; [reflexivity | reflexivity].
      * apply Htail. reflexivity.
  - (* the object is being deleted *)
    unfold handleDeletion.
    destruct (ContainsFinalizer (Finalizers p) baoPolicyFinalizer).
    + unfold bind, Update, call, ret. answer;
        eexists; eexists; (split; [reflexivity | reflexivity]).
    + eexists; eexists; split; [reflexivity | reflexivity].
Qed.

(** After a successful pass the stored version is the hash of the
    document that pass rendered. *)
Lemma syncPolicy_stores_version (visit : RangeOrders) (baoClient cl1 : option Client)
  (p p1 : BaoPolicy) (st st1 : Proc W) :
  syncPolicy visit baoClient p st = Done ((None, p1, cl1), st1) ->
  PolicyVersion (Status p1) = contentVersion (ToHCL visit p)
  /\ Spec p1 = Spec p /\ Name p1 = Name p /\ cl1 <> None.
Proof.
  unfold syncPolicy. destruct baoClient as [c|]; [|discriminate].
  destruct (String.eqb_spec (PolicyVersion (Status p)) (contentVersion (ToHCL visit p)))
    as [E|_].
  - intros [= <- <- <-]. repeat split; [exact E | discriminate].
  - unfold bind. destruct (WriteSecret c _ _ st) as [[[r c1] st2]| |]; try discriminate.
    cbn [fst snd]. destruct r; [|discriminate].
    intros [= <- <- <-]. repeat split. discriminate.
Qed.

(** Two passes in a row: when the second pass renders the document the
    first pass rendered, it returns nil and does nothing. *)
Lemma syncPolicy_second_pass_skips (v1 v2 : RangeOrders) (baoClient cl1 : option Client)
  (p p1 : BaoPolicy) (st st1 : Proc W) :
  syncPolicy v1 baoClient p st = Done ((None, p1, cl1), st1) ->
  ToHCL v2 p = ToHCL v1 p ->
  syncPolicy v2 cl1 p1 st1 = Done ((None, p1, cl1), st1).
Proof.
  intros Hfirst Hsame.
  destruct (syncPolicy_stores_version _ _ _ _ _ _ _ Hfirst) as (Hver & Hspec & _ & Hcl).
  apply syncPolicy_skips_unchanged; [exact Hcl|].
  rewrite Hver, <- Hsame. unfold ToHCL. now rewrite Hspec.
Qed.

(** Lists of at most one element have one order. *)
Lemma Permutation_short {A} (l l' : list A) :
  l ≡ₚ l' -> (length l' <= 1)%nat -> l = l'.
Proof.
  intros Hp Hlen. destruct l' as [|x [|y l']]; cbn [length] in Hlen; [| |lia].
  - now apply Permutation_nil_r.
  - now apply Permutation_singleton_r.
Qed.

(** The rendering does not depend on the visiting orders when no rule
    constrains more than one parameter. *)
Lemma ToHCL_order_irrelevant (v1 v2 : RangeOrders) (p : BaoPolicy) :
  ranges_valid v1 -> ranges_valid v2 ->
  Forall (fun rule => (size (AllowedParameters rule) <= 1)%nat) (Rules (Spec p)) ->
  ToHCL v1 p = ToHCL v2 p.
Proof.
  intros Hv1 Hv2 Hsmall. unfold ToHCL.
  enough (Hall : forall i hcl, rulesHCL v1 i (Rules (Spec p)) hcl
                               = rulesHCL v2 i (Rules (Spec p)) hcl) by apply Hall.
  induction Hsmall as [|rule rules Hrule _ IH]; intros i hcl; [reflexivity|].
  cbn [rulesHCL].
  assert (E : v1 i (AllowedParameters rule) = v2 i (AllowedParameters rule)).
  { rewrite <- length_map_to_list in Hrule.
    rewrite (Permutation_short _ _ (Hv1 i (AllowedParameters rule)) Hrule).
    now rewrite (Permutation_short _ _ (Hv2 i (AllowedParameters rule)) Hrule). }
  rewrite E. apply IH.
Qed.

End PolicyTheorems.

Section PolicyRotation.
Import Eff GoTime K8s OpenBao Policy Samples.

Lemma listedOrder_valid : ranges_valid listedOrder.
Proof. intros i m. reflexivity. Qed.

Lemma reversedOrder_valid : ranges_valid reversedOrder.
Proof. intros i m. unfold reversedOrder. apply reverse_Permutation. Qed.

(** C4.  The hash gate does not make two reconciles of one rule list
    idempotent: for a rule with two allowed parameters, a second pass
    whose [range] visits them in the other order renders another
    document, writes the policy to the backend again and stores another
    version. *)
Theorem syncPolicy_second_pass_writes_again :
  ranges_valid listedOrder /\ ranges_valid reversedOrder /\
  exists p1 p2 st1 st2 data1 data2,
    syncPolicy listedOrder (Some rootClient) appPolicy (procAt 0)
    = Done ((None, p1, Some rootClient), st1)
    /\ apiLog st1 = [ApiWrite "root" "sys/policies/acl/app-policy" data1]
    /\ syncPolicy reversedOrder (Some rootClient) p1 st1
       = Done ((None, p2, Some rootClient), st2)
    /\ apiLog st2 = apiLog st1 ++ [ApiWrite "root" "sys/policies/acl/app-policy" data2]
    /\ Rules (Spec p1) = Rules (Spec appPolicy)
    /\ PolicyVersion (Status p1) = "bb9ee310917c3533"
    /\ PolicyVersion (Status p2) = "2f165161d6c09ba9".
Proof.
  split; [exact listedOrder_valid|]. split; [exact reversedOrder_valid|].
  do 6 eexists. split; [vm_compute; reflexivity|].
  split; [reflexivity|].
  split; [vm_compute; reflexivity|].
  repeat split.
Qed.

End PolicyRotation.

Section SecretSyncTheorems.
Import Eff GoTime K8s OpenBao Template SecretSync.
Context {W : Type} `{Api W} `{Sys W} `{Cluster W} `{GoLib}.

Ltac answer_sync :=
  cbn [world apiLog];
  match goal with
  | |- context [time_Now ?w] => destruct (time_Now w) as [? ?]
  | |- context [k8s_StatusUpdate ?o ?w] => destruct (k8s_StatusUpdate o w) as [[?|] ?]
  | |- context [k8s_Update ?o ?w] => destruct (k8s_Update o w) as [[?|] ?]
  end.

(** The three cases of [parseRefreshInterval]. *)
Lemma parseRefreshInterval_cases (interval : string) :
  (interval = EmptyString \/ (exists e, time_ParseDuration interval = Err e) ->
   parseRefreshInterval interval = Hour)
  /\ (forall d, interval <> EmptyString -> time_ParseDuration interval = Ok d ->
                (d < Minute -> parseRefreshInterval interval = Minute)
                /\ (Minute <= d -> parseRefreshInterval interval = d)).
Proof.
  unfold parseRefreshInterval, defaultRefreshInterval. split.
  - intros [-> | [e He]]; [reflexivity|].
    destruct (String.eqb interval EmptyString); [reflexivity | now rewrite He].
  - intros d Hne Hd.
    destruct (String.eqb_spec interval EmptyString) as [E|_]; [contradiction|].
    rewrite Hd. split; intros Hcmp.
    + apply Z.ltb_lt in Hcmp. now rewrite Hcmp.
    + apply Z.ltb_ge in Hcmp. now rewrite Hcmp.
Qed.

(** [syncSecret] writes to the status of the object only. *)
Lemma syncSecret_keeps_spec (fuel : nat) (rng : Ranges) (cl cl' : option Client)
  (b b' : BaoSecret) (err : option string) (st st' : Proc W) :
  syncSecret fuel rng cl b st = Done ((err, b', cl'), st') ->
  Spec b' = Spec b /\ Generation b' = Generation b.
Proof.
  unfold syncSecret. destruct cl as [c|]; [|intros [= <- <- <-]; now split].
  unfold bind at 1. destruct (KVRead c _ st) as [[[r c1] st1]| |]; try discriminate.
  cbn [fst snd]. destruct r as [entries|e]; [|intros [= <- <- <-]; now split].
  match goal with
  | |- context [match ?x with Ok _ => _ | Err _ => _ end] => destruct x as [data|e]
  end; [|intros [= <- <- <-]; now split].
  unfold bind at 1.
  match goal with
  | |- context [match ?x st1 with Done _ => _ | Panicked _ => _ | OutOfFuel => _ end] =>
      destruct (x st1) as [[templated st2]| |]
  end; try discriminate.
  unfold bind, CreateOrUpdate, call.
  destruct (k8s_CreateOrUpdate _ _ (world st2)) as [[stored|e] w3];
    intros [= <- <- <-]; now split.
Qed.

(** C7.  The requeue interval is one hour for an empty or unparsable
    refresh interval, one minute for a duration below one minute, and the
    duration itself otherwise.  A reconcile of a live resource that is
    not suspended and whose sync succeeds reads the clock three times
    and writes the status; when that update succeeds it returns without
    an error and asks to be requeued after exactly this interval, and
    when the update fails it returns the error of the update and no
    requeue. *)
Theorem refresh_interval_sets_requeue (fuel : nat) (rng : Ranges) (cl cl2 : option Client)
  (ns name : string) (st st1 st2 : Proc W) (w1 wa wb wc w3 : W) (b b2 : BaoSecret)
  (now now1 now2 : Time) (e : option string) :
  let withFinalizer := setFinalizers b (AddFinalizer (Finalizers b) baoSecretFinalizer) in
  let present := ContainsFinalizer (Finalizers b) baoSecretFinalizer in
  let b1 := if negb present then withFinalizer else b in
  let synced :=
    setStatus b2
      {| Conditions := Conditions (Status b2);
         LastSyncTime := Some now;
         SecretVersion := SecretVersion (Status b2);
         SyncedSecretName := SyncedSecretName (Status b2);
         SyncedSecretNamespace := SyncedSecretNamespace (Status b2);
         ObservedGeneration := Generation b2 |} in
  let ready :=
    setConditionOf now2
      (setConditionOf now1 synced ConditionTypeSynced ConditionTrue
                      ReasonSuccess "Secret synced successfully")
      ConditionTypeReady ConditionTrue ReasonSuccess "Secret is ready" in
  k8s_Get ns name (world st) = (Found b, w1) ->
  Policy.timestampIsZero (DeletionTimestamp b) = true ->
  (if negb present then Update withFinalizer else ret None)
    {| world := w1; apiLog := apiLog st |} = Done (None, st1) ->
  SuspendSync (Spec b) = false ->
  syncSecret fuel rng cl b1 st1 = Done ((None, b2, cl2), st2) ->
  time_Now (world st2) = (now, wa) ->
  time_Now wa = (now1, wb) ->
  time_Now wb = (now2, wc) ->
  k8s_StatusUpdate ready wc = (e, w3) ->
  (forall interval,
     (interval = EmptyString \/ (exists e, time_ParseDuration interval = Err e) ->
      parseRefreshInterval interval = Hour)
     /\ (forall d, interval <> EmptyString -> time_ParseDuration interval = Ok d ->
                   (d < Minute -> parseRefreshInterval interval = Minute)
                   /\ (Minute <= d -> parseRefreshInterval interval = d)))
  /\ Reconcile fuel rng cl ns name st
     = Done ((match e with
              | None => {| RequeueAfter := parseRefreshInterval (RefreshInterval (Spec b)) |}
              | Some _ => NoRequeue
              end, e, cl2),
             {| world := w3; apiLog := apiLog st2 |}).
Proof.
  cbn zeta. intros Hget Hlive Hfin Hrun Hsync Hnow Hnow1 Hnow2 Hupd.
  split; [exact parseRefreshInterval_cases|].
  destruct (syncSecret_keeps_spec _ _ _ _ _ _ _ _ _ Hsync) as [Hspec _].
  assert (Hspec1 : Spec b2 = Spec b).
  { rewrite Hspec. now destruct (ContainsFinalizer _ _). }
  unfold Reconcile. unfold bind at 1. unfold Get, call. rewrite Hget.
  rewrite Hlive. cbn [negb].
  unfold bind at 1. rewrite Hfin.
  assert (Hsus : SuspendSync
            (Spec (if negb (ContainsFinalizer (Finalizers b) baoSecretFinalizer)
                   then setFinalizers b (AddFinalizer (Finalizers b) baoSecretFinalizer)
                   else b)) = false).
  { now destruct (ContainsFinalizer _ _). }
  rewrite Hsus.
  unfold bind at 1. rewrite Hsync.
  unfold bind, Now, StatusUpdate, call, ret.
  rewrite Hnow. cbn [world apiLog]. rewrite Hnow1. cbn [world apiLog].
  rewrite Hnow2. cbn [world apiLog]. rewrite Hupd.
  destruct e as [msg|]; [reflexivity|]. now rewrite Hspec1.
Qed.

End SecretSyncTheorems.

Section SecretSyncWitness.
Import Eff GoTime K8s OpenBao Template SecretSync Samples.

(** The resource of the end-to-end scenario asks for a refresh every 30
    seconds: its reconcile succeeds and asks to be requeued after one
    minute. *)
Lemma refresh_interval_sets_requeue_witness :
  parseRefreshInterval "30s" = Minute
  /\ exists st3,
       Reconcile 8 listedRanges (Some rootClient) "default" "db" (procAt 0)
       = Done (({| RequeueAfter := Minute |}, None, Some rootClient), st3).
Proof.
  split; [reflexivity|].
  assert (Hsync : exists b2 st2,
             syncSecret 8 listedRanges (Some rootClient) dbBaoSecret (procAt 0)
             = Done ((None, b2, Some rootClient), st2)
             /\ world st2 = worldAt 0).
  { do 2 eexists. split; [vm_compute; reflexivity | reflexivity]. }
  destruct Hsync as (b2 & st2 & Hsync & Hworld).
  eexists.
  refine (proj2 (refresh_interval_sets_requeue 8 listedRanges (Some rootClient)
                   (Some rootClient) "default" "db" (procAt 0) (procAt 0) st2
                   (worldAt 0) (worldAt 0) (worldAt 0) (worldAt 0) (worldAt 0)
                   dbBaoSecret b2 0 0 0 None
                   eq_refl eq_refl eq_refl eq_refl Hsync _ eq_refl eq_refl eq_refl)).
  now rewrite Hworld.
Defined.

End SecretSyncWitness.

(* ===================================================================== *)
(** * The provider: the backend log *)
(* ===================================================================== *)

Section LogFacts.
Import Eff GoTime GoStrings GoValues OpenBao CSI.
Context {W : Type} `{Api W} `{Sys W} `{CsiLib}.

Lemma appending_ret {A} (a : A) : appending (W := W) (ret a).
Proof. intros p. exists a, p, []. split; [reflexivity | now rewrite app_nil_r]. Qed.

Lemma appending_bind {A B} (c : M (Proc W) A) (k : A -> M (Proc W) B) :
  appending c -> (forall a, appending (k a)) -> appending (bind c k).
Proof.
  intros Hc Hk p. destruct (Hc p) as (a & p1 & pre1 & Hrun1 & Hlog1).
  destruct (Hk a p1) as (b & p2 & pre2 & Hrun2 & Hlog2).
  exists b, p2, (pre1 ++ pre2). unfold bind. rewrite Hrun1. split; [exact Hrun2|].
  now rewrite Hlog2, Hlog1, app_assoc.
Qed.

Lemma appending_Now : appending Now.
Proof.
  intros p. unfold Now, call. destruct (time_Now (world p)) as [t w].
  do 2 eexists. exists []. split; [reflexivity | now rewrite app_nil_r].
Qed.

Lemma appending_Getenv (name : string) : appending (Getenv name).
Proof. intros p. do 2 eexists. exists []. split; [reflexivity | now rewrite app_nil_r]. Qed.

Lemma appending_ReadFile (path : string) : appending (ReadFile path).
Proof. intros p. do 2 eexists. exists []. split; [reflexivity | now rewrite app_nil_r]. Qed.

Lemma appending_LogicalRead (token path : string) : appending (LogicalRead token path).
Proof.
  intros p. unfold LogicalRead, call. destruct (logical_Read token path (world p)) as [r w].
  do 2 eexists. exists [ApiRead token path]. split; reflexivity.
Qed.

Lemma appending_LogicalWrite (token path : string) (data : list (string * Value)) :
  appending (LogicalWrite token path data).
Proof.
  intros p. unfold LogicalWrite, call.
  destruct (logical_Write token path data (world p)) as [r w].
  do 2 eexists. exists [ApiWrite token path data]. split; reflexivity.
Qed.

Lemma appending_RenewSelf (token : string) (increment : Z) :
  appending (RenewSelf token increment).
Proof.
  intros p. unfold RenewSelf, call.
  destruct (token_RenewSelf token increment (world p)) as [r w].
  do 2 eexists. exists [ApiRenewSelf token]. split; reflexivity.
Qed.

(** Decompose a computation into steps that append. *)
Ltac appending_steps :=
  repeat first
    [ apply appending_ret
    | apply appending_Now
    | apply appending_Getenv
    | apply appending_ReadFile
    | apply appending_LogicalRead
    | apply appending_LogicalWrite
    | apply appending_RenewSelf
    | apply appending_bind; [|intros ?]
    | progress cbv zeta
    | match goal with
      | |- appending (if ?b then _ else _) => destruct b
      | |- appending (match ?x with _ => _ end) => destruct x
      end ].

Lemma appending_login (c : AuthenticatedClient) (method mountPath jwt : string) :
  appending (login c method mountPath jwt).
Proof. unfold login. appending_steps. Qed.

Lemma appending_authenticateClient (c : AuthenticatedClient) :
  appending (authenticateClient c).
Proof.
  unfold authenticateClient, authenticateKubernetes, authenticateJWT, authenticateToken, login.
  appending_steps.
Qed.

Lemma appending_RefreshToken (c : AuthenticatedClient) : appending (CSI.RefreshToken c).
Proof.
  unfold CSI.RefreshToken. appending_steps; apply appending_authenticateClient.
Qed.

(** [ReadSecret] returns, and the last request it sends is the read of
    [path]. *)
Lemma ReadSecret_log (c : AuthenticatedClient) (path : string) (p : Proc W) :
  exists r c1 p1 pre,
    CSI.ReadSecret c path p = Done ((r, c1), p1)
    /\ apiLog p1 = apiLog p ++ pre ++ [ApiRead (token c1) path].
Proof.
  unfold CSI.ReadSecret.
  destruct (appending_RefreshToken c p) as ([e c1] & p1 & pre & Hrun & Hlog).
  unfold bind at 1. rewrite Hrun. cbn [snd].
  unfold bind, LogicalRead, call, ret.
  destruct (logical_Read (token c1) path (world p1)) as [r w].
  exists r, c1. do 2 eexists. split; [reflexivity|].
  cbn [apiLog]. now rewrite Hlog, app_assoc.
Qed.

(** [WriteSecret] returns, and the last request it sends is the write to
    [path]. *)
Lemma WriteSecret_log (c : AuthenticatedClient) (path : string)
  (data : list (string * Value)) (p : Proc W) :
  exists r c1 p1 pre,
    CSI.WriteSecret c path data p = Done ((r, c1), p1)
    /\ apiLog p1 = apiLog p ++ pre ++ [ApiWrite (token c1) path data].
Proof.
  unfold CSI.WriteSecret.
  destruct (appending_RefreshToken c p) as ([e c1] & p1 & pre & Hrun & Hlog).
  unfold bind at 1. rewrite Hrun. cbn [snd].
  unfold bind, LogicalWrite, call, ret.
  destruct (logical_Write (token c1) path data (world p1)) as [r w].
  exists r, c1. do 2 eexists. split; [reflexivity|].
  cbn [apiLog]. now rewrite Hlog, app_assoc.
Qed.

End LogFacts.

Section FetcherTheorems.
Import Eff GoTime GoStrings GoValues OpenBao CSI.
Context {W : Type} `{Api W} `{Sys W} `{CsiLib}.
Variable cfg : Config.

Lemma cache_get_absent (key : string) (st : St W) :
  entries st !! key = None -> cache_get key st = Done (None, st).
Proof. intros Hnone. unfold cache_get. now rewrite Hnone. Qed.

Lemma cache_get_present (key : string) (st : St W) (entry : cacheEntry) (now : Time) (w : W) :
  entries st !! key = Some entry ->
  time_Now (world (proc st)) = (now, w) ->
  cache_get key st
  = Done ((if expiresAt entry <? now then None else Some (secret entry)), after_clock st w).
Proof.
  intros Hsome Hnow. unfold cache_get. rewrite Hsome.
  unfold bind, liftProc, Now, call. rewrite Hnow. unfold After.
  destruct (expiresAt entry <? now); reflexivity.
Qed.

Lemma cache_set_stores (key : string) (s : FetchedSecret) (st : St W) (now : Time) (w : W) :
  time_Now (world (proc st)) = (now, w) ->
  cache_set cfg key s st
  = Done (tt, {| proc := {| world := w; apiLog := apiLog (proc st) |};
                 entries := <[key := {| secret := s; expiresAt := now + CacheTTL cfg |}]>
                              (entries st) |}).
Proof.
  intros Hnow. unfold cache_set, bind, liftProc, Now, call. now rewrite Hnow.
Qed.

(** When [readFromOpenBao] returns, the last request in the log is the
    request for the object. *)
Lemma readFromOpenBao_log (client c1 : AuthenticatedClient) (obj : SecretObject)
  (p p1 : Proc W) (r : Result (string * string)) :
  readFromOpenBao client obj p = Done ((r, c1), p1) ->
  exists pre call, apiLog p1 = apiLog p ++ pre ++ [call] /\ request_of obj call.
Proof.
  unfold readFromOpenBao.
  destruct (0 <? size (SecretArgs obj))%nat eqn:Hargs.
  - match goal with
    | |- context [CSI.WriteSecret client ?path ?data] =>
        destruct (WriteSecret_log client path data p) as (r0 & c0 & p0 & pre & Hrun & Hlog)
    end.
    unfold bind at 1. rewrite Hrun. cbn [fst snd]. intros Hres.
    exists pre. eexists. cbn [request_of].
    assert (Hp : p1 = p0).
    { destruct r0 as [[resp|]|e]; [destruct (SecretData resp) as [d|]|..];
        [destruct (slice (RequestID resp) 0 8); [|discriminate];
         destruct (extractContent _ obj)|..];
        unfold ret in Hres; congruence. }
    subst p1. split; [exact Hlog|].
    split; [now apply Nat.ltb_lt | reflexivity].
  - match goal with
    | |- context [CSI.ReadSecret client ?path] =>
        destruct (ReadSecret_log client path p) as (r0 & c0 & p0 & pre & Hrun & Hlog)
    end.
    unfold bind at 1. rewrite Hrun. cbn [fst snd]. intros Hres.
    exists pre. eexists. cbn [request_of].
    assert (Hp : p1 = p0).
    { destruct r0 as [[resp|]|e]; [destruct (SecretData resp) as [d|]|..];
        [destruct (lookup_entry "data" d); destruct (extractContent _ obj)|..];
        unfold ret in Hres; congruence. }
    subst p1. split; [exact Hlog|].
    split; [|reflexivity].
    apply Nat.ltb_ge in Hargs. lia.
Qed.

(** When a fetch that misses the cache returns, it has sent the request
    for the object. *)
Lemma fetchMiss_log (client c1 : AuthenticatedClient) (obj : SecretObject)
  (st st1 : St W) (r : Result FetchedSecret) :
  fetchMiss cfg client obj st = Done ((r, c1), st1) ->
  exists pre call,
    apiLog (proc st1) = apiLog (proc st) ++ pre ++ [call] /\ request_of obj call.
Proof.
  unfold fetchMiss. unfold bind at 1. unfold liftProc.
  destruct (readFromOpenBao client obj (proc st)) as [[[r0 c0] p0]| |] eqn:Hread;
    try discriminate.
  destruct (readFromOpenBao_log _ _ _ _ _ _ Hread) as (pre & call & Hlog & Hreq).
  cbn [fst snd]. intros Hres. exists pre, call. split; [|exact Hreq].
  destruct r0 as [[content version]|e].
  - destruct (time_Now (world p0)) as [now w] eqn:Hnow.
    unfold bind in Hres.
    erewrite cache_set_stores in Hres by (cbn [proc]; exact Hnow).
    injection Hres as _ _ <-. exact Hlog.
  - injection Hres as _ _ <-. exact Hlog.
Qed.

(** A fetch that misses the cache and succeeds leaves its secret in the
    cache, with the expiry computed from the clock reading of the
    insertion. *)
Lemma fetchMiss_caches (client c1 : AuthenticatedClient) (obj : SecretObject)
  (st st1 : St W) (s : FetchedSecret) :
  fetchMiss cfg client obj st = Done ((Ok s, c1), st1) ->
  exists p0 tset w,
    time_Now (world p0) = (tset, w)
    /\ entries st1 = <[cacheKey obj := {| secret := s; expiresAt := tset + CacheTTL cfg |}]>
                       (entries st).
Proof.
  unfold fetchMiss. unfold bind at 1. unfold liftProc.
  destruct (readFromOpenBao client obj (proc st)) as [[[r0 c0] p0]| |]; try discriminate.
  cbn [fst snd]. destruct r0 as [[content version]|e]; [|discriminate].
  destruct (time_Now (world p0)) as [tset w] eqn:Hnow.
  unfold bind. erewrite cache_set_stores by (cbn [proc]; exact Hnow).
  intros [= <- <- <-]. exists p0, tset, w. split; [exact Hnow | reflexivity].
Qed.

(** After a fetch that returned a secret, the cache holds it: in the
    entry the fetch found, or in the entry the fetch inserted, whose
    expiry is the clock reading of the insertion plus the TTL. *)
Lemma fetchSecret_leaves_entry (client c1 : AuthenticatedClient) (obj : SecretObject)
  (st st1 : St W) (s : FetchedSecret) :
  fetchSecret cfg client obj st = Done ((Ok s, c1), st1) ->
  exists entry,
    entries st1 !! cacheKey obj = Some entry
    /\ secret entry = s
    /\ (entries st !! cacheKey obj = Some entry
        \/ exists p0 tset w, time_Now (world p0) = (tset, w)
                             /\ expiresAt entry = tset + CacheTTL cfg).
Proof.
  intros Hfetch.
  assert (Hmiss : forall st0, fetchMiss cfg client obj st0 = Done ((Ok s, c1), st1) ->
            exists entry,
              entries st1 !! cacheKey obj = Some entry
              /\ secret entry = s
              /\ (entries st !! cacheKey obj = Some entry
                  \/ exists p0 tset w, time_Now (world p0) = (tset, w)
                                       /\ expiresAt entry = tset + CacheTTL cfg)).
  { intros st0 Hrun.
    destruct (fetchMiss_caches _ _ _ _ _ _ Hrun) as (p0 & tset & w & Hset & Hentries).
    eexists. split; [rewrite Hentries; apply lookup_insert_eq|].
    split; [reflexivity|]. right. exists p0, tset, w. split; [exact Hset | reflexivity]. }
  unfold fetchSecret, bind in Hfetch.
  destruct (entries st !! cacheKey obj) as [e0|] eqn:Hlook.
  - destruct (time_Now (world (proc st))) as [now w] eqn:Hnow.
    rewrite (cache_get_present _ _ _ _ _ Hlook Hnow) in Hfetch.
    destruct (expiresAt e0 <? now).
    + exact (Hmiss _ Hfetch).
    + injection Hfetch as <- _ <-. exists e0. cbn [after_clock entries].
      split; [exact Hlook|]. split; [reflexivity | now left].
  - rewrite (cache_get_absent _ _ Hlook) in Hfetch. exact (Hmiss _ Hfetch).
Qed.

(** C6.  [get] returns nil for an absent key and for an entry whose
    expiry has passed, and the stored secret otherwise; [set] overwrites
    the entry with expiry = clock reading + TTL.  So after a fetch that
    returned a secret, a fetch of the same (path, key, name) read at an
    instant up to the expiry of the entry returns the same secret and
    sends nothing to the backend, and one read after the expiry goes to
    the backend again. *)
Theorem cache_serves_until_expiry (client c1 c2 : AuthenticatedClient)
  (obj1 obj2 : SecretObject) (st st1 st2 : St W) (s : FetchedSecret)
  (now2 : Time) (w2 : W) :
  SecretPath obj2 = SecretPath obj1 ->
  SecretKey obj2 = SecretKey obj1 ->
  ObjectName obj2 = ObjectName obj1 ->
  fetchSecret cfg client obj1 st = Done ((Ok s, c1), st1) ->
  entries st2 = entries st1 ->
  time_Now (world (proc st2)) = (now2, w2) ->
  (forall key st0, entries st0 !! key = None -> cache_get key st0 = Done (None, st0))
  /\ (forall key st0 entry now w,
        entries st0 !! key = Some entry ->
        time_Now (world (proc st0)) = (now, w) ->
        cache_get key st0
        = Done ((if expiresAt entry <? now then None else Some (secret entry)),
                after_clock st0 w))
  /\ (forall key s0 st0 now w,
        time_Now (world (proc st0)) = (now, w) ->
        cache_set cfg key s0 st0
        = Done (tt, {| proc := {| world := w; apiLog := apiLog (proc st0) |};
                       entries := <[key := {| secret := s0;
                                              expiresAt := now + CacheTTL cfg |}]>
                                    (entries st0) |}))
  /\ exists entry,
       entries st1 !! cacheKey obj1 = Some entry
       /\ secret entry = s
       /\ (entries st !! cacheKey obj1 = Some entry
           \/ exists p0 tset w, time_Now (world p0) = (tset, w)
                                /\ expiresAt entry = tset + CacheTTL cfg)
       /\ (now2 <= expiresAt entry ->
           fetchSecret cfg c2 obj2 st2 = Done ((Ok s, c2), after_clock st2 w2))
       /\ (expiresAt entry < now2 ->
           fetchSecret cfg c2 obj2 st2 = fetchMiss cfg c2 obj2 (after_clock st2 w2)
           /\ forall r c3 st3,
                fetchSecret cfg c2 obj2 st2 = Done ((r, c3), st3) ->
                exists pre call,
                  apiLog (proc st3) = apiLog (proc st2) ++ pre ++ [call]
                  /\ request_of obj2 call).
Proof.
  intros Hpath Hkey Hname Hfirst Hsame Hnow2.
  split; [exact cache_get_absent|].
  split; [exact cache_get_present|].
  split; [exact (cache_set_stores)|].
  destruct (fetchSecret_leaves_entry _ _ _ _ _ _ Hfirst) as (entry & Hentry & Hs & Horigin).
  exists entry. split; [exact Hentry|]. split; [exact Hs|]. split; [exact Horigin|].
  assert (Hk : cacheKey obj2 = cacheKey obj1).
  { unfold cacheKey. now rewrite Hpath, Hkey, Hname. }
  assert (Hget : cache_get (cacheKey obj2) st2
                 = Done ((if expiresAt entry <? now2 then None else Some s),
                         after_clock st2 w2)).
  { rewrite Hk, <- Hs.
    apply cache_get_present; [now rewrite Hsame | exact Hnow2]. }
  split.
  - intros Hle. unfold fetchSecret, bind. rewrite Hget.
    apply Z.ltb_ge in Hle. now rewrite Hle.
  - intros Hlt. apply Z.ltb_lt in Hlt.
    assert (Hpath2 : fetchSecret cfg c2 obj2 st2 = fetchMiss cfg c2 obj2 (after_clock st2 w2)).
    { unfold fetchSecret, bind. rewrite Hget. now rewrite Hlt. }
    split; [exact Hpath2|].
    intros r c3 st3 Hrun. rewrite Hpath2 in Hrun.
    apply fetchMiss_log in Hrun. exact Hrun.
Qed.

(** The first [n] bytes of a string that has them. *)
Lemma length_substring_head (s : string) (n : nat) :
  (n <= String.length s)%nat -> String.length (substring 0 n s) = n.
Proof.
  revert n. induction s as [|c s IH]; intros [|n] Hle; cbn in *; try reflexivity; try lia.
  rewrite IH; [reflexivity | lia].
Qed.

(** C9.  For an object with arguments whose write returns a response:
    without data the call returns an error; with data the version is the
    first eight bytes of the request id when the id has at least eight,
    and the call panics when it has fewer.  The read path never slices:
    it reports the metadata version of the response, and 1 when there is
    none. *)
Theorem readFromOpenBao_version_token (client c1 : AuthenticatedClient)
  (obj : SecretObject) (p p1 : Proc W) (resp : Secret) :
  let path := resolvePath (SecretPath obj) in
  let data := (fun kv => (fst kv, VString (snd kv))) <$> map_to_list (SecretArgs obj) in
  ((0 < size (SecretArgs obj))%nat ->
   CSI.WriteSecret client path data p = Done ((Ok (Some resp), c1), p1) ->
   match SecretData resp with
   | None =>
       readFromOpenBao client obj p
       = Done ((Err ("no data returned from path: " +:+ path), c1), p1)
   | Some d =>
       (8 <= len (RequestID resp) ->
        readFromOpenBao client obj p
        = Done ((match extractContent (VMap d) obj with
                 | Ok content => Ok (content, substring 0 8 (RequestID resp))
                 | Err e => Err e
                 end, c1), p1)
        /\ String.length (substring 0 8 (RequestID resp)) = 8%nat)
       /\ (len (RequestID resp) < 8 ->
           readFromOpenBao client obj p = Panicked "slice bounds out of range")
   end)
  /\ (size (SecretArgs obj) = 0%nat ->
      CSI.ReadSecret client path p = Done ((Ok (Some resp), c1), p1) ->
      forall d, SecretData resp = Some d ->
      exists r, readFromOpenBao client obj p = Done ((r, c1), p1)
                /\ forall content version,
                     r = Ok (content, version) ->
                     version = "1"
                     \/ (version <> EmptyString /\ version = metadataVersion d)).
Proof.
  cbn zeta. split.
  - intros Hargs Hwrite. apply Nat.ltb_lt in Hargs.
    unfold readFromOpenBao. rewrite Hargs. unfold bind. rewrite Hwrite.
    cbn [fst snd]. destruct (SecretData resp) as [d|]; [|reflexivity].
    unfold slice. split.
    + intros Hlen.
      replace (0 <=? 0) with true by reflexivity.
      replace (0 <=? 8) with true by reflexivity.
      replace (8 <=? len (RequestID resp)) with true by (symmetry; now apply Z.leb_le).
      cbn [andb]. unfold substr. change (Z.to_nat 0) with 0%nat.
      change (Z.to_nat (8 - 0)) with 8%nat. split.
      * destruct (extractContent (VMap d) obj); reflexivity.
      * apply length_substring_head. unfold len in Hlen. lia.
    + intros Hlen.
      replace (8 <=? len (RequestID resp)) with false by (symmetry; now apply Z.leb_gt).
      rewrite andb_false_r. reflexivity.
  - intros Hargs Hread d Hd.
    unfold readFromOpenBao. rewrite Hargs. cbn [Nat.ltb Nat.leb].
    unfold bind. rewrite Hread. cbn [fst snd]. rewrite Hd.
    destruct (lookup_entry "data" d) as [inner|].
    + destruct (String.eqb_spec (metadataVersion d) EmptyString) as [E|NE];
        destruct (extractContent inner obj) as [content|e]; eexists;
        (split; [reflexivity|]); intros c v [= <- <-] || intros c v [=]; auto.
    + cbn [String.eqb]. destruct (extractContent (VMap d) obj) as [content|e]; eexists;
        (split; [reflexivity|]); intros c v [= <- <-] || intros c v [=]; auto.
Qed.

End FetcherTheorems.

Section FetcherWitnesses.
Import Eff GoTime GoStrings GoValues OpenBao CSI Samples.

(** A secret fetched at instant 100 into an empty cache is served from
    the cache at the instant its entry expires, and fetched again one
    nanosecond later. *)
Lemma cache_serves_until_expiry_witness :
  fetchSecret sampleConfig podClient objUser (coldAt 100)
  = Done ((Ok userSecret, podClient), warmAt 100)
  /\ fetchSecret sampleConfig podClient objUser (warmSeenAt 100 (100 + 5 * Minute))
     = Done ((Ok userSecret, podClient), warmSeenAt 100 (100 + 5 * Minute))
  /\ fetchSecret sampleConfig podClient objUser (warmSeenAt 100 (101 + 5 * Minute))
     = fetchMiss sampleConfig podClient objUser (warmSeenAt 100 (101 + 5 * Minute)).
Proof.
  assert (Hfirst : fetchSecret sampleConfig podClient objUser (coldAt 100)
                   = Done ((Ok userSecret, podClient), warmAt 100)) by reflexivity.
  pose proof (cache_serves_until_expiry sampleConfig podClient podClient podClient
                objUser objUser (coldAt 100) (warmAt 100)
                (warmSeenAt 100 (100 + 5 * Minute)) userSecret
                (100 + 5 * Minute) (worldAt (100 + 5 * Minute))
                eq_refl eq_refl eq_refl Hfirst eq_refl eq_refl) as Hin.
  pose proof (cache_serves_until_expiry sampleConfig podClient podClient podClient
                objUser objUser (coldAt 100) (warmAt 100)
                (warmSeenAt 100 (101 + 5 * Minute)) userSecret
                (101 + 5 * Minute) (worldAt (101 + 5 * Minute))
                eq_refl eq_refl eq_refl Hfirst eq_refl eq_refl) as Hout.
  destruct Hin as (_ & _ & _ & entry & Hentry & _ & _ & Hhit & _).
  destruct Hout as (_ & _ & _ & entry' & Hentry' & _ & _ & _ & Hmiss).
  assert (Hstored : entries (warmAt 100) !! cacheKey objUser
                    = Some {| secret := userSecret; expiresAt := 100 + 5 * Minute |})
    by reflexivity.
  rewrite Hstored in Hentry, Hentry'.
  injection Hentry as <-. injection Hentry' as <-.
  split; [exact Hfirst|]. split.
  - apply Hhit. cbn [expiresAt]. lia.
  - apply Hmiss. cbn [expiresAt]. lia.
Defined.

(** The dynamic credentials of the sample backend: a request id of 36
    characters gives the version [c0ffee00], one of 6 characters makes
    the fetch panic. *)
Lemma readFromOpenBao_version_token_witness :
  readFromOpenBao podClient objCreds (procAt 100)
  = Done ((Ok ("pw-9", "c0ffee00"), podClient),
          {| world := worldAt 100;
             apiLog := [ApiWrite "s.login" "secret/data/database/creds/app"
                          [("ttl", VString "1h")]] |})
  /\ readFromOpenBao podClient objShort (procAt 100) = Panicked "slice bounds out of range".
Proof.
  split.
  - refine (proj1 (proj1 (proj1 (readFromOpenBao_version_token podClient podClient objCreds
                     (procAt 100) _ (credsSecret "c0ffee00-1234-4abc-8def-000000000042"))
                     _ _) _)).
    + vm_compute. constructor.
    + vm_compute. reflexivity.
    + vm_compute. discriminate.
  - refine (proj2 (proj1 (readFromOpenBao_version_token podClient podClient objShort
                     (procAt 100) _ (credsSecret "c0ffee")) _ _) _).
    + vm_compute. constructor.
    + vm_compute. reflexivity.
    + vm_compute. reflexivity.
Defined.

End FetcherWitnesses.

Section MountTheorems.
Import Eff GoTime GoStrings GoValues OpenBao CSI.
Context {W : Type} `{Api W} `{Sys W} `{CsiLib}.
Variable cfg : Config.

(** ** Occurrences *)

Lemma occurs_in_refl (s : string) : occurs_in s s.
Proof. exists EmptyString, EmptyString. now rewrite append_empty_r. Qed.

Lemma occurs_in_append_r (x s t : string) : occurs_in x s -> occurs_in x (s +:+ t).
Proof.
  intros (pre & post & ->). exists pre, (post +:+ t). now rewrite !append_assoc.
Qed.

Lemma occurs_in_append_l (x s t : string) : occurs_in x t -> occurs_in x (s +:+ t).
Proof.
  intros (pre & post & ->). exists (s +:+ pre), post. now rewrite !append_assoc.
Qed.

Lemma occurs_in_trans (x y z : string) : occurs_in x y -> occurs_in y z -> occurs_in x z.
Proof.
  intros (pre & post & ->) (pre' & post' & ->).
  exists (pre' +:+ pre), (post +:+ post'). now rewrite !append_assoc.
Qed.

Lemma fetchError_names (obj : SecretObject) (e : string) :
  occurs_in (ObjectName obj) (fetchError obj e).
Proof. exists "failed to fetch ", (": " +:+ e). reflexivity. Qed.

Lemma aggregate_keeps (lines : list string) (x acc : string) :
  occurs_in x acc ->
  occurs_in x (fold_left (fun errMsg e => errMsg +:+ newline +:+ "  - " +:+ e) lines acc).
Proof.
  revert acc. induction lines as [|l lines IH]; intros acc Hacc; [exact Hacc|].
  cbn [fold_left]. apply IH. now apply occurs_in_append_r.
Qed.

(** Every line of the aggregate error occurs in it. *)
Lemma aggregateError_lists (lines : list string) (line : string) :
  In line lines -> occurs_in line (aggregateError lines).
Proof.
  unfold aggregateError. generalize "some secrets failed to fetch:" as acc.
  induction lines as [|l lines IH]; intros acc [].
  - subst l. cbn [fold_left]. apply aggregate_keeps.
    do 3 apply occurs_in_append_l. apply occurs_in_refl.
  - cbn [fold_left]. now apply IH.
Qed.

(** ** The fetch loop *)

Lemma fetchLoop_run (c c' : AuthenticatedClient) (objs : list SecretObject) (st st' : St W)
  (outs : list (SecretObject * Result FetchedSecret)) :
  fetch_run cfg c objs st outs c' st' ->
  forall secrets fetchErrors,
    fetchLoop cfg c objs secrets fetchErrors st
    = Done ((secrets ++ fetched outs,
             fetchErrors ++ List.map (fun f => fetchError (fst f) (snd f)) (failures outs),
             c'), st').
Proof.
  induction 1 as [c st | c c1 c2 obj objs st st1 st2 r outs Hfetch _ IH];
    intros secrets fetchErrors.
  - cbn [fetchLoop fetched failures List.map]. now rewrite !app_nil_r.
  - cbn [fetchLoop]. unfold bind. rewrite Hfetch. cbn [fst snd].
    destruct r as [s|e]; rewrite IH; cbn [fetched failures List.map fst snd];
      now rewrite <- !app_assoc.
Qed.

(** A run of [FetchSecrets] that returns is a run of fetches. *)
Lemma fetchLoop_returns (objs : list SecretObject) :
  forall c st secrets fetchErrors r st',
    fetchLoop cfg c objs secrets fetchErrors st = Done (r, st') ->
    exists outs c', fetch_run cfg c objs st outs c' st'.
Proof.
  induction objs as [|obj objs IH]; intros c st secrets fetchErrors r st' Hrun.
  - injection Hrun as _ <-. exists [], c. constructor.
  - cbn [fetchLoop] in Hrun. unfold bind in Hrun.
    destruct (fetchSecret cfg c obj st) as [[[r1 c1] st1]| |] eqn:Hfetch; try discriminate.
    cbn [fst snd] in Hrun.
    destruct r1 as [s|e]; apply IH in Hrun as (outs & c' & Hrest);
      eexists (_ :: outs), c'; econstructor; eassumption.
Qed.

Lemma FetchSecrets_run (c c' : AuthenticatedClient) (objs : list SecretObject) (st st' : St W)
  (outs : list (SecretObject * Result FetchedSecret)) :
  fetch_run cfg c objs st outs c' st' ->
  FetchSecrets cfg c objs st
  = Done ((fetched outs,
           match failures outs with
           | [] => None
           | fs => Some (aggregateError (List.map (fun f => fetchError (fst f) (snd f)) fs))
           end), st').
Proof.
  intros Hrun. unfold FetchSecrets, bind. rewrite (fetchLoop_run _ _ _ _ _ _ Hrun).
  cbn [app]. destruct (failures outs); reflexivity.
Qed.

(** ** The phases of Mount *)

(** The files and versions [Mount] builds from the fetched secrets. *)
Lemma buildResponse_maps (secrets : list FetchedSecret) (files : list File)
  (versions : list ObjectVersion) :
  buildResponse secrets files versions
  = (files ++ List.map (fun s => {| FilePath := FetchedName s; FileMode := Mode s;
                                    Contents := Content s |}) secrets,
     versions ++ List.map (fun s => {| Id := FetchedName s; ObjVersion := Version s |})
                          secrets).
Proof.
  revert files versions. induction secrets as [|s secrets IH]; intros files versions.
  - cbn. now rewrite !app_nil_r.
  - cbn [buildResponse List.map]. rewrite IH. now rewrite <- !app_assoc.
Qed.

(** [Mount] from the point where the request is parsed and the client
    authenticated. *)
Lemma Mount_fetch_phase (req : MountRequest) (st : St W)
  (attribs : option (gmap string string)) (params : MountParams)
  (client : AuthenticatedClient) (p1 : Proc W) :
  requestAttributes req = (attribs, None) ->
  parseMountParams cfg attribs = Ok params ->
  authenticate cfg params (requestSecrets req) (proc st) = Done (Ok client, p1) ->
  Mount cfg req st
  = bind (FetchSecrets cfg client (Objects params))
      (fun r =>
         match snd r with
         | Some _ => ret (errorResponse "Internal", None)
         | None =>
             let '(files, objectVersions) := buildResponse (fst r) [] [] in
             ret ({| RespObjectVersion := objectVersions; RespError := None;
                     Files := files |}, None)
         end) {| proc := p1; entries := entries st |}.
Proof.
  intros Hattr Hparams Hauth. unfold Mount. rewrite Hattr, Hparams.
  unfold bind at 1. unfold liftProc. rewrite Hauth. reflexivity.
Qed.

(** C1 (as amended).  When some objects fail, [FetchSecrets] still
    returns the secret of every object that was fetched, in request
    order, with an aggregate error in which the name of every failing
    object occurs; [Mount] then answers with the error code Internal and
    no files. *)
Theorem FetchSecrets_partial_results (client c' : AuthenticatedClient)
  (objs : list SecretObject) (st st' : St W)
  (outs : list (SecretObject * Result FetchedSecret)) :
  fetch_run cfg client objs st outs c' st' ->
  failures outs <> [] ->
  exists msg,
    FetchSecrets cfg client objs st = Done ((fetched outs, Some msg), st')
    /\ (forall obj e, In (obj, e) (failures outs) -> occurs_in (ObjectName obj) msg)
    /\ (forall req st0 attribs params,
          requestAttributes req = (attribs, None) ->
          parseMountParams cfg attribs = Ok params ->
          Objects params = objs ->
          authenticate cfg params (requestSecrets req) (proc st0) = Done (Ok client, proc st) ->
          entries st0 = entries st ->
          Mount cfg req st0 = Done ((errorResponse "Internal", None), st')).
Proof.
  intros Hrun Hfail.
  pose proof (FetchSecrets_run _ _ _ _ _ _ Hrun) as Hfetch.
  destruct (failures outs) as [|f fs] eqn:Hfs; [congruence|].
  eexists. split; [exact Hfetch|]. split.
  - intros obj e Hin.
    apply occurs_in_trans with (fetchError obj e); [apply fetchError_names|].
    apply aggregateError_lists.
    change (fetchError obj e) with ((fun f => fetchError (fst f) (snd f)) (obj, e)).
    now apply in_map.
  - intros req st0 attribs params Hattr Hparams Hobjs Hauth Hentries.
    rewrite (Mount_fetch_phase _ _ _ _ _ _ Hattr Hparams Hauth).
    rewrite Hobjs, Hentries. unfold bind.
    replace {| proc := proc st; entries := entries st |} with st by now destruct st.
    rewrite Hfetch. reflexivity.
Qed.

(** The responses of [Mount] in the cases in which it returns:
    attributes that do not decode or do not validate are answered with
    the code InvalidArgument, a failed authentication with
    PermissionDenied, an error of [FetchSecrets] with Internal, each in
    a response without files and versions; and whenever [Mount] returns,
    its Go error is nil. *)
Lemma Mount_error_codes (req : MountRequest) (st : St W) :
  let coded (code : string) : MountResponse :=
    {| RespObjectVersion := []; RespError := Some {| Code := code |}; Files := [] |} in
  (forall attribs e,
     requestAttributes req = (attribs, Some e) ->
     Mount cfg req st = Done ((coded "InvalidArgument", None), st))
  /\ (forall attribs e,
        requestAttributes req = (attribs, None) ->
        parseMountParams cfg attribs = Err e ->
        Mount cfg req st = Done ((coded "InvalidArgument", None), st))
  /\ (forall attribs params e p1,
        requestAttributes req = (attribs, None) ->
        parseMountParams cfg attribs = Ok params ->
        authenticate cfg params (requestSecrets req) (proc st) = Done (Err e, p1) ->
        Mount cfg req st
        = Done ((coded "PermissionDenied", None),
                {| proc := p1; entries := entries st |}))
  /\ (forall attribs params client p1 secrets msg st2,
        requestAttributes req = (attribs, None) ->
        parseMountParams cfg attribs = Ok params ->
        authenticate cfg params (requestSecrets req) (proc st) = Done (Ok client, p1) ->
        FetchSecrets cfg client (Objects params) {| proc := p1; entries := entries st |}
        = Done ((secrets, Some msg), st2) ->
        Mount cfg req st = Done ((coded "Internal", None), st2))
  /\ (forall attribs params client p1 msg,
        requestAttributes req = (attribs, None) ->
        parseMountParams cfg attribs = Ok params ->
        authenticate cfg params (requestSecrets req) (proc st) = Done (Ok client, p1) ->
        FetchSecrets cfg client (Objects params) {| proc := p1; entries := entries st |}
        = Panicked msg ->
        Mount cfg req st = Panicked msg)
  /\ (forall resp err st', Mount cfg req st = Done ((resp, err), st') -> err = None).
Proof.
  cbn zeta. repeat split.
  - intros attribs e Hattr. unfold Mount. now rewrite Hattr.
  - intros attribs e Hattr Hparams. unfold Mount. now rewrite Hattr, Hparams.
  - intros attribs params e p1 Hattr Hparams Hauth. unfold Mount.
    rewrite Hattr, Hparams. unfold bind, liftProc. now rewrite Hauth.
  - intros attribs params client p1 secrets msg st2 Hattr Hparams Hauth Hfetch.
    rewrite (Mount_fetch_phase _ _ _ _ _ _ Hattr Hparams Hauth).
    unfold bind. now rewrite Hfetch.
  - intros attribs params client p1 msg Hattr Hparams Hauth Hfetch.
    rewrite (Mount_fetch_phase _ _ _ _ _ _ Hattr Hparams Hauth).
    unfold bind. now rewrite Hfetch.
  - intros resp err st'. unfold Mount.
    destruct (requestAttributes req) as [attribs [e|]]; [now intros [= _ <- _]|].
    destruct (parseMountParams cfg attribs) as [params|e]; [|now intros [= _ <- _]].
    unfold bind, liftProc.
    destruct (authenticate cfg params (requestSecrets req) (proc st)) as [[[client|e] p1]| |];
      try discriminate; [|now intros [= _ <- _]].
    destruct (FetchSecrets cfg client (Objects params) _) as [[[secrets [msg|]] st2]| |];
      try discriminate; cbn [snd fst]; [now intros [= _ <- _]|].
    destruct (buildResponse secrets [] []). now intros [= _ <- _].
Qed.

End MountTheorems.

Section MountWitnesses.
Import Eff GoTime GoStrings GoValues OpenBao CSI Samples.

(** The fetches of the three sample objects: two succeed, the third is
    refused by the backend. *)
Lemma three_objects_run :
  exists st',
    fetch_run sampleConfig (loggedInClient 100) [objUser; objKey; objCert] (loggedInAt 100)
      [(objUser, Ok userSecret); (objKey, Ok keySecret);
       (objCert, Err "failed to read path: permission denied")]
      (loggedInClient 100) st'.
Proof.
  eexists.
  eapply fetch_run_cons; [vm_compute; reflexivity|].
  eapply fetch_run_cons; [vm_compute; reflexivity|].
  eapply fetch_run_cons; [vm_compute; reflexivity|].
  apply fetch_run_nil.
Qed.

(** C1, the claim as stated fails: two of the three requested objects
    are fetched, and the response of [Mount] holds no file and an error
    that is the bare code Internal. *)
Lemma Mount_partial_failure_drops_files :
  exists st2 msg resp,
    FetchSecrets sampleConfig (loggedInClient 100) [objUser; objKey; objCert] (loggedInAt 100)
    = Done (([userSecret; keySecret], Some msg), st2)
    /\ Mount sampleConfig threeObjectsRequest (coldAt 100) = Done ((resp, None), st2)
    /\ Files resp = []
    /\ RespObjectVersion resp = []
    /\ RespError resp = Some {| Code := "Internal" |}.
Proof.
  do 3 eexists. split; [vm_compute; reflexivity|].
  split; [vm_compute; reflexivity|]. repeat split.
Qed.

Lemma FetchSecrets_partial_results_witness :
  exists msg st',
    FetchSecrets sampleConfig (loggedInClient 100) [objUser; objKey; objCert] (loggedInAt 100)
    = Done (([userSecret; keySecret], Some msg), st')
    /\ occurs_in "tls-cert" msg
    /\ Mount sampleConfig threeObjectsRequest (coldAt 100)
       = Done ((errorResponse "Internal", None), st').
Proof.
  destruct three_objects_run as [st' Hrun].
  destruct (FetchSecrets_partial_results sampleConfig (loggedInClient 100) (loggedInClient 100)
              [objUser; objKey; objCert] (loggedInAt 100) st' _ Hrun)
    as (msg & Hfetch & Hnames & Hmount); [discriminate|].
  exists msg, st'. split; [exact Hfetch|]. split.
  - apply (Hnames objCert "failed to read path: permission denied"). now left.
  - eapply (Hmount threeObjectsRequest (coldAt 100)).
    + reflexivity.
    + reflexivity.
    + reflexivity.
    + reflexivity.
    + reflexivity.
Defined.

(** The four kinds of failing sample requests and their codes. *)
Lemma Mount_error_codes_samples :
  Mount sampleConfig (bareRequest "{roleName: app") (coldAt 100)
  = Done ((errorResponse "InvalidArgument", None), coldAt 100)
  /\ Mount sampleConfig (bareRequest "{objects: [db-user]}") (coldAt 100)
     = Done ((errorResponse "InvalidArgument", None), coldAt 100)
  /\ Mount sampleConfig (bareRequest "{roleName: app, authMethod: ldap, objects: [db-user]}")
           (coldAt 100)
     = Done ((errorResponse "PermissionDenied", None), coldAt 100)
  /\ exists st2, Mount sampleConfig threeObjectsRequest (coldAt 100)
                 = Done ((errorResponse "Internal", None), st2).
Proof.
  split; [|split; [|split]].
  - eapply (proj1 (Mount_error_codes sampleConfig _ _)). reflexivity.
  - eapply (proj1 (proj2 (Mount_error_codes sampleConfig _ _))); reflexivity.
  - eapply (proj1 (proj2 (proj2 (Mount_error_codes sampleConfig
              (bareRequest "{roleName: app, authMethod: ldap, objects: [db-user]}")
              (coldAt 100)))));
      [reflexivity | reflexivity | vm_compute; reflexivity].
  - eexists.
    eapply (proj1 (proj2 (proj2 (proj2 (Mount_error_codes sampleConfig threeObjectsRequest
                                          (coldAt 100)))))).
    + reflexivity.
    + reflexivity.
    + vm_compute. reflexivity.
    + vm_compute. reflexivity.
Qed.

(** C3.  The claim fails on the code for a failure of the backend that
    [readFromOpenBao] does not check.  The sample pod asks for the
    dynamic object [db-short]; the attributes parse, the pod logs in,
    and the backend answers the write with credentials under a request
    id of six characters.  The slice [secret.RequestID[:8]] panics: the
    fetch, and with it [Mount], ends in the panic and returns no
    response, where the claim has a response with the code Internal.
    The same request for [db-creds], answered under an id of 36
    characters, is served. *)
Theorem Mount_panics_on_short_request_id :
  let req := podRequest "{roleName: app, objects: [db-short]}" in
  (exists attribs params,
     requestAttributes req = (attribs, None)
     /\ parseMountParams sampleConfig attribs = Ok params
     /\ Objects params = [objShort]
     /\ authenticate sampleConfig params (requestSecrets req) (proc (coldAt 100))
        = Done (Ok (loggedInClient 100), proc (loggedInAt 100)))
  /\ logical_Write "s.login" "secret/data/database/creds/short" [("ttl", VString "1h")]
                   (worldAt 100)
     = (Ok (Some (credsSecret "c0ffee")), worldAt 100)
  /\ FetchSecrets sampleConfig (loggedInClient 100) [objShort] (loggedInAt 100)
     = Panicked "slice bounds out of range"
  /\ Mount sampleConfig req (coldAt 100) = Panicked "slice bounds out of range"
  /\ (forall resp err st', Mount sampleConfig req (coldAt 100) <> Done ((resp, err), st'))
  /\ exists st',
       Mount sampleConfig (podRequest "{roleName: app, objects: [db-creds]}") (coldAt 100)
       = Done (({| RespObjectVersion := [{| Id := "db-creds"; ObjVersion := "c0ffee00" |}];
                   RespError := None;
                   Files := [{| FilePath := "db-creds"; FileMode := 420;
                                Contents := "pw-9" |}] |}, None), st').
Proof.
  cbn zeta.
  assert (Hpanic : Mount sampleConfig (podRequest "{roleName: app, objects: [db-short]}")
                         (coldAt 100)
                   = Panicked "slice bounds out of range") by (vm_compute; reflexivity).
  split; [|split; [|split; [|split; [|split]]]].
  - do 2 eexists. split; [vm_compute; reflexivity|].
    split; [vm_compute; reflexivity|].
    split; [reflexivity | vm_compute; reflexivity].
  - reflexivity.
  - vm_compute. reflexivity.
  - exact Hpanic.
  - intros resp err st' Hdone. rewrite Hpanic in Hdone. discriminate.
  - eexists. vm_compute. reflexivity.
Qed.

End MountWitnesses.

(* ===================================================================== *)
(** * The search loop and the replacement loop of the BaoSecret reconciler *)
(* ===================================================================== *)

Section SubstringFacts.
Import GoStrings.

Lemma length_substring (n m : nat) (s : string) :
  String.length (substring n m s) = Nat.min m (String.length s - n).
Proof.
  revert n m. induction s as [|c s IH]; intros n m.
  - destruct n, m; reflexivity.
  - destruct n as [|n].
    + destruct m as [|m]; [reflexivity|].
      cbn [substring String.length]. rewrite IH. lia.
    + cbn [substring String.length]. rewrite IH. reflexivity.
Qed.

Lemma substring_skip (p t : string) (n m : nat) :
  substring (String.length p + n) m (p +:+ t) = substring n m t.
Proof.
  induction p as [|c p IH]; [reflexivity|].
  rewrite append_cons. cbn [String.length Nat.add substring]. exact IH.
Qed.

Lemma substring_prefix (p t : string) (m : nat) :
  (m <= String.length p)%nat -> substring 0 m (p +:+ t) = substring 0 m p.
Proof.
  revert m. induction p as [|c p IH]; intros m Hm.
  - cbn [String.length] in Hm. replace m with 0%nat by lia.
    now rewrite !substring_zero_zero.
  - rewrite append_cons. destruct m as [|m]; [reflexivity|].
    cbn [substring]. rewrite IH; [reflexivity | cbn [String.length] in Hm; lia].
Qed.

(** A string is its first [n] bytes followed by the rest. *)
Lemma substring_split (s : string) (n : nat) :
  (n <= String.length s)%nat ->
  s = substring 0 n s +:+ substring n (String.length s - n) s.
Proof.
  revert n. induction s as [|c s IH]; intros n Hn.
  - cbn [String.length] in Hn. replace n with 0%nat by lia. reflexivity.
  - destruct n as [|n].
    + cbn [substring String.length Nat.sub]. rewrite append_empty_l.
      now rewrite substring_all.
    + cbn [substring String.length Nat.sub]. rewrite append_cons.
      f_equal. apply IH. cbn [String.length] in Hn. lia.
Qed.

Lemma append_inj_r (a b p : string) : a +:+ p = b +:+ p -> a = b.
Proof.
  revert b. induction a as [|c a IH]; intros b E.
  - destruct b as [|d b]; [reflexivity|].
    apply (f_equal String.length) in E. rewrite append_empty_l, length_append in E.
    cbn [String.length] in E. lia.
  - destruct b as [|d b].
    + apply (f_equal String.length) in E. rewrite append_empty_l, length_append in E.
      cbn [String.length] in E. lia.
    + rewrite !append_cons in E. injection E as -> E. f_equal. now apply IH.
Qed.

Lemma substring_add (s : string) (n a b : nat) :
  (n + a <= String.length s)%nat ->
  substring n (a + b) s = substring n a s +:+ substring (n + a) b s.
Proof.
  revert n a. induction s as [|c s IH]; intros n a Hlen.
  - cbn [String.length] in Hlen.
    replace n with 0%nat by lia. replace a with 0%nat by lia. reflexivity.
  - destruct n as [|n].
    + destruct a as [|a]; [reflexivity|].
      cbn [Nat.add substring]. rewrite append_cons. f_equal.
      apply (IH 0%nat). cbn [String.length] in Hlen. lia.
    + cbn [Nat.add substring]. apply IH. cbn [String.length] in Hlen. lia.
Qed.

(** The three parts of a string around an occurrence of [sub] at [i]. *)
Lemma split_at_occurrence (s sub : string) (i : Z) :
  0 <= i <= len s - len sub ->
  substr s i (i + len sub) = sub ->
  s = substr s 0 i +:+ sub +:+ substr s (i + len sub) (len s).
Proof.
  intros Hi Hsub. unfold substr, len in *.
  replace (i - 0) with i by lia. change (Z.to_nat 0) with 0%nat.
  replace (i + Z.of_nat (String.length sub) - i) with (Z.of_nat (String.length sub)) in Hsub by lia.
  rewrite Nat2Z.id in Hsub.
  set (n := Z.to_nat i) in *.
  assert (Hn : (n + String.length sub <= String.length s)%nat) by lia.
  replace (Z.to_nat (i + Z.of_nat (String.length sub))) with (n + String.length sub)%nat by lia.
  replace (Z.to_nat (Z.of_nat (String.length s) - (i + Z.of_nat (String.length sub))))
    with (String.length s - (n + String.length sub))%nat by lia.
  rewrite (substring_split s n) at 1 by lia.
  f_equal.
  replace (String.length s - n)%nat
    with (String.length sub + (String.length s - (n + String.length sub)))%nat by lia.
  rewrite substring_add by lia. now rewrite Hsub.
Qed.

(** The occurrence of [sub] between [pre] and [post]. *)
Lemma substr_at_occurrence (pre sub post : string) :
  substr (pre +:+ sub +:+ post) (len pre) (len pre + len sub) = sub.
Proof.
  unfold substr, len.
  replace (Z.of_nat (String.length pre) + Z.of_nat (String.length sub)
           - Z.of_nat (String.length pre)) with (Z.of_nat (String.length sub)) by lia.
  rewrite !Nat2Z.id.
  rewrite <- (Nat.add_0_r (String.length pre)), substring_skip.
  apply substring_head.
Qed.

End SubstringFacts.

Section IndexOfFacts.
Import GoStrings.

(** What the search loop started at [i] returns, when it is given enough
    iterations to reach the last candidate position. *)
Lemma indexOf_loop_spec (fuel : nat) (i : Z) (s sub : string) :
  len s - len sub - i < Z.of_nat fuel ->
  (indexOf_loop fuel i s sub = -1
   /\ forall j, i <= j <= len s - len sub -> substr s j (j + len sub) <> sub)
  \/ (i <= indexOf_loop fuel i s sub <= len s - len sub
      /\ substr s (indexOf_loop fuel i s sub) (indexOf_loop fuel i s sub + len sub) = sub
      /\ forall j, i <= j < indexOf_loop fuel i s sub -> substr s j (j + len sub) <> sub).
Proof.
  revert i. induction fuel as [|fuel IH]; intros i Hfuel.
  - left. split; [reflexivity|]. intros j Hj. lia.
  - cbn [indexOf_loop].
    destruct (Z.leb_spec i (len s - len sub)) as [Hle|Hgt].
    + destruct (String.eqb_spec (substr s i (i + len sub)) sub) as [Heq|Hne].
      * right. split; [lia|]. split; [exact Heq|]. intros j Hj. lia.
      * destruct (IH (i + 1)) as [[Hr Hnone]|(Hr & Hat & Hbefore)]; [lia| |].
        -- left. split; [exact Hr|]. intros j Hj.
           destruct (Z.eq_dec j i) as [->|Hji]; [exact Hne | apply Hnone; lia].
        -- right. split; [lia|]. split; [exact Hat|]. intros j Hj.
           destruct (Z.eq_dec j i) as [->|Hji]; [exact Hne | apply Hbefore; lia].
    + left. split; [reflexivity|]. intros j Hj. lia.
Qed.

Lemma indexOf_spec (s sub : string) :
  (indexOf s sub = -1
   /\ forall j, 0 <= j <= len s - len sub -> substr s j (j + len sub) <> sub)
  \/ (0 <= indexOf s sub <= len s - len sub
      /\ substr s (indexOf s sub) (indexOf s sub + len sub) = sub
      /\ forall j, 0 <= j < indexOf s sub -> substr s j (j + len sub) <> sub).
Proof.
  unfold indexOf. apply indexOf_loop_spec.
  pose proof (len_nonneg sub). unfold len in *. lia.
Qed.

(** The index is the position of the first occurrence. *)
Lemma indexOf_unique (s sub : string) (i : Z) :
  0 <= i <= len s - len sub ->
  substr s i (i + len sub) = sub ->
  (forall j, 0 <= j < i -> substr s j (j + len sub) <> sub) ->
  indexOf s sub = i.
Proof.
  intros Hi Hat Hbefore.
  destruct (indexOf_spec s sub) as [[_ Hnone]|(Hr & Hat' & Hbefore')].
  - exfalso. exact (Hnone i Hi Hat).
  - destruct (Z.lt_trichotomy (indexOf s sub) i) as [Hlt|[Heq|Hgt]]; [|exact Heq|].
    + exfalso. apply (Hbefore (indexOf s sub)); [lia | exact Hat'].
    + exfalso. apply (Hbefore' i); [lia | exact Hat].
Qed.

(** A string that has [sub] somewhere has an index for it. *)
Lemma indexOf_occurs (pre sub post : string) : 0 <= indexOf (pre +:+ sub +:+ post) sub.
Proof.
  destruct (indexOf_spec (pre +:+ sub +:+ post) sub) as [[_ Hnone]|(Hr & _)]; [|lia].
  exfalso. apply (Hnone (len pre)).
  - rewrite !len_append. pose proof (len_nonneg pre). pose proof (len_nonneg post). lia.
  - apply substr_at_occurrence.
Qed.

Lemma Contains_occurs (pre sub post : string) : Contains (pre +:+ sub +:+ post) sub = true.
Proof. unfold Contains. apply Z.leb_le. apply indexOf_occurs. Qed.

(** The result of the search is [-1] or a position in the string. *)
Lemma indexOf_range (s sub : string) : indexOf s sub = -1 \/ 0 <= indexOf s sub <= len s - len sub.
Proof. destruct (indexOf_spec s sub) as [[H _]|[H _]]; [now left | now right]. Qed.

End IndexOfFacts.

Section ReplaceAllResults.
Import GoStrings Template.

(** The loop body on a string in which [old] occurs: the first occurrence
    is cut out and [new] is put in its place. *)
Lemma replaceAll_body_found (s old new : string) :
  0 <= indexOf s old ->
  s = substr s 0 (indexOf s old) +:+ old +:+ substr s (indexOf s old + len old) (len s)
  /\ replaceAll_body s old new
     = substr s 0 (indexOf s old) +:+ new +:+ substr s (indexOf s old + len old) (len s).
Proof.
  intros Hidx. split.
  - destruct (indexOf_spec s old) as [[Hr _]|(Hr & Hat & _)]; [lia|].
    now apply split_at_occurrence.
  - unfold replaceAll_body. now replace (0 <=? indexOf s old) with true
      by (symmetry; now apply Z.leb_le).
Qed.

(** The loop stops on a string only when [old] is not in it, unless the
    replacement is [old] itself. *)
Lemma replaceAll_body_fixed (s old new : string) :
  replaceAll_body s old new = s -> new <> old -> indexOf s old = -1.
Proof.
  intros Hfix Hne.
  destruct (indexOf_range s old) as [H|H]; [exact H|].
  exfalso. apply Hne.
  destruct (replaceAll_body_found s old new) as [Hs Hbody]; [lia|].
  assert (E : substr s 0 (indexOf s old) +:+ new +:+ substr s (indexOf s old + len old) (len s)
              = substr s 0 (indexOf s old) +:+ old +:+ substr s (indexOf s old + len old) (len s))
    by congruence.
  apply append_inj_l in E. now apply append_inj_r in E.
Qed.

Lemma replaceAll_result_fixed (fuel : nat) (s old new r : string) :
  replaceAll fuel s old new = Some r -> replaceAll_body r old new = r.
Proof.
  revert s. induction fuel as [|fuel IH]; intros s Hrun; [discriminate|].
  cbn [replaceAll] in Hrun.
  destruct (String.eqb_spec (replaceAll_body s old new) s) as [Heq|Hne].
  - injection Hrun as <-. exact Heq.
  - exact (IH _ Hrun).
Qed.

(** One iteration with a shorter replacement shortens the string. *)
Lemma replaceAll_body_shrinks (s old new : string) :
  0 <= indexOf s old ->
  String.length (replaceAll_body s old new)
  = (String.length s - String.length old + String.length new)%nat
  /\ (String.length old <= String.length s)%nat.
Proof.
  intros Hidx.
  destruct (replaceAll_body_found s old new Hidx) as [Hs Hbody].
  rewrite Hbody. apply (f_equal String.length) in Hs.
  rewrite !length_append in Hs. rewrite !length_append. lia.
Qed.

Lemma replaceAll_shorter_returns (old new : string) :
  len new < len old ->
  forall n s, (String.length s <= n)%nat ->
              exists r, replaceAll (S n) s old new = Some r
                        /\ (String.length r <= String.length s)%nat.
Proof.
  intros Hlen. unfold len in Hlen.
  induction n as [|n IH]; intros s Hs.
  - cbn [replaceAll].
    destruct (String.eqb_spec (replaceAll_body s old new) s) as [Heq|Hne];
      [exists s; split; [reflexivity | lia]|].
    exfalso. apply Hne. unfold replaceAll_body.
    destruct (Z.leb_spec 0 (indexOf s old)) as [Hidx|_]; [|reflexivity].
    destruct (replaceAll_body_shrinks s old new Hidx) as [_ Hold]. lia.
  - change (replaceAll (S (S n)) s old new)
      with (if String.eqb (replaceAll_body s old new) s then Some s
            else replaceAll (S n) (replaceAll_body s old new) old new).
    destruct (String.eqb_spec (replaceAll_body s old new) s) as [Heq|Hne];
      [exists s; split; [reflexivity | lia]|].
    assert (Hidx : 0 <= indexOf s old).
    { destruct (Z.leb_spec 0 (indexOf s old)) as [H|H]; [exact H|].
      exfalso. apply Hne. unfold replaceAll_body.
      now replace (0 <=? indexOf s old) with false by (symmetry; apply Z.leb_gt; lia). }
    destruct (replaceAll_body_shrinks s old new Hidx) as [Hbody Hold].
    destruct (IH (replaceAll_body s old new)) as (r & Hr & Hrlen); [lia|].
    exists r. split; [exact Hr | lia].
Qed.

(** [indexOf] of [secrets.go] returns the position of the first
    occurrence of [sub] in [s] and [-1] exactly when there is none; the
    empty string is found at position 0 of every string, and a string
    longer than [s] is never found. *)
Theorem indexOf_first_occurrence (s sub : string) :
  ((indexOf s sub = -1
    /\ forall j, 0 <= j <= len s - len sub -> substr s j (j + len sub) <> sub)
   \/ (0 <= indexOf s sub <= len s - len sub
       /\ substr s (indexOf s sub) (indexOf s sub + len sub) = sub
       /\ forall j, 0 <= j < indexOf s sub -> substr s j (j + len sub) <> sub))
  /\ indexOf s EmptyString = 0
  /\ (len s < len sub -> indexOf s sub = -1).
Proof.
  split; [apply indexOf_spec|]. split.
  - apply indexOf_unique.
    + change (len EmptyString) with 0. pose proof (len_nonneg s). lia.
    + change (len EmptyString) with 0. unfold substr.
      change (Z.to_nat (0 + 0 - 0)) with 0%nat. change (Z.to_nat 0) with 0%nat.
      apply substring_zero_zero.
    + intros j Hj. lia.
  - intros Hlen. destruct (indexOf_range s sub) as [H|H]; [exact H | lia].
Qed.

(** When [replaceAll] returns and the replacement differs from the
    pattern, the pattern does not occur in the result: the result is the
    input when the pattern was not in it, and a string without any
    occurrence otherwise. *)
Theorem replaceAll_result_has_no_old (fuel : nat) (s old new r : string) :
  replaceAll fuel s old new = Some r ->
  new <> old ->
  indexOf r old = -1
  /\ (forall j, 0 <= j <= len r - len old -> substr r j (j + len old) <> old)
  /\ (indexOf s old = -1 -> r = s).
Proof.
  intros Hrun Hne.
  assert (Hnone : indexOf r old = -1).
  { apply replaceAll_body_fixed with new; [|exact Hne].
    exact (replaceAll_result_fixed _ _ _ _ _ Hrun). }
  split; [exact Hnone|]. split.
  - destruct (indexOf_spec r old) as [[_ H]|[H _]]; [exact H | lia].
  - intros Habsent. destruct fuel as [|fuel]; [discriminate|].
    rewrite replaceAll_absent in Hrun by lia. now injection Hrun.
Qed.

Lemma replaceAll_result_has_no_old_witness :
  replaceAll 5 "user=NAME;owner=NAME" "NAME" "bao" = Some "user=bao;owner=bao"
  /\ indexOf "user=bao;owner=bao" "NAME" = -1.
Proof.
  assert (Hrun : replaceAll 5 "user=NAME;owner=NAME" "NAME" "bao" = Some "user=bao;owner=bao")
    by reflexivity.
  split; [exact Hrun|].
  apply (replaceAll_result_has_no_old 5 "user=NAME;owner=NAME" "NAME" "bao" _ Hrun).
  discriminate.
Defined.

(** [replaceAll] terminates whenever the replacement is shorter than the
    pattern: every iteration that changes the string shortens it, so
    [len(s)+1] iterations are enough, and the result is not longer than
    the input and holds no occurrence of the pattern. *)
Theorem replaceAll_terminates_when_shorter (s old new : string) :
  len new < len old ->
  exists r, replaceAll (S (String.length s)) s old new = Some r
            /\ replaceAll_terminates s old new
            /\ len r <= len s
            /\ indexOf r old = -1.
Proof.
  intros Hlen.
  destruct (replaceAll_shorter_returns old new Hlen (String.length s) s (le_n _))
    as (r & Hrun & Hrlen).
  exists r. split; [exact Hrun|]. split; [now exists r, (S (String.length s))|].
  split; [unfold len; lia|].
  apply replaceAll_body_fixed with new.
  - exact (replaceAll_result_fixed _ _ _ _ _ Hrun).
  - intros ->. lia.
Qed.

Lemma replaceAll_terminates_when_shorter_witness :
  exists r, replaceAll (S (String.length "aaaa-bb")) "aaaa-bb" "aa" "a" = Some r
            /\ replaceAll_terminates "aaaa-bb" "aa" "a"
            /\ len r <= len "aaaa-bb"
            /\ indexOf r "aa" = -1.
Proof.
  apply (replaceAll_terminates_when_shorter "aaaa-bb" "aa" "a").
  vm_compute. reflexivity.
Defined.

End ReplaceAllResults.

(* ===================================================================== *)
(** * Status conditions *)
(* ===================================================================== *)

Section ConditionTheorems.
Import GoTime K8s.

Lemma ConditionStatus_eqb_refl (s : ConditionStatus) : ConditionStatus_eqb s s = true.
Proof. now destruct s. Qed.

Lemma setCondition_again (now1 now2 : Time) (conds : list Condition)
  (condType : string) (status : ConditionStatus) (reason message : string) :
  setCondition now2 (setCondition now1 conds condType status reason message)
               condType status reason message
  = setCondition now1 conds condType status reason message.
Proof.
  induction conds as [|c rest IH].
  - cbn [setCondition Type_ Status_ LastTransitionTime].
    now rewrite String.eqb_refl, ConditionStatus_eqb_refl.
  - cbn [setCondition].
    destruct (String.eqb_spec (Type_ c) condType) as [Heq|Hne].
    + cbn [setCondition Type_ Status_ LastTransitionTime].
      destruct (String.eqb_spec (Type_ c) condType) as [_|]; [|contradiction].
      now rewrite ConditionStatus_eqb_refl.
    + cbn [setCondition].
      destruct (String.eqb_spec (Type_ c) condType) as [|_]; [contradiction|].
      now rewrite IH.
Qed.

(** [setCondition] of the two reconcilers touches one condition only:
    the conditions of every other type stay as they are, in their order;
    afterwards the first condition of type [condType] carries the new
    status, reason and message, and its transition time is the old one
    when a condition of that type existed with the same status and the
    clock reading otherwise; the list grows by one exactly when no
    condition of that type existed.  So setting a condition again with
    the same status, reason and message changes nothing, whatever the
    clock shows at the second call: repeated reconciles with the same
    outcome do not move the transition time. *)
Theorem setCondition_sets_one_condition (now : Time) (conds : list Condition)
  (condType : string) (status : ConditionStatus) (reason message : string) :
  List.filter (fun c => negb (String.eqb (Type_ c) condType))
              (setCondition now conds condType status reason message)
  = List.filter (fun c => negb (String.eqb (Type_ c) condType)) conds
  /\ List.find (fun c => String.eqb (Type_ c) condType)
               (setCondition now conds condType status reason message)
     = Some {| Type_ := condType;
               Status_ := status;
               LastTransitionTime :=
                 match List.find (fun c => String.eqb (Type_ c) condType) conds with
                 | Some c => if ConditionStatus_eqb (Status_ c) status
                             then LastTransitionTime c else now
                 | None => now
                 end;
               Reason := reason;
               Message := message |}
  /\ length (setCondition now conds condType status reason message)
     = match List.find (fun c => String.eqb (Type_ c) condType) conds with
       | Some _ => length conds
       | None => S (length conds)
       end
  /\ (forall later,
        setCondition later (setCondition now conds condType status reason message)
                     condType status reason message
        = setCondition now conds condType status reason message).
Proof.
  assert (Hmain :
    List.filter (fun c => negb (String.eqb (Type_ c) condType))
                (setCondition now conds condType status reason message)
    = List.filter (fun c => negb (String.eqb (Type_ c) condType)) conds
    /\ List.find (fun c => String.eqb (Type_ c) condType)
                 (setCondition now conds condType status reason message)
       = Some {| Type_ := condType;
                 Status_ := status;
                 LastTransitionTime :=
                   match List.find (fun c => String.eqb (Type_ c) condType) conds with
                   | Some c => if ConditionStatus_eqb (Status_ c) status
                               then LastTransitionTime c else now
                   | None => now
                   end;
                 Reason := reason;
                 Message := message |}
    /\ length (setCondition now conds condType status reason message)
       = match List.find (fun c => String.eqb (Type_ c) condType) conds with
         | Some _ => length conds
         | None => S (length conds)
         end).
  { induction conds as [|c rest (IHf & IHfind & IHlen)].
    - cbn [setCondition List.filter List.find Type_ length].
      rewrite String.eqb_refl. cbn [negb]. repeat split.
    - cbn [setCondition List.find].
      destruct (String.eqb_spec (Type_ c) condType) as [Heq|Hne].
      + cbn [List.filter List.find Type_ length].
        rewrite Heq, String.eqb_refl. cbn [negb]. repeat split.
      + cbn [List.filter List.find length].
        destruct (String.eqb_spec (Type_ c) condType) as [|_]; [contradiction|].
        cbn [negb]. rewrite IHf, IHfind, IHlen.
        repeat split. now destruct (List.find _ rest). }
  destruct Hmain as (Hf & Hfind & Hlen).
  split; [exact Hf|]. split; [exact Hfind|]. split; [exact Hlen|].
  intros later. apply setCondition_again.
Qed.

End ConditionTheorems.

(* ===================================================================== *)
(** * Paths and cache keys of the secrets fetcher *)
(* ===================================================================== *)

Section SeparatorFacts.
Import GoStrings.

Lemma prefix_append (p t : string) : String.prefix p (p +:+ t) = true.
Proof.
  induction p as [|c p IH]; [now destruct t|].
  rewrite append_cons. cbn [String.prefix].
  destruct (ascii_dec c c) as [_|Hne]; [exact IH | contradiction].
Qed.

Lemma prefix_split (p s : string) : String.prefix p s = true -> exists rest, s = p +:+ rest.
Proof.
  revert s. induction p as [|c p IH]; intros s Hp.
  - exists s. reflexivity.
  - destruct s as [|d s]; [discriminate|].
    cbn [String.prefix] in Hp.
    destruct (ascii_dec c d) as [<-|_]; [|discriminate].
    destruct (IH s Hp) as [rest ->]. exists rest. now rewrite append_cons.
Qed.

Lemma substring_within (p t : string) (n m : nat) :
  (n + m <= String.length p)%nat -> substring n m (p +:+ t) = substring n m p.
Proof.
  revert n m. induction p as [|c p IH]; intros n m Hlen.
  - cbn [String.length] in Hlen.
    replace n with 0%nat by lia. replace m with 0%nat by lia.
    now rewrite !substring_zero_zero.
  - rewrite append_cons. cbn [String.length] in Hlen. destruct n as [|n].
    + destruct m as [|m]; [reflexivity|].
      cbn [substring]. rewrite (IH 0%nat) by lia. reflexivity.
    + cbn [substring]. apply IH. lia.
Qed.

Lemma append_eq_length (a b x y : string) :
  a +:+ x = b +:+ y -> String.length a = String.length b -> a = b /\ x = y.
Proof.
  revert b. induction a as [|c a IH]; intros b E Hlen.
  - destruct b; [|discriminate]. now split.
  - destruct b as [|d b]; [discriminate|].
    rewrite !append_cons in E. injection E as -> E.
    destruct (IH b E) as [-> ->]; [cbn [String.length] in Hlen; lia|]. now split.
Qed.

(** The first occurrence of a one-byte separator after a text that does
    not hold it. *)
Lemma indexOf_first_sep (c : ascii) (a rest : string) :
  indexOf a (String c EmptyString) = -1 ->
  indexOf (a +:+ String c EmptyString +:+ rest) (String c EmptyString) = len a.
Proof.
  intros Hnone. apply indexOf_unique.
  - rewrite !len_append. pose proof (len_nonneg a). pose proof (len_nonneg rest).
    change (len (String c EmptyString)) with 1. lia.
  - apply substr_at_occurrence.
  - intros j Hj.
    destruct (indexOf_spec a (String c EmptyString)) as [[_ Ha]|[Ha _]]; [|lia].
    change (len (String c EmptyString)) with 1 in *.
    specialize (Ha j ltac:(lia)).
    unfold substr in *. rewrite substring_within; [exact Ha|].
    unfold len in Hj. lia.
Qed.

Lemma split_at_first_sep (c : ascii) (a1 r1 a2 r2 : string) :
  indexOf a1 (String c EmptyString) = -1 ->
  indexOf a2 (String c EmptyString) = -1 ->
  a1 +:+ String c EmptyString +:+ r1 = a2 +:+ String c EmptyString +:+ r2 ->
  a1 = a2 /\ r1 = r2.
Proof.
  intros H1 H2 E.
  assert (Hlen : len a1 = len a2).
  { rewrite <- (indexOf_first_sep c a1 r1 H1), <- (indexOf_first_sep c a2 r2 H2).
    now rewrite E. }
  destruct (append_eq_length _ _ _ _ E) as [-> E']; [unfold len in Hlen; lia|].
  split; [reflexivity|]. now injection E'.
Qed.

Lemma Contains_false (s sub : string) : Contains s sub = false -> indexOf s sub = -1.
Proof.
  unfold Contains. intros Hc. apply Z.leb_gt in Hc.
  destruct (indexOf_range s sub); [assumption | lia].
Qed.

End SeparatorFacts.

Section PathTheorems.
Import Eff GoTime GoStrings GoValues OpenBao CSI.

(** A path on the mount [m] without a data segment gets one after the
    mount. *)
Lemma resolvePath_mount (m rest : string) :
  indexOf m "/" = -1 ->
  HasPrefix (m +:+ "/" +:+ rest) "secret/" || HasPrefix (m +:+ "/" +:+ rest) "kv/" = true ->
  Contains (m +:+ "/" +:+ rest) "/data/" = false ->
  resolvePath (m +:+ "/" +:+ rest) = m +:+ "/data/" +:+ rest.
Proof.
  intros Hm Hprefix Hdata. unfold resolvePath.
  apply orb_true_iff in Hprefix.
  replace (negb (HasPrefix (m +:+ "/" +:+ rest) "secret/")
           && negb (HasPrefix (m +:+ "/" +:+ rest) "kv/")) with false
    by (destruct Hprefix as [-> | ->]; [reflexivity | now rewrite andb_false_r]).
  rewrite Hdata. cbn [negb].
  unfold SplitN2. rewrite (indexOf_first_sep _ m rest Hm).
  replace (0 <=? len m) with true by (symmetry; apply Z.leb_le; apply len_nonneg).
  f_equal.
  - unfold substr, len. replace (Z.of_nat (String.length m) - 0) with (Z.of_nat (String.length m)) by lia.
    rewrite Nat2Z.id. change (Z.to_nat 0) with 0%nat. apply substring_head.
  - f_equal. unfold substr. rewrite !len_append. change (len "/") with 1.
    replace (len m + (1 + len rest) - (len m + 1)) with (len rest) by lia.
    unfold len. rewrite Nat2Z.id.
    replace (Z.to_nat (Z.of_nat (String.length m) + 1)) with (String.length (m +:+ "/"))
      by (rewrite length_append; cbn [String.length]; lia).
    rewrite <- append_assoc. apply substring_tail.
Qed.

(** The path [readFromOpenBao] sends its request to is always on the
    [secret/] or the [kv/] mount and always has a data segment, whatever
    the object names: a path on neither mount is put under
    [secret/data/], a path on one of them without a data segment gets
    the segment after the mount, and a path that has both is used as it
    is.  Resolving a resolved path changes nothing. *)
Theorem resolvePath_normal_form (path : string) :
  HasPrefix (resolvePath path) "secret/" || HasPrefix (resolvePath path) "kv/" = true
  /\ Contains (resolvePath path) "/data/" = true
  /\ resolvePath (resolvePath path) = resolvePath path
  /\ (HasPrefix path "secret/" = false -> HasPrefix path "kv/" = false ->
      resolvePath path = "secret/data/" +:+ path)
  /\ (forall rest, path = "secret/" +:+ rest -> Contains path "/data/" = false ->
                   resolvePath path = "secret/data/" +:+ rest)
  /\ (forall rest, path = "kv/" +:+ rest -> Contains path "/data/" = false ->
                   resolvePath path = "kv/data/" +:+ rest)
  /\ (HasPrefix path "secret/" || HasPrefix path "kv/" = true ->
      Contains path "/data/" = true -> resolvePath path = path).
Proof.
  assert (Hfixed : forall p, HasPrefix p "secret/" || HasPrefix p "kv/" = true ->
                             Contains p "/data/" = true -> resolvePath p = p).
  { intros p Hp Hd. unfold resolvePath. rewrite Hd. cbn [negb].
    apply orb_true_iff in Hp.
    now replace (negb (HasPrefix p "secret/") && negb (HasPrefix p "kv/")) with false
      by (destruct Hp as [-> | ->]; [reflexivity | now rewrite andb_false_r]). }
  assert (Hsecret : forall rest, Contains ("secret/" +:+ rest) "/data/" = false ->
                                 resolvePath ("secret/" +:+ rest) = "secret/data/" +:+ rest).
  { intros rest Hd.
    change ("secret/" +:+ rest) with ("secret" +:+ "/" +:+ rest) in *.
    rewrite resolvePath_mount; [reflexivity | reflexivity | | exact Hd].
    change ("secret" +:+ "/" +:+ rest) with ("secret/" +:+ rest).
    unfold HasPrefix. now rewrite prefix_append. }
  assert (Hkv : forall rest, Contains ("kv/" +:+ rest) "/data/" = false ->
                             resolvePath ("kv/" +:+ rest) = "kv/data/" +:+ rest).
  { intros rest Hd.
    change ("kv/" +:+ rest) with ("kv" +:+ "/" +:+ rest) in *.
    rewrite resolvePath_mount; [reflexivity | reflexivity | | exact Hd].
    change ("kv" +:+ "/" +:+ rest) with ("kv/" +:+ rest).
    unfold HasPrefix. rewrite prefix_append. apply orb_true_r. }
  assert (Hother : HasPrefix path "secret/" = false -> HasPrefix path "kv/" = false ->
                   resolvePath path = "secret/data/" +:+ path).
  { intros H1 H2. unfold resolvePath. now rewrite H1, H2. }
  assert (Hps : forall rest, HasPrefix ("secret/data/" +:+ rest) "secret/" = true).
  { intros rest. change ("secret/data/" +:+ rest) with ("secret/" +:+ "data/" +:+ rest).
    apply prefix_append. }
  assert (Hpk : forall rest, HasPrefix ("kv/data/" +:+ rest) "kv/" = true).
  { intros rest. change ("kv/data/" +:+ rest) with ("kv/" +:+ "data/" +:+ rest).
    apply prefix_append. }
  assert (Hds : forall rest, Contains ("secret/data/" +:+ rest) "/data/" = true).
  { intros rest. change ("secret/data/" +:+ rest) with ("secret" +:+ "/data/" +:+ rest).
    apply Contains_occurs. }
  assert (Hdk : forall rest, Contains ("kv/data/" +:+ rest) "/data/" = true).
  { intros rest. change ("kv/data/" +:+ rest) with ("kv" +:+ "/data/" +:+ rest).
    apply Contains_occurs. }
  assert (Hmain : HasPrefix (resolvePath path) "secret/" || HasPrefix (resolvePath path) "kv/" = true
                  /\ Contains (resolvePath path) "/data/" = true).
  { destruct (HasPrefix path "secret/") eqn:H1.
    - destruct (Contains path "/data/") eqn:Hd.
      + rewrite Hfixed by (now rewrite ?H1). now rewrite H1, Hd.
      + destruct (prefix_split _ _ H1) as [rest ->].
        rewrite (Hsecret rest Hd). now rewrite Hps, Hds.
    - destruct (HasPrefix path "kv/") eqn:H2.
      + destruct (Contains path "/data/") eqn:Hd.
        * rewrite Hfixed by (now rewrite ?H1, ?H2). now rewrite H1, H2, Hd.
        * destruct (prefix_split _ _ H2) as [rest ->].
          rewrite (Hkv rest Hd). rewrite Hpk, Hdk. now rewrite orb_true_r.
      + rewrite (Hother eq_refl eq_refl). now rewrite Hps, Hds. }
  destruct Hmain as [Hp Hd].
  split; [exact Hp|]. split; [exact Hd|]. split; [now apply Hfixed|].
  split; [exact Hother|]. split; [intros rest ->; apply Hsecret|].
  split; [intros rest ->; apply Hkv | apply Hfixed].
Qed.

(** The cache key [path:key:name] determines the three parts when
    neither the path nor the key holds a colon. *)
Theorem cacheKey_injective_without_colons (obj1 obj2 : SecretObject) :
  Contains (SecretPath obj1) ":" = false ->
  Contains (SecretKey obj1) ":" = false ->
  Contains (SecretPath obj2) ":" = false ->
  Contains (SecretKey obj2) ":" = false ->
  cacheKey obj1 = cacheKey obj2 ->
  SecretPath obj1 = SecretPath obj2
  /\ SecretKey obj1 = SecretKey obj2
  /\ ObjectName obj1 = ObjectName obj2.
Proof.
  intros Hp1 Hk1 Hp2 Hk2 E. unfold cacheKey in E.
  apply Contains_false in Hp1, Hk1, Hp2, Hk2.
  destruct (split_at_first_sep _ _ _ _ _ Hp1 Hp2 E) as [Hpath E1].
  destruct (split_at_first_sep _ _ _ _ _ Hk1 Hk2 E1) as [Hkey Hname].
  now repeat split.
Qed.

Lemma cacheKey_injective_without_colons_witness :
  SecretPath Samples.objUser = SecretPath (Samples.staticObject "db-user" "myapp/database" "username" "0644")
  /\ SecretKey Samples.objUser = SecretKey (Samples.staticObject "db-user" "myapp/database" "username" "0644")
  /\ ObjectName Samples.objUser = ObjectName (Samples.staticObject "db-user" "myapp/database" "username" "0644").
Proof.
  apply (cacheKey_injective_without_colons
           Samples.objUser (Samples.staticObject "db-user" "myapp/database" "username" "0644"));
    reflexivity.
Defined.

End PathTheorems.

Section CacheConfusion.
Import Eff GoTime GoStrings GoValues OpenBao CSI.
Context {W : Type} `{Api W} `{Sys W} `{CsiLib}.
Variable cfg : Config.

(** A successful fetch that finds no cache entry returns a secret that
    bears the name of its object. *)
Lemma fetchSecret_cold_name (client c1 : AuthenticatedClient) (obj : SecretObject)
  (st st1 : St W) (s : FetchedSecret) :
  entries st !! cacheKey obj = None ->
  fetchSecret cfg client obj st = Done ((Ok s, c1), st1) ->
  FetchedName s = ObjectName obj.
Proof.
  intros Hcold. unfold fetchSecret, bind.
  rewrite (cache_get_absent _ _ Hcold).
  unfold fetchMiss. unfold bind at 1. unfold liftProc.
  destruct (readFromOpenBao client obj (proc st)) as [[[r0 c0] p0]| |]; try discriminate.
  cbn [fst snd]. destruct r0 as [[content version]|e]; [|discriminate].
  destruct (time_Now (world p0)) as [tset w] eqn:Hnow.
  unfold bind. erewrite cache_set_stores by (cbn [proc]; exact Hnow).
  now intros [= <- _ _].
Qed.

(** The cache key joins path, key and name with colons and nothing
    else, so an object with the key [k:x] and the name [n] has the cache
    key of the object with the same path, the key [k] and the name
    [x:n].  After the first was fetched into the cache, a fetch of the
    second up to the expiry of the entry sends nothing to the backend
    and returns the secret of the first, under the name of the first. *)
Theorem fetchSecret_cache_key_confusion (client c1 c2 : AuthenticatedClient)
  (obj1 obj2 : SecretObject) (x : string) (st st1 st2 : St W) (s : FetchedSecret)
  (now2 : Time) (w2 : W) :
  SecretPath obj2 = SecretPath obj1 ->
  SecretKey obj1 = SecretKey obj2 +:+ ":" +:+ x ->
  ObjectName obj2 = x +:+ ":" +:+ ObjectName obj1 ->
  entries st !! cacheKey obj1 = None ->
  fetchSecret cfg client obj1 st = Done ((Ok s, c1), st1) ->
  entries st2 = entries st1 ->
  time_Now (world (proc st2)) = (now2, w2) ->
  cacheKey obj2 = cacheKey obj1
  /\ exists entry,
       entries st1 !! cacheKey obj1 = Some entry
       /\ (now2 <= expiresAt entry ->
           fetchSecret cfg c2 obj2 st2 = Done ((Ok s, c2), after_clock st2 w2)
           /\ FetchedName s = ObjectName obj1
           /\ FetchedName s <> ObjectName obj2).
Proof.
  intros Hpath Hkey Hname Hcold Hfirst Hsame Hnow2.
  assert (Hk : cacheKey obj2 = cacheKey obj1).
  { unfold cacheKey. rewrite Hpath, Hkey, Hname. now rewrite !append_assoc. }
  split; [exact Hk|].
  destruct (fetchSecret_leaves_entry _ _ _ _ _ _ _ Hfirst) as (entry & Hentry & Hs & _).
  exists entry. split; [exact Hentry|]. intros Hle.
  pose proof (fetchSecret_cold_name _ _ _ _ _ _ Hcold Hfirst) as Hn.
  split; [|split; [exact Hn|]].
  - unfold fetchSecret, bind. rewrite Hk.
    rewrite (cache_get_present (cacheKey obj1) st2 entry now2 w2);
      [|now rewrite Hsame | exact Hnow2].
    apply Z.ltb_ge in Hle. now rewrite Hle, Hs.
  - rewrite Hn, Hname. intros E. apply (f_equal String.length) in E.
    rewrite !length_append in E. cbn [String.length] in E. lia.
Qed.

End CacheConfusion.

Section CacheConfusionWitness.
Import Eff GoTime GoStrings GoValues OpenBao CSI Lab.

(** The object [token] with the key [svc:api] is fetched at the instant
    100; at the instant 200 the object [api:token] with the key [svc] of
    the same path receives that secret from the cache. *)
Lemma fetchSecret_cache_key_confusion_witness :
  fetchSecret podConfig podClient objToken (podState 100)
  = Done ((Ok tokenFetched, podClient), warmState 100)
  /\ cacheKey objApiToken = cacheKey objToken
  /\ fetchSecret podConfig podClient objApiToken (warmSeenAt 100 200)
     = Done ((Ok tokenFetched, podClient), warmSeenAt 100 200)
  /\ FetchedName tokenFetched = ObjectName objToken
  /\ FetchedName tokenFetched <> ObjectName objApiToken.
Proof.
  assert (Hfetch : fetchSecret podConfig podClient objToken (podState 100)
                   = Done ((Ok tokenFetched, podClient), warmState 100))
    by (vm_compute; reflexivity).
  assert (Hcold : entries (podState 100) !! cacheKey objToken = None)
    by (vm_compute; reflexivity).
  destruct (fetchSecret_cache_key_confusion podConfig podClient podClient podClient
              objToken objApiToken "api" (podState 100) (warmState 100)
              (warmSeenAt 100 200) tokenFetched 200 (podWorld 200)
              eq_refl eq_refl eq_refl Hcold Hfetch eq_refl eq_refl)
    as (Hkey & entry & Hentry & Hhit).
  assert (Hentry' : entries (warmState 100) !! cacheKey objToken
                    = Some {| secret := tokenFetched; expiresAt := 100 + 5 * Minute |})
    by (vm_compute; reflexivity).
  rewrite Hentry' in Hentry. injection Hentry as <-.
  destruct Hhit as (Hrun & Hname & Hother); [vm_compute; discriminate|].
  split; [exact Hfetch|]. split; [exact Hkey|].
  split; [exact Hrun|]. split; [exact Hname | exact Hother].
Defined.

End CacheConfusionWitness.

(* ===================================================================== *)
(** * The KMS plugin server: start, health loop, encryption *)
(* ===================================================================== *)

Section ServerLifeCycle.
Import Eff KMS.
Context {W : Type} `{Transit W}.

(** One health check: the server it leaves and what the key store
    answered. *)
Lemma performHealthCheck_cases (s : Server) (w : W) :
  exists s' w',
    performHealthCheck s w = Done (s', w')
    /\ config s' = config s
    /\ ((healthy s' = true
         /\ exists info, transit_GetKeyInfo (KeyName (config s)) w = (Ok info, w')
                         /\ keyID s' = formatKeyID (KeyName (config s)) (LatestVersion info))
        \/ (healthy s' = false /\ keyID s' = keyID s
            /\ exists e, transit_GetKeyInfo (KeyName (config s)) w = (Err e, w'))).
Proof.
  unfold performHealthCheck, bind, GetKeyInfo, call.
  destruct (transit_GetKeyInfo (KeyName (config s)) w) as [[info|e] w'] eqn:Hget.
  - do 2 eexists. split; [reflexivity|]. split; [reflexivity|]. left.
    split; [reflexivity|]. exists info. split; [reflexivity|]. cbn [keyID].
    destruct (String.eqb_spec (formatKeyID (KeyName (config s)) (LatestVersion info))
                              (keyID s)) as [E|_]; cbn [negb]; congruence.
  - do 2 eexists. split; [reflexivity|]. split; [reflexivity|]. right.
    split; [reflexivity|]. split; [reflexivity|]. now exists e.
Qed.

(** [Server.initialize] always returns.  When it fails the server is as
    it was (not healthy when it comes from [NewServer]); when it succeeds
    the server is healthy and its key id is [name:v<N>] for the latest
    version [N] the key store reported in its last answer.  The key is
    created only after a failed lookup and only when
    [CreateKeyIfNotExists] is set: otherwise the lookup is the only call
    to the key store. *)
Theorem initialize_sets_key_id_or_fails (s : Server) (w : W) :
  exists r w',
    initialize s w = Done (r, w')
    /\ match fst r with
       | Some _ => snd r = s
       | None =>
           healthy (snd r) = true
           /\ config (snd r) = config s
           /\ Healthz (Status (snd r)) = "ok"
           /\ exists info w0,
                transit_GetKeyInfo (KeyName (config s)) w0 = (Ok info, w')
                /\ keyID (snd r) = formatKeyID (KeyName (config s)) (LatestVersion info)
       end
    /\ (forall info w1,
          transit_GetKeyInfo (KeyName (config s)) w = (Ok info, w1) ->
          w' = w1 /\ fst r = None)
    /\ (forall e w1,
          transit_GetKeyInfo (KeyName (config s)) w = (Err e, w1) ->
          CreateKeyIfNotExists (config s) = false ->
          w' = w1 /\ fst r <> None).
Proof.
  unfold initialize, bind, GetKeyInfo, CreateKey, call, ret.
  destruct (transit_GetKeyInfo (KeyName (config s)) w) as [[info|e] w1] eqn:Hget.
  - do 2 eexists. split; [reflexivity|]. cbn [fst snd]. split; [|split].
    + repeat split. exists info, w. split; [exact Hget | reflexivity].
    + intros info' w1' [= <- <-]. now split.
    + intros e w1' [=].
  - destruct (CreateKeyIfNotExists (config s)) eqn:Hcreate; cbn [negb].
    + destruct (transit_CreateKey (KeyName (config s)) (KeyType (config s)) w1)
        as [[ce|] w2] eqn:Hmake.
      * do 2 eexists. split; [reflexivity|]. cbn [fst snd].
        split; [reflexivity|]. split; [intros info w1' [=] | intros e' w1' _ [=]].
      * destruct (transit_GetKeyInfo (KeyName (config s)) w2) as [[info|e2] w3] eqn:Hget2.
        -- do 2 eexists. split; [reflexivity|]. cbn [fst snd]. split; [|split].
           ++ repeat split. exists info, w2. split; [exact Hget2 | reflexivity].
           ++ intros info' w1' [=].
           ++ intros e' w1' _ [=].
        -- do 2 eexists. split; [reflexivity|]. cbn [fst snd].
           split; [reflexivity|]. split; [intros info w1' [=] | intros e' w1' _ [=]].
    + do 2 eexists. split; [reflexivity|]. cbn [fst snd].
      split; [reflexivity|]. split; [intros info w1' [=]|].
      intros e' w1' [= <- <-] _. now split.
Qed.

(** The health loop never changes the configuration, and after at least
    one tick the state reflects the last check alone: the server is
    healthy exactly when the last lookup succeeded, and then its key id
    is [name:v<N>] for the version [N] of that lookup; a failed last
    lookup leaves a server that is not healthy.  At every moment the key
    id is the one the loop started with or a well-formed one. *)
Theorem healthCheckLoop_reflects_last_check (ticks : nat) (s : Server) (w : W) :
  exists s' w',
    healthCheckLoop ticks s w = Done (s', w')
    /\ config s' = config s
    /\ (keyID s' = keyID s
        \/ exists version, keyID s' = formatKeyID (KeyName (config s)) version)
    /\ ((0 < ticks)%nat ->
        exists w0,
          (healthy s' = true
           /\ Healthz (Status s') = "ok"
           /\ exists info, transit_GetKeyInfo (KeyName (config s)) w0 = (Ok info, w')
                           /\ KeyId (Status s')
                              = formatKeyID (KeyName (config s)) (LatestVersion info))
          \/ (healthy s' = false
              /\ Healthz (Status s') = "unhealthy"
              /\ exists e, transit_GetKeyInfo (KeyName (config s)) w0 = (Err e, w'))).
Proof.
  revert s w. induction ticks as [|n IH]; intros s w.
  - exists s, w. split; [reflexivity|]. split; [reflexivity|].
    split; [now left | lia].
  - destruct (performHealthCheck_cases s w) as (s1 & w1 & Hrun & Hcfg & Hcase).
    destruct (IH s1 w1) as (s' & w' & Hloop & Hcfg' & Hid & Hlast).
    exists s', w'. split.
    { cbn [healthCheckLoop]. unfold bind. now rewrite Hrun. }
    split; [congruence|]. split.
    { destruct Hid as [Hid|[v Hv]].
      - destruct Hcase as [(_ & info & _ & Hk)|(_ & Hk & _)].
        + right. exists (LatestVersion info). congruence.
        + left. congruence.
      - right. exists v. congruence. }
    intros _. destruct n as [|n].
    + cbn [healthCheckLoop] in Hloop. injection Hloop as <- <-.
      exists w. unfold Status. cbn [Healthz KeyId].
      destruct Hcase as [(Hh & info & Hget & Hk)|(Hh & _ & e & Hget)]; rewrite Hh; cbn [negb].
      * left. repeat split. exists info. split; assumption.
      * right. repeat split. now exists e.
    + destruct Hlast as [w0 Hw0]; [lia|]. exists w0. now rewrite <- Hcfg.
Qed.

(** [Encrypt] and [Decrypt] refuse empty input without a call to the
    key store.  Otherwise they hand their input to the transit key named
    in the configuration: when the key store decrypts what it encrypted,
    [Decrypt] returns the plaintext that was given to [Encrypt], whatever
    key id the decrypt request names; and the key id [Encrypt] reports is
    the one [Status] reports. *)
Theorem Encrypt_then_Decrypt (s : Server) (keyId plaintext ciphertext : string) (w w1 w2 : W) :
  plaintext <> EmptyString ->
  ciphertext <> EmptyString ->
  transit_Encrypt (KeyName (config s)) plaintext w = (Ok ciphertext, w1) ->
  transit_Decrypt (KeyName (config s)) ciphertext w1 = (Ok plaintext, w2) ->
  Encrypt s EmptyString w = Done (Err "plaintext cannot be empty", w)
  /\ Decrypt s keyId EmptyString w = Done (Err "ciphertext cannot be empty", w)
  /\ exists resp,
       Encrypt s plaintext w = Done (Ok resp, w1)
       /\ Ciphertext resp = ciphertext
       /\ EncKeyId resp = KeyId (Status s)
       /\ Decrypt s keyId (Ciphertext resp) w1 = Done (Ok {| Plaintext := plaintext |}, w2).
Proof.
  intros Hp Hc Henc Hdec.
  split; [reflexivity|]. split; [reflexivity|].
  unfold Encrypt, Decrypt, bind, call, ret.
  destruct plaintext as [|a p]; [congruence|].
  destruct ciphertext as [|b c]; [congruence|].
  cbn [String.length Nat.eqb]. rewrite Henc. eexists. split; [reflexivity|].
  cbn [Ciphertext EncKeyId String.length Nat.eqb]. rewrite Hdec. now repeat split.
Qed.

End ServerLifeCycle.

Section ServerRoundTripWitness.
Import Eff KMS Lab.

(** A server on a transit engine that decrypts what it encrypted. *)
Lemma Encrypt_then_Decrypt_witness :
  exists resp,
    Encrypt labServer "etcd-secret" envWorld = Done (Ok resp, envWorld)
    /\ Ciphertext resp = "vault:v1:etcd-secret"
    /\ Decrypt labServer "etcd-key:v1" (Ciphertext resp) envWorld
       = Done (Ok {| Plaintext := "etcd-secret" |}, envWorld)
    /\ Decrypt labServer "etcd-key:v1" EmptyString envWorld
       = Done (Err "ciphertext cannot be empty", envWorld).
Proof.
  destruct (Encrypt_then_Decrypt labServer "etcd-key:v1" "etcd-secret" "vault:v1:etcd-secret"
              envWorld envWorld envWorld)
    as (_ & Hempty & resp & Henc & Hct & _ & Hdec).
  - discriminate.
  - discriminate.
  - reflexivity.
  - reflexivity.
  - exists resp. split; [exact Henc|]. split; [exact Hct|].
    split; [exact Hdec | exact Hempty].
Defined.

End ServerRoundTripWitness.

(* ===================================================================== *)
(** * Configuration: environment, defaults, validation *)
(* ===================================================================== *)

(** Two texts that differ within their first [n] bytes. *)
Ltac differ_within n :=
  let E := fresh "E" in
  intros E; apply (f_equal (substring 0 n)) in E; vm_compute in E; discriminate E.

Section BackendConfig.
Import Eff GoTime GoValues OpenBao BaoConfig.
Context {W : Type} `{Api W} `{Sys W} `{ApiLib}.

Lemma eqb_empty (s : string) : String.eqb s EmptyString = true <-> s = EmptyString.
Proof. apply String.eqb_eq. Qed.

Lemma getEnv_pair (a b : string) (w : W) :
  getEnv [a; b] w
  = if negb (String.eqb (os_Getenv a w) EmptyString) then os_Getenv a w
    else os_Getenv b w.
Proof.
  cbn [getEnv].
  destruct (String.eqb_spec (os_Getenv a w) EmptyString) as [_|_]; cbn [negb]; [|reflexivity].
  destruct (String.eqb_spec (os_Getenv b w) EmptyString) as [->|_]; reflexivity.
Qed.

Lemma getEnv_pair_empty (a b : string) (w : W) :
  getEnv [a; b] w = EmptyString <-> os_Getenv a w = EmptyString /\ os_Getenv b w = EmptyString.
Proof.
  rewrite getEnv_pair.
  destruct (String.eqb_spec (os_Getenv a w) EmptyString) as [Ha|Ha]; cbn [negb]; tauto.
Qed.

(** A configuration read from the environment takes the address and the
    token from the [OPENBAO_] variable when it is set and from the
    [VAULT_] variable otherwise, and it passes [Validate] exactly when
    an address is set and a token or a Kubernetes role is set. *)
Theorem LoadConfigFromEnv_valid_iff (w : W) :
  (Validate (LoadConfigFromEnv w) w = None
   <-> (os_Getenv "OPENBAO_ADDR" w <> EmptyString \/ os_Getenv "VAULT_ADDR" w <> EmptyString)
       /\ (os_Getenv "OPENBAO_TOKEN" w <> EmptyString
           \/ os_Getenv "VAULT_TOKEN" w <> EmptyString
           \/ os_Getenv "KUBEBAO_K8S_ROLE" w <> EmptyString))
  /\ (os_Getenv "OPENBAO_ADDR" w <> EmptyString ->
      Address (LoadConfigFromEnv w) = os_Getenv "OPENBAO_ADDR" w)
  /\ (os_Getenv "OPENBAO_ADDR" w = EmptyString ->
      Address (LoadConfigFromEnv w) = os_Getenv "VAULT_ADDR" w)
  /\ (os_Getenv "OPENBAO_TOKEN" w <> EmptyString ->
      Token (LoadConfigFromEnv w) = os_Getenv "OPENBAO_TOKEN" w)
  /\ (os_Getenv "OPENBAO_TOKEN" w = EmptyString ->
      Token (LoadConfigFromEnv w) = os_Getenv "VAULT_TOKEN" w).
Proof.
  unfold Validate, LoadConfigFromEnv.
  cbn [Address Token KubernetesAuth]. rewrite !getEnv_pair.
  destruct (String.eqb_spec (os_Getenv "OPENBAO_ADDR" w) EmptyString) as [Ha|Ha];
  destruct (String.eqb_spec (os_Getenv "VAULT_ADDR" w) EmptyString) as [Hva|Hva];
  destruct (String.eqb_spec (os_Getenv "OPENBAO_TOKEN" w) EmptyString) as [Ht|Ht];
  destruct (String.eqb_spec (os_Getenv "VAULT_TOKEN" w) EmptyString) as [Hvt|Hvt];
  destruct (String.eqb_spec (os_Getenv "KUBEBAO_K8S_ROLE" w) EmptyString) as [Hr|Hr];
    cbn [negb andb orb Role];
    repeat match goal with
           | |- context [String.eqb ?x EmptyString] =>
               destruct (String.eqb_spec x EmptyString); try contradiction; try congruence
           end;
    cbn [negb andb orb];
    (split; [split; [try discriminate; tauto | intros [[?|?] [?|[?|?]]]; try contradiction; reflexivity]
            | repeat split; intros; congruence]).
Qed.

(** [MergeWithEnv] gives the environment precedence and is idempotent;
    it changes nothing in a configuration that was read from the same
    environment; and it never turns a configuration that passes
    [Validate] into one that does not. *)
Theorem MergeWithEnv_keeps_validity (c : Config) (w : W) :
  MergeWithEnv (MergeWithEnv c w) w = MergeWithEnv c w
  /\ MergeWithEnv (LoadConfigFromEnv w) w = LoadConfigFromEnv w
  /\ (getEnv ["OPENBAO_ADDR"; "VAULT_ADDR"] w <> EmptyString ->
      Address (MergeWithEnv c w) = getEnv ["OPENBAO_ADDR"; "VAULT_ADDR"] w)
  /\ (getEnv ["OPENBAO_ADDR"; "VAULT_ADDR"] w = EmptyString ->
      Address (MergeWithEnv c w) = Address c)
  /\ (Validate c w = None -> Validate (MergeWithEnv c w) w = None).
Proof.
  split; [|split; [|split; [|split]]].
  - unfold MergeWithEnv. cbn [Address Token TransitMount KVMount Namespace
                                 TLSConfig_ KubernetesAuth MaxRetries Timeout].
    f_equal;
      match goal with
      | |- (if negb (String.eqb ?x EmptyString) then _ else _) = _ =>
          now destruct (String.eqb x EmptyString)
      end.
  - unfold MergeWithEnv, LoadConfigFromEnv, getEnvDefault.
    cbn [Address Token TransitMount KVMount Namespace
         TLSConfig_ KubernetesAuth MaxRetries Timeout].
    f_equal;
      match goal with
      | |- (if negb (String.eqb ?x EmptyString) then _ else _) = _ =>
          destruct (String.eqb_spec x EmptyString) as [E|E]; cbn [negb];
          [try (rewrite E; reflexivity); try reflexivity | reflexivity]
      end.
  - intros Haddr. unfold MergeWithEnv. cbn [Address].
    now destruct (String.eqb_spec (getEnv ["OPENBAO_ADDR"; "VAULT_ADDR"] w) EmptyString).
  - intros Haddr. unfold MergeWithEnv. cbn [Address]. now rewrite Haddr.
  - unfold Validate, MergeWithEnv. cbn [Address Token KubernetesAuth].
    destruct (String.eqb_spec (Address c) EmptyString) as [|Ha]; [discriminate|].
    destruct (String.eqb_spec (getEnv ["OPENBAO_ADDR"; "VAULT_ADDR"] w) EmptyString)
      as [Hea|Hea]; cbn [negb];
      [destruct (String.eqb_spec (Address c) EmptyString); [contradiction|]
      |destruct (String.eqb_spec (getEnv ["OPENBAO_ADDR"; "VAULT_ADDR"] w) EmptyString);
       [contradiction|]].
    all: destruct (String.eqb_spec (getEnv ["OPENBAO_TOKEN"; "VAULT_TOKEN"] w) EmptyString)
           as [Het|Het]; cbn [negb]; [exact id|].
    all: destruct (String.eqb_spec (getEnv ["OPENBAO_TOKEN"; "VAULT_TOKEN"] w) EmptyString);
           [contradiction|]; cbn [andb].
    all: assert (Hnot : ~ (os_Getenv "OPENBAO_TOKEN" w = EmptyString
                           /\ os_Getenv "VAULT_TOKEN" w = EmptyString))
           by (intros Hboth; apply Het; now apply getEnv_pair_empty).
    all: destruct (String.eqb_spec (Token c) EmptyString);
         destruct (KubernetesAuth c) as [k|]; cbn [andb]; try exact id.
    all: destruct (String.eqb_spec (os_Getenv "OPENBAO_TOKEN" w) EmptyString);
         destruct (String.eqb_spec (os_Getenv "VAULT_TOKEN" w) EmptyString);
         cbn [andb]; try exact id; tauto.
Qed.

(** [authenticate] keeps the configuration of the client, and without a
    means of authentication its error is the one about the missing
    method. *)
Lemma authenticate_cases (c : Client) (p : Proc W) :
  OpenBao.Token (OpenBao.config c) <> EmptyString
  \/ OpenBao.KubernetesAuth (OpenBao.config c) <> None
  \/ os_Getenv "OPENBAO_TOKEN" (world p) <> EmptyString
  \/ os_Getenv "VAULT_TOKEN" (world p) <> EmptyString ->
  forall r p', authenticate c p = Done (r, p') ->
               fst r <> Some "no authentication method configured"
               /\ OpenBao.config (snd r) = OpenBao.config c.
Proof.
  intros Hmeans r p'. unfold authenticate.
  destruct (String.eqb_spec (OpenBao.Token (OpenBao.config c)) EmptyString) as [Htok|Htok]; cbn [negb].
  2:{ intros [= <- _]. now split. }
  destruct (OpenBao.KubernetesAuth (OpenBao.config c)) as [k8sAuth|] eqn:Hk8s.
  - unfold authenticateKubernetes, bind, ReadFile, LogicalWrite, Now, call, ret.
    destruct (os_ReadFile _ (world p)) as [jwt|e].
    + destruct (logical_Write _ _ _ (world p)) as [[[secret|]|e] w1].
      * destruct (Auth secret) as [auth|].
        -- destruct (0 <? LeaseDuration auth).
           ++ cbn beta iota. cbn [world apiLog].
              destruct (time_Now w1) as [now w2]. intros [= <- _]. now split.
           ++ intros [= <- _]. now split.
        -- intros [= <- _]. split; [cbn [fst]; intros [= E]; revert E; differ_within 12%nat
                                   | reflexivity].
      * intros [= <- _]. split; [cbn [fst]; intros [= E]; revert E; differ_within 12%nat
                                | reflexivity].
      * intros [= <- _]. split; [cbn [fst]; intros [= E]; revert E; differ_within 2%nat
                                | reflexivity].
    + intros [= <- _]. split; [cbn [fst]; intros [= E]; revert E; differ_within 2%nat
                              | reflexivity].
  - unfold bind, Getenv, call, ret.
    destruct (String.eqb_spec (os_Getenv "OPENBAO_TOKEN" (world p)) EmptyString) as [He1|He1];
      cbn [negb]; [|intros [= <- _]; now split].
    destruct (String.eqb_spec (os_Getenv "VAULT_TOKEN" (world p)) EmptyString) as [He2|He2];
      cbn [negb]; [|intros [= <- _]; now split].
    exfalso. destruct Hmeans as [?|[?|[?|?]]]; congruence.
Qed.

Lemma NewClient_valid_config (cfg : Config) (p : Proc W) :
  Validate cfg (world p) = None ->
  forall r p', NewClient cfg p = Done (r, p') ->
    r <> Err "OpenBao address is required"
    /\ r <> Err "failed to authenticate: no authentication method configured"
    /\ forall c, r = Ok c ->
                 OpenBao.config c = clientConfig (withClientDefaults cfg)
                 /\ OpenBao.TransitMount (OpenBao.config c) <> EmptyString
                 /\ OpenBao.KVMount (OpenBao.config c) <> EmptyString.
Proof.
  intros Hvalid r p'. unfold Validate in Hvalid. unfold NewClient.
  destruct (String.eqb_spec (Address cfg) EmptyString) as [|Haddr]; [discriminate|].
  assert (Hmeans : Token cfg <> EmptyString
                   \/ KubernetesAuth cfg <> None
                   \/ os_Getenv "OPENBAO_TOKEN" (world p) <> EmptyString
                   \/ os_Getenv "VAULT_TOKEN" (world p) <> EmptyString).
  { destruct (String.eqb_spec (Token cfg) EmptyString) as [_|Ht]; [|now left].
    destruct (KubernetesAuth cfg) as [k|]; [right; left; discriminate|].
    cbn [andb] in Hvalid.
    destruct (String.eqb_spec (os_Getenv "OPENBAO_TOKEN" (world p)) EmptyString) as [_|He1];
      [|now right; right; left].
    destruct (String.eqb_spec (os_Getenv "VAULT_TOKEN" (world p)) EmptyString) as [_|He2];
      [discriminate | now right; right; right]. }
  destruct (match TLSConfig_ (withClientDefaults cfg) with
            | Some tls => api_ConfigureTLS tls
            | None => None
            end) as [e|].
  { intros [= <- _]. split; [intros [= E]; revert E; differ_within 1%nat|].
    split; [intros [= E]; revert E; differ_within 11%nat | discriminate]. }
  destruct (api_NewClient _ _ _) as [token0|e].
  2:{ intros [= <- _]. split; [intros [= E]; revert E; differ_within 1%nat|].
      split; [intros [= E]; revert E; differ_within 11%nat | discriminate]. }
  unfold bind.
  match goal with
  | |- context [authenticate ?c p] =>
      destruct (authenticate c p) as [[[err c1] p1]| |] eqn:Hauth; try discriminate;
      destruct (authenticate_cases c p Hmeans _ _ Hauth) as [Hno Hcfg]
  end.
  cbn [fst snd] in *. destruct err as [e|].
  - intros [= <- _]. split; [intros [= E]; revert E; differ_within 1%nat|].
    split; [|discriminate].
    intros [= E]. apply Hno. f_equal. exact E.
  - intros [= <- _]. split; [discriminate|]. split; [discriminate|].
    intros c [= <-]. split; [exact Hcfg|]. rewrite Hcfg.
    unfold clientConfig, withClientDefaults. cbn [OpenBao.TransitMount OpenBao.KVMount
                                                    TransitMount KVMount].
    split.
    + now destruct (String.eqb_spec (TransitMount cfg) EmptyString).
    + now destruct (String.eqb_spec (KVMount cfg) EmptyString).
Qed.

(** A configuration that passes [Validate] never makes [NewClient] fail
    for a missing address or for a missing authentication method, when
    the client is built in the environment the validation saw.  A client
    that [NewClient] returns has the configuration it was given with the
    defaults filled in, so neither of its two mount names is empty. *)
Theorem Validate_sound_for_NewClient (cfg : Config) (p : Proc W) :
  Validate cfg (world p) = None ->
  forall r p', NewClient cfg p = Done (r, p') ->
    r <> Err "OpenBao address is required"
    /\ r <> Err "failed to authenticate: no authentication method configured"
    /\ forall c, r = Ok c ->
                 OpenBao.config c = clientConfig (withClientDefaults cfg)
                 /\ OpenBao.TransitMount (OpenBao.config c) <> EmptyString
                 /\ OpenBao.KVMount (OpenBao.config c) <> EmptyString.
Proof. exact (NewClient_valid_config cfg p). Qed.

End BackendConfig.

Section BackendConfigWitness.
Import Eff GoTime GoValues OpenBao Lab.

(** The configuration read from an environment that holds the address
    and a token passes [Validate], and [NewClient] succeeds on it. *)
Lemma Validate_sound_for_NewClient_witness :
  BaoConfig.Validate (BaoConfig.LoadConfigFromEnv envWorld) (world envProc) = None
  /\ exists c,
       BaoConfig.NewClient (BaoConfig.LoadConfigFromEnv envWorld) envProc
       = Done (Ok c, envProc)
       /\ OpenBao.TransitMount (OpenBao.config c) <> EmptyString
       /\ OpenBao.KVMount (OpenBao.config c) <> EmptyString.
Proof.
  assert (Hvalid : BaoConfig.Validate (BaoConfig.LoadConfigFromEnv envWorld) (world envProc)
                   = None) by (vm_compute; reflexivity).
  split; [exact Hvalid|].
  assert (Hrun : BaoConfig.NewClient (BaoConfig.LoadConfigFromEnv envWorld) envProc
                 = Done (Ok {| OpenBao.config :=
                                 BaoConfig.clientConfig (BaoConfig.LoadConfigFromEnv envWorld);
                               OpenBao.token := "s.root";
                               OpenBao.tokenExpiry := 0 |}, envProc))
    by (vm_compute; reflexivity).
  eexists. split; [exact Hrun|].
  destruct (Validate_sound_for_NewClient (BaoConfig.LoadConfigFromEnv envWorld) envProc
              Hvalid _ _ Hrun) as (_ & _ & Hok).
  destruct (Hok _ eq_refl) as (_ & Ht & Hk).
  split; [exact Ht | exact Hk].
Defined.

End BackendConfigWitness.

Section PluginConfig.
Import Eff GoTime OpenBao KmsConfig.
Context {W : Type} `{Api W} `{Sys W} `{BaoConfig.ApiLib} `{ConfigLib}.

Lemma kms_setDefaults_fields (c : Config) (w : W) :
  SocketPath (setDefaults c w) <> EmptyString
  /\ KeyName (setDefaults c w) <> EmptyString
  /\ KeyType (setDefaults c w) <> EmptyString
  /\ HealthCheckInterval (setDefaults c w) <> 0
  /\ KmsConfig.OpenBao (setDefaults c w) <> None.
Proof.
  unfold setDefaults. cbn [SocketPath KeyName KeyType HealthCheckInterval KmsConfig.OpenBao].
  repeat split.
  - now destruct (String.eqb_spec (SocketPath c) EmptyString).
  - now destruct (String.eqb_spec (KeyName c) EmptyString).
  - now destruct (String.eqb_spec (KeyType c) EmptyString).
  - destruct (Z.eqb_spec (HealthCheckInterval c) 0); [discriminate | assumption].
  - now destruct (KmsConfig.OpenBao c).
Qed.

Lemma kms_setDefaults_idempotent (c : Config) (w : W) :
  setDefaults (setDefaults c w) w = setDefaults c w.
Proof.
  unfold setDefaults. cbn [SocketPath KeyName KeyType HealthCheckInterval KmsConfig.OpenBao
                           CreateKeyIfNotExists].
  f_equal.
  - destruct (String.eqb_spec (SocketPath c) EmptyString) as [|Hne]; [reflexivity|].
    now destruct (String.eqb_spec (SocketPath c) EmptyString).
  - destruct (String.eqb_spec (KeyName c) EmptyString) as [|Hne]; [reflexivity|].
    now destruct (String.eqb_spec (KeyName c) EmptyString).
  - destruct (String.eqb_spec (KeyType c) EmptyString) as [|Hne]; [reflexivity|].
    now destruct (String.eqb_spec (KeyType c) EmptyString).
  - destruct (Z.eqb_spec (HealthCheckInterval c) 0) as [|Hne]; [reflexivity|].
    now destruct (Z.eqb_spec (HealthCheckInterval c) 0).
  - now destruct (KmsConfig.OpenBao c).
Qed.

(** What [Validate] accepts. *)
Lemma kms_Validate_accepts (c : Config) (w : W) :
  Validate c w = None ->
  SocketPath c <> EmptyString
  /\ KeyName c <> EmptyString
  /\ validKeyTypes (KeyType c) = true
  /\ exists ob, KmsConfig.OpenBao c = Some ob /\ BaoConfig.Validate ob w = None.
Proof.
  unfold Validate.
  destruct (String.eqb_spec (SocketPath c) EmptyString) as [|Hs]; [discriminate|].
  destruct (String.eqb_spec (KeyName c) EmptyString) as [|Hk]; [discriminate|].
  destruct (validKeyTypes (KeyType c)); cbn [negb]; [|discriminate].
  destruct (KmsConfig.OpenBao c) as [ob|]; [|discriminate].
  destruct (BaoConfig.Validate ob w) eqn:Hob; [discriminate|].
  intros _. repeat split; try assumption. now exists ob.
Qed.

(** After [setDefaults], the validation of the KMS configuration can
    only fail on a key type that is set and is none of the three
    supported ones, or on the backend configuration: the socket path,
    the key name and the backend configuration are never missing.  So a
    configuration that [LoadConfig] returns is valid, is left alone by a
    second [setDefaults], and has a positive or negative but never a zero
    health check interval. *)
Theorem kms_defaults_then_validate (c : Config) (w : W) :
  setDefaults (setDefaults c w) w = setDefaults c w
  /\ (forall e,
        Validate (setDefaults c w) w = Some e ->
        (KeyType c <> EmptyString /\ validKeyTypes (KeyType c) = false
         /\ e = "invalid keyType: " +:+ KeyType c
                +:+ ", must be one of: aes128-gcm96, aes256-gcm96, chacha20-poly1305")
        \/ exists ob e',
             KmsConfig.OpenBao (setDefaults c w) = Some ob
             /\ BaoConfig.Validate ob w = Some e'
             /\ e = "invalid openbao configuration: " +:+ e')
  /\ (forall path cfg,
        LoadConfig path w = Ok cfg ->
        Validate cfg w = None
        /\ setDefaults cfg w = cfg
        /\ SocketPath cfg <> EmptyString
        /\ KeyName cfg <> EmptyString
        /\ validKeyTypes (KeyType cfg) = true
        /\ HealthCheckInterval cfg <> 0).
Proof.
  split; [apply kms_setDefaults_idempotent|]. split.
  - intros e. destruct (kms_setDefaults_fields c w) as (Hs & Hk & _ & _ & Hob).
    unfold Validate.
    destruct (String.eqb_spec (SocketPath (setDefaults c w)) EmptyString); [contradiction|].
    destruct (String.eqb_spec (KeyName (setDefaults c w)) EmptyString); [contradiction|].
    destruct (validKeyTypes (KeyType (setDefaults c w))) eqn:Hvalid; cbn [negb].
    + destruct (KmsConfig.OpenBao (setDefaults c w)) as [ob|]; [|contradiction].
      destruct (BaoConfig.Validate ob w) as [e'|] eqn:Hv; [|discriminate].
      intros [= <-]. right. now exists ob, e'.
    + intros [= <-]. left. unfold setDefaults in Hvalid |- *. cbn [KeyType] in *.
      destruct (String.eqb_spec (KeyType c) EmptyString) as [Hkt|Hkt];
        [discriminate Hvalid | now repeat split].
  - intros path cfg. unfold LoadConfig.
    destruct (os_ReadFile path w) as [data|e]; [|discriminate].
    destruct (yaml_Unmarshal_Config data) as [config|e]; [|discriminate].
    destruct (Validate (setDefaults config w) w) eqn:Hv; [discriminate|].
    intros [= <-]. split; [exact Hv|]. split; [apply kms_setDefaults_idempotent|].
    destruct (kms_Validate_accepts _ _ Hv) as (Hs & Hk & Ht & _).
    destruct (kms_setDefaults_fields config w) as (_ & _ & _ & Hi & _).
    now repeat split.
Qed.

(** The configuration the plugin's [main] goes on with, from a file or
    from the environment, is valid: it names a socket path and a key, its
    key type is one of the three supported ones, and its backend
    configuration exists and is valid.  [NewClient], run on it in the
    environment [main] saw, does not fail for a missing address or a
    missing authentication method. *)
Theorem kms_main_config_is_usable (configFile : string) (w : W) (cfg : Config) :
  mainConfig configFile w = Some cfg ->
  Validate cfg w = None
  /\ SocketPath cfg <> EmptyString
  /\ KeyName cfg <> EmptyString
  /\ validKeyTypes (KeyType cfg) = true
  /\ exists ob,
       KmsConfig.OpenBao cfg = Some ob
       /\ BaoConfig.Validate ob w = None
       /\ forall p r p',
            world p = w ->
            BaoConfig.NewClient ob p = Done (r, p') ->
            r <> Err "OpenBao address is required"
            /\ r <> Err "failed to authenticate: no authentication method configured".
Proof.
  unfold mainConfig.
  destruct (if negb (String.eqb configFile EmptyString)
            then LoadConfig configFile w else Ok (LoadConfigFromEnv w)) as [config|e];
    [|discriminate].
  destruct (Validate config w) eqn:Hv; [discriminate|].
  intros [= <-]. split; [exact Hv|].
  destruct (kms_Validate_accepts _ _ Hv) as (Hs & Hk & Ht & ob & Hob & Hvob).
  repeat split; try assumption.
  exists ob. split; [exact Hob|]. split; [exact Hvob|].
  intros p r p' Hw Hnew. rewrite <- Hw in Hvob.
  destruct (NewClient_valid_config ob p Hvob r p' Hnew) as (H1' & H2' & _).
  now split.
Qed.

End PluginConfig.

Section ProviderConfig.
Import Eff GoTime GoStrings GoValues OpenBao CSI.
Context {W : Type} `{Api W} `{Sys W} `{CsiLib} `{BaoConfig.ApiLib} `{CsiConfig.ConfigLib}.

(** After [setDefaults] the CSI configuration passes its validation. *)
Lemma csi_setDefaults_valid (c : CsiConfig.Config) (w : W) :
  CsiConfig.Validate (CsiConfig.setDefaults c w) = None.
Proof.
  unfold CsiConfig.Validate, CsiConfig.setDefaults.
  cbn [CsiConfig.SocketPath CsiConfig.OpenBao].
  destruct (String.eqb_spec (CsiConfig.SocketPath c) EmptyString) as [|Hne];
    [|destruct (String.eqb_spec (CsiConfig.SocketPath c) EmptyString); [contradiction|]];
    now destruct (CsiConfig.OpenBao c).
Qed.

(** A CSI configuration file never fails validation: after
    [setDefaults] the socket path and the backend configuration are
    there, and nothing else is checked.  [LoadConfig] therefore fails
    only when the file cannot be read or parsed, and what it returns has
    a cache TTL other than zero and a default authentication method. *)
Theorem csi_file_config_always_valid (c : CsiConfig.Config) (w : W) :
  CsiConfig.Validate (CsiConfig.setDefaults c w) = None
  /\ CsiConfig.setDefaults (CsiConfig.setDefaults c w) w = CsiConfig.setDefaults c w
  /\ (forall path e,
        CsiConfig.LoadConfig path w = Err e ->
        (exists e', os_ReadFile path w = Err e'
                    /\ e = "failed to read config file: " +:+ e')
        \/ (exists data e', os_ReadFile path w = Ok data
                            /\ CsiConfig.yaml_Unmarshal_Config data = Err e'
                            /\ e = "failed to parse config file: " +:+ e'))
  /\ (forall path cfg,
        CsiConfig.LoadConfig path w = Ok cfg ->
        CsiConfig.CacheTTL cfg <> 0
        /\ CsiConfig.DefaultAuthMethod cfg <> EmptyString
        /\ CsiConfig.providerConfig cfg <> None).
Proof.
  assert (Hvalid : forall c0, CsiConfig.Validate (CsiConfig.setDefaults c0 w) = None)
    by (intros c0; apply csi_setDefaults_valid).
  split; [apply Hvalid|]. split; [|split].
  - unfold CsiConfig.setDefaults.
    cbn [CsiConfig.SocketPath CsiConfig.CacheTTL CsiConfig.RotationPollInterval
         CsiConfig.OpenBao CsiConfig.DefaultAuthMethod].
    f_equal.
    + destruct (String.eqb_spec (CsiConfig.SocketPath c) EmptyString) as [|Hne]; [reflexivity|].
      now destruct (String.eqb_spec (CsiConfig.SocketPath c) EmptyString).
    + destruct (Z.eqb_spec (CsiConfig.CacheTTL c) 0) as [|Hne]; [reflexivity|].
      now destruct (Z.eqb_spec (CsiConfig.CacheTTL c) 0).
    + destruct (Z.eqb_spec (CsiConfig.RotationPollInterval c) 0) as [|Hne]; [reflexivity|].
      now destruct (Z.eqb_spec (CsiConfig.RotationPollInterval c) 0).
    + now destruct (CsiConfig.OpenBao c).
    + destruct (String.eqb_spec (CsiConfig.DefaultAuthMethod c) EmptyString) as [|Hne];
        [reflexivity|].
      now destruct (String.eqb_spec (CsiConfig.DefaultAuthMethod c) EmptyString).
  - intros path e. unfold CsiConfig.LoadConfig.
    destruct (os_ReadFile path w) as [data|e1]; [|intros [= <-]; left; now exists e1].
    destruct (CsiConfig.yaml_Unmarshal_Config data) as [config|e2] eqn:Hy;
      [|intros [= <-]; right; now exists data, e2].
    now rewrite Hvalid.
  - intros path cfg. unfold CsiConfig.LoadConfig.
    destruct (os_ReadFile path w) as [data|e1]; [|discriminate].
    destruct (CsiConfig.yaml_Unmarshal_Config data) as [config|e2]; [|discriminate].
    rewrite Hvalid. intros [= <-].
    unfold CsiConfig.providerConfig, CsiConfig.setDefaults.
    cbn [CsiConfig.CacheTTL CsiConfig.DefaultAuthMethod CsiConfig.OpenBao].
    repeat split.
    + destruct (Z.eqb_spec (CsiConfig.CacheTTL config) 0); [discriminate | assumption].
    + now destruct (String.eqb_spec (CsiConfig.DefaultAuthMethod config) EmptyString).
    + now destruct (CsiConfig.OpenBao config).
Qed.

(** The validation of the CSI configuration does not look at the backend
    address.  With a configuration whose backend address is empty, every
    mount request that names no [openbaoAddr] of its own is answered
    with PermissionDenied, and nothing is sent to the backend: the state
    of the provider is as before. *)
Theorem Mount_without_backend_address (c : CsiConfig.Config) (w0 : W) (cfg : Config)
  (req : MountRequest) (st : St W) (attribs : gmap string string) (params : MountParams) :
  CsiConfig.providerConfig (CsiConfig.setDefaults c w0) = Some cfg ->
  DefaultAddress cfg = EmptyString ->
  requestAttributes req = (Some attribs, None) ->
  attribs !! "openbaoAddr" = None ->
  parseMountParams cfg (Some attribs) = Ok params ->
  CsiConfig.Validate (CsiConfig.setDefaults c w0) = None
  /\ Mount cfg req st = Done ((errorResponse "PermissionDenied", None), st).
Proof.
  intros Hcfg Haddr Hattr Hown Hparams.
  split; [apply csi_setDefaults_valid|].
  assert (Hpa : OpenBaoAddress params = EmptyString).
  { unfold parseMountParams in Hparams.
    destruct (match attribs !! "objects" with
              | Some objectsStr => _
              | None => Ok []
              end) as [objects|e]; [|discriminate].
    cbn [RoleName Objects] in Hparams.
    destruct (String.eqb _ EmptyString); [discriminate|].
    destruct (length objects =? 0)%nat; [discriminate|].
    injection Hparams as <-. cbn [OpenBaoAddress]. now rewrite Hown. }
  unfold Mount. rewrite Hattr, Hparams.
  assert (Hauth : authenticate cfg params (requestSecrets req) (proc st)
                  = Done (Err "OpenBao address is required", proc st)).
  { unfold authenticate. rewrite Hpa, Haddr.
    cbn [String.eqb]. unfold bind, NewAuthenticatedClient, ReadFile, call, ret.
    cbn [AuthAddress String.eqb].
    destruct (String.eqb _ EmptyString); [|reflexivity].
    now destruct (os_ReadFile _ (world (proc st))). }
  unfold bind, liftProc. rewrite Hauth. unfold ret. now destruct st.
Qed.

End ProviderConfig.

Section PluginConfigWitness.
Import Eff GoTime GoValues OpenBao CSI Lab.

(** The plugin started without a configuration file in an environment
    that holds the address and a token. *)
Lemma kms_main_config_is_usable_witness :
  exists cfg,
    KmsConfig.mainConfig EmptyString envWorld = Some cfg
    /\ KmsConfig.Validate cfg envWorld = None
    /\ KmsConfig.KeyName cfg = "etcd-key"
    /\ KmsConfig.validKeyTypes (KmsConfig.KeyType cfg) = true.
Proof.
  eexists. split; [vm_compute; reflexivity|].
  refine ((fun H => conj (proj1 H)
                      (conj eq_refl (proj1 (proj2 (proj2 (proj2 H))))))
            (kms_main_config_is_usable EmptyString envWorld _ _)).
  vm_compute. reflexivity.
Defined.

(** A provider whose configuration file sets nothing, in an environment
    without a backend address: the configuration is valid and the mount
    of a well-formed request is refused. *)
Lemma Mount_without_backend_address_witness :
  exists cfg,
    CsiConfig.providerConfig (CsiConfig.setDefaults emptyCsiConfig (podWorld 100)) = Some cfg
    /\ DefaultAddress cfg = EmptyString
    /\ CsiConfig.Validate (CsiConfig.setDefaults emptyCsiConfig (podWorld 100)) = None
    /\ Mount cfg roleRequest (podState 100)
       = Done ((errorResponse "PermissionDenied", None), podState 100).
Proof.
  eexists. split; [vm_compute; reflexivity|]. split; [reflexivity|].
  eapply (Mount_without_backend_address emptyCsiConfig (podWorld 100) _ roleRequest
            (podState 100)).
  - vm_compute. reflexivity.
  - reflexivity.
  - vm_compute. reflexivity.
  - vm_compute. reflexivity.
  - vm_compute. reflexivity.
Defined.

End PluginConfigWitness.

(* ===================================================================== *)
(** * Transit and KV requests of the backend client *)
(* ===================================================================== *)

Section ClientLog.
Import Eff GoTime GoStrings GoValues OpenBao.
Context {W : Type} `{Api W} `{Sys W}.

Ltac log_steps :=
  repeat first
    [ apply appending_ret
    | apply appending_Now
    | apply appending_Getenv
    | apply appending_ReadFile
    | apply appending_LogicalRead
    | apply appending_LogicalWrite
    | apply appending_RenewSelf
    | apply appending_bind; [|intros ?]
    | progress cbv zeta
    | match goal with
      | |- appending (if ?b then _ else _) => destruct b
      | |- appending (match ?x with _ => _ end) => destruct x
      end ].

Lemma appending_authenticate (c : Client) : appending (authenticate c).
Proof. unfold authenticate, authenticateKubernetes. log_steps. Qed.

Lemma appending_client_RefreshToken (c : Client) : appending (RefreshToken c).
Proof. unfold RefreshToken. log_steps; apply appending_authenticate. Qed.

(** Authentication and token refresh leave the configuration of the
    client alone. *)
Lemma authenticate_config (c : Client) (p p' : Proc W) (r : option string * Client) :
  authenticate c p = Done (r, p') -> config (snd r) = config c.
Proof.
  unfold authenticate.
  destruct (negb (String.eqb (Token (config c)) EmptyString)); [now intros [= <- _]|].
  destruct (KubernetesAuth (config c)) as [k8sAuth|].
  - unfold authenticateKubernetes, bind, ReadFile, LogicalWrite, Now, call, ret.
    destruct (os_ReadFile _ (world p)) as [jwt|e]; [|now intros [= <- _]].
    destruct (logical_Write _ _ _ (world p)) as [[[secret|]|e] w1];
      [|now intros [= <- _]..].
    destruct (Auth secret) as [auth|]; [|now intros [= <- _]].
    destruct (0 <? LeaseDuration auth); [|now intros [= <- _]].
    cbn beta iota. cbn [world apiLog].
    destruct (time_Now w1) as [now w2]. now intros [= <- _].
  - unfold bind, Getenv, call, ret.
    destruct (negb (String.eqb (os_Getenv "OPENBAO_TOKEN" (world p)) EmptyString));
      [now intros [= <- _]|].
    destruct (negb (String.eqb (os_Getenv "VAULT_TOKEN" (world p)) EmptyString));
      now intros [= <- _].
Qed.

Lemma RefreshToken_config (c : Client) (p p' : Proc W) (r : option string * Client) :
  RefreshToken c p = Done (r, p') -> config (snd r) = config c.
Proof.
  unfold RefreshToken.
  destruct (IsZero (tokenExpiry c)); [now intros [= <- _]|].
  unfold bind at 1. unfold Now at 1. unfold call.
  destruct (time_Now (world p)) as [now w1].
  destruct (5 * Minute <? Until now (tokenExpiry c)); [now intros [= <- _]|].
  unfold bind at 1. unfold RenewSelf, call. cbn [world apiLog].
  destruct (token_RenewSelf (token c) 0 w1) as [[[secret|]|e] w2];
    try (intros Hauth; exact (authenticate_config _ _ _ _ Hauth)).
  destruct secret as [rid sd [auth|]];
    try (intros Hauth; exact (authenticate_config _ _ _ _ Hauth)).
  unfold bind, Now, call, ret. cbn [world apiLog].
  destruct (time_Now w2) as [now' w3]. now intros [= <- _].
Qed.

(** A refresh followed by one write: the write is sent with the token
    the refresh left, after the requests of the refresh, and the
    configuration is kept. *)
Lemma refresh_then_write {A} (c : Client) (path : Client -> string)
  (data : list (string * Value))
  (k : Client -> Result (option Secret) -> M (Proc W) A) (p : Proc W) :
  exists e c1 p0 pre r w,
    RefreshToken c p = Done ((e, c1), p0)
    /\ apiLog p0 = apiLog p ++ pre
    /\ config c1 = config c
    /\ logical_Write (token c1) (path c1) data (world p0) = (r, w)
    /\ (rc <- RefreshToken c ;;
        r <- LogicalWrite (token (snd rc)) (path (snd rc)) data ;;
        k (snd rc) r)%eff p
       = k c1 r {| world := w;
                   apiLog := (apiLog p ++ pre) ++ [ApiWrite (token c1) (path c1) data] |}.
Proof.
  destruct (appending_client_RefreshToken c p) as ([e c1] & p0 & pre & Hrun & Hlog).
  pose proof (RefreshToken_config _ _ _ _ Hrun) as Hcfg. cbn [snd] in Hcfg.
  destruct (logical_Write (token c1) (path c1) data (world p0)) as [r w] eqn:Hw.
  exists e, c1, p0, pre, r, w. repeat split; try assumption.
  unfold bind at 1. rewrite Hrun. cbn [snd].
  unfold bind, LogicalWrite, call. now rewrite Hw, Hlog.
Qed.

(** The same for a read. *)
Lemma refresh_then_read {A} (c : Client) (path : Client -> string)
  (k : Client -> Result (option Secret) -> M (Proc W) A) (p : Proc W) :
  exists e c1 p0 pre r w,
    RefreshToken c p = Done ((e, c1), p0)
    /\ apiLog p0 = apiLog p ++ pre
    /\ config c1 = config c
    /\ logical_Read (token c1) (path c1) (world p0) = (r, w)
    /\ (rc <- RefreshToken c ;;
        r <- LogicalRead (token (snd rc)) (path (snd rc)) ;;
        k (snd rc) r)%eff p
       = k c1 r {| world := w;
                   apiLog := (apiLog p ++ pre) ++ [ApiRead (token c1) (path c1)] |}.
Proof.
  destruct (appending_client_RefreshToken c p) as ([e c1] & p0 & pre & Hrun & Hlog).
  pose proof (RefreshToken_config _ _ _ _ Hrun) as Hcfg. cbn [snd] in Hcfg.
  destruct (logical_Read (token c1) (path c1) (world p0)) as [r w] eqn:Hw.
  exists e, c1, p0, pre, r, w. repeat split; try assumption.
  unfold bind at 1. rewrite Hrun. cbn [snd].
  unfold bind, LogicalRead, call. now rewrite Hw, Hlog.
Qed.

End ClientLog.

Section TransitTheorems.
Import Eff GoTime GoStrings GoValues OpenBao Transit.
Context {W : Type} `{Api W} `{Sys W} `{Base64}.

(** [TransitClient.RotateKey] writes to [transit/keys/<key>/rotate],
    whatever transit mount the client is configured with, while
    [TransitCreateKey] and [TransitEncrypt] address the key on the
    configured mount.  With a mount other than [transit] the rotation
    addresses another path than [<mount>/keys/<key>/rotate]. *)
Theorem RotateKey_ignores_transit_mount (c : Client) (keyName keyType plaintext : string)
  (p : Proc W) :
  (exists e c1 p1 pre,
     RotateKey c keyName p = Done ((e, c1), p1)
     /\ apiLog p1 = apiLog p ++ pre
                    ++ [ApiWrite (token c1) ("transit/keys/" +:+ keyName +:+ "/rotate") []])
  /\ (exists e c1 p1 pre,
        TransitCreateKey c keyName keyType p = Done ((e, c1), p1)
        /\ apiLog p1 = apiLog p ++ pre
                       ++ [ApiWrite (token c1)
                             (TransitMount (config c) +:+ "/keys/" +:+ keyName)
                             (if negb (String.eqb keyType EmptyString)
                              then [("type", VString keyType)] else [])])
  /\ (exists r c1 p1 pre,
        TransitEncrypt c keyName plaintext p = Done ((r, c1), p1)
        /\ apiLog p1 = apiLog p ++ pre
                       ++ [ApiWrite (token c1)
                             (TransitMount (config c) +:+ "/encrypt/" +:+ keyName)
                             [("plaintext", VString (base64_EncodeToString plaintext))]])
  /\ (TransitMount (config c) <> "transit" ->
      "transit/keys/" +:+ keyName +:+ "/rotate"
      <> TransitMount (config c) +:+ "/keys/" +:+ keyName +:+ "/rotate").
Proof.
  split; [|split; [|split]].
  - unfold RotateKey, WriteSecret.
    destruct (refresh_then_write c (fun _ => "transit/keys/" +:+ keyName +:+ "/rotate") []
                (fun c1 r => match r with
                             | Err e => ret (Err ("failed to write secret: " +:+ e), c1)
                             | Ok secret => ret (Ok secret, c1)
                             end) p)
      as (e & c1 & p0 & pre & r & w & _ & _ & _ & _ & Hrun).
    unfold bind at 1.
    change (rc <- RefreshToken c;;
            (let c0 := snd rc in
             r0 <- LogicalWrite (token c0) ("transit/keys/" +:+ keyName +:+ "/rotate") [];;
             match r0 with
             | Ok secret => ret (Ok secret, c0)
             | Err e => ret (Err ("failed to write secret: " +:+ e), c0)
             end))%eff
      with (rc <- RefreshToken c;;
            r0 <- LogicalWrite (token (snd rc)) ("transit/keys/" +:+ keyName +:+ "/rotate") [];;
            match r0 with
            | Ok secret => ret (Ok secret, snd rc)
            | Err e => ret (Err ("failed to write secret: " +:+ e), snd rc)
            end)%eff.
    rewrite Hrun.
    destruct r as [s|e1]; unfold ret; cbn [fst snd]; do 4 eexists;
      (split; [reflexivity | cbn [apiLog]; now rewrite <- app_assoc]).
  - unfold TransitCreateKey. cbv zeta.
    destruct (refresh_then_write c (fun c1 => TransitMount (config c1) +:+ "/keys/" +:+ keyName)
                (if negb (String.eqb keyType EmptyString)
                 then [("type", VString keyType)] else [])
                (fun c1 r => match r with
                             | Err e => ret (Some ("failed to create transit key: " +:+ e), c1)
                             | Ok _ => ret (None, c1)
                             end) p)
      as (e & c1 & p0 & pre & r & w & _ & _ & Hcfg & _ & Hrun).
    rewrite Hrun, Hcfg.
    destruct r as [s|e1]; unfold ret; do 4 eexists;
      (split; [reflexivity | cbn [apiLog]; now rewrite <- app_assoc]).
  - unfold TransitEncrypt. cbv zeta.
    destruct (refresh_then_write c (fun c1 => TransitMount (config c1) +:+ "/encrypt/" +:+ keyName)
                [("plaintext", VString (base64_EncodeToString plaintext))]
                (fun c1 r =>
                   match r with
                   | Err e => ret (Err ("failed to encrypt data: " +:+ e), c1)
                   | Ok None => ret (Err "no data returned from encrypt operation", c1)
                   | Ok (Some secret) =>
                       match SecretData secret with
                       | None => ret (Err "no data returned from encrypt operation", c1)
                       | Some d =>
                           match lookup_entry "ciphertext" d with
                           | Some (VString ciphertext) => ret (Ok ciphertext, c1)
                           | _ => ret (Err "ciphertext not found in response", c1)
                           end
                       end
                   end) p)
      as (e & c1 & p0 & pre & r & w & _ & _ & Hcfg & _ & Hrun).
    rewrite Hrun, Hcfg.
    destruct r as [[s|]|e1];
      [destruct (SecretData s) as [d|];
       [destruct (lookup_entry "ciphertext" d) as [[]|]|]|..];
      unfold ret; do 4 eexists;
      (split; [reflexivity | cbn [apiLog]; now rewrite <- app_assoc]).
  - intros Hmount E. apply Hmount.
    change ("transit/keys/" +:+ keyName +:+ "/rotate")
      with ("transit" +:+ "/keys/" +:+ keyName +:+ "/rotate") in E.
    symmetry. exact (append_inj_r _ _ _ E).
Qed.

(** [KVWrite] wraps the data in an envelope under the key [data] and
    writes it to [<KVMount>/data/<path>]; [KVRead] reads the same path
    and returns the map it finds under [data].  So when the backend
    answers the read with what was written, [KVRead] returns the data
    that was given to [KVWrite]; an answer without a secret is the error
    [secret not found], and an answer without a map under [data] is the
    error [invalid secret format]. *)
Theorem KVRead_unwraps_what_KVWrite_wraps (c : Client) (path : string)
  (data : list (string * Value)) (p : Proc W) :
  exists e c1 p1 pre,
    KVWrite c path data p = Done ((e, c1), p1)
    /\ apiLog p1 = apiLog p ++ pre
                   ++ [ApiWrite (token c1) (KVMount (config c) +:+ "/data/" +:+ path)
                                [("data", VMap data)]]
    /\ forall p', exists r c2 p2 pre' answer,
          KVRead c1 path p' = Done ((r, c2), p2)
          /\ apiLog p2 = apiLog p' ++ pre'
                          ++ [ApiRead (token c2) (KVMount (config c) +:+ "/data/" +:+ path)]
          /\ (exists p0, logical_Read (token c2) (KVMount (config c) +:+ "/data/" +:+ path)
                                      (world p0) = (answer, world p2))
          /\ (forall secret d,
                answer = Ok (Some secret) ->
                SecretData secret = Some d ->
                lookup_entry "data" d = Some (VMap data) ->
                r = Ok data)
          /\ (answer = Ok None -> r = Err ("secret not found: " +:+ path))
          /\ (forall secret d,
                answer = Ok (Some secret) ->
                SecretData secret = Some d ->
                lookup_entry "data" d = None ->
                r = Err "invalid secret format").
Proof.
  unfold KVWrite. cbv zeta.
  destruct (refresh_then_write c (fun c1 => KVMount (config c1) +:+ "/data/" +:+ path)
              [("data", VMap data)]
              (fun c1 r => match r with
                           | Err e => ret (Some ("failed to write secret: " +:+ e), c1)
                           | Ok _ => ret (None, c1)
                           end) p)
    as (e & c1 & p0 & pre & r & w & _ & _ & Hcfg & _ & Hrun).
  rewrite Hrun, Hcfg.
  assert (Hread : forall p', exists r c2 p2 pre' answer,
          KVRead c1 path p' = Done ((r, c2), p2)
          /\ apiLog p2 = apiLog p' ++ pre'
                          ++ [ApiRead (token c2) (KVMount (config c) +:+ "/data/" +:+ path)]
          /\ (exists p0, logical_Read (token c2) (KVMount (config c) +:+ "/data/" +:+ path)
                                      (world p0) = (answer, world p2))
          /\ (forall secret d,
                answer = Ok (Some secret) ->
                SecretData secret = Some d ->
                lookup_entry "data" d = Some (VMap data) ->
                r = Ok data)
          /\ (answer = Ok None -> r = Err ("secret not found: " +:+ path))
          /\ (forall secret d,
                answer = Ok (Some secret) ->
                SecretData secret = Some d ->
                lookup_entry "data" d = None ->
                r = Err "invalid secret format")).
  { intros p'. unfold KVRead. cbv zeta.
    destruct (refresh_then_read c1 (fun c2 => KVMount (config c2) +:+ "/data/" +:+ path)
                (fun c2 r =>
                   match r with
                   | Err e => ret (Err ("failed to read secret: " +:+ e), c2)
                   | Ok None => ret (Err ("secret not found: " +:+ path), c2)
                   | Ok (Some secret) =>
                       match SecretData secret with
                       | None => ret (Err ("secret not found: " +:+ path), c2)
                       | Some d =>
                           match lookup_entry "data" d with
                           | Some (VMap data) => ret (Ok data, c2)
                           | _ => ret (Err "invalid secret format", c2)
                           end
                       end
                   end) p')
      as (e' & c2 & p0' & pre' & answer & w' & _ & _ & Hcfg' & Hanswer & Hrun').
    rewrite Hrun'. rewrite Hcfg', Hcfg in Hanswer |- *.
    destruct answer as [[secret|]|e1].
    - destruct (SecretData secret) as [d|] eqn:Hd.
      + destruct (lookup_entry "data" d) as [v|] eqn:Hv.
        * destruct v; unfold ret; do 5 eexists;
            (split; [reflexivity|]); (split; [cbn [apiLog]; now rewrite <- app_assoc|]);
            (split; [exists p0'; exact Hanswer|]);
            (split; [intros s0 d0 [= <-] Hd0 Hv0; congruence|]);
            (split; [discriminate|]); intros s0 d0 [= <-] Hd0 Hv0; congruence.
        * unfold ret; do 5 eexists.
          split; [reflexivity|]. split; [cbn [apiLog]; now rewrite <- app_assoc|].
          split; [exists p0'; exact Hanswer|].
          split; [intros s0 d0 [= <-] Hd0 Hv0; congruence|].
          split; [discriminate|]. reflexivity.
      + unfold ret; do 5 eexists.
        split; [reflexivity|]. split; [cbn [apiLog]; now rewrite <- app_assoc|].
        split; [exists p0'; exact Hanswer|].
        split; [intros s0 d0 [= <-] Hd0 Hv0; congruence|].
        split; [discriminate|]. intros s0 d0 [= <-] Hd0 Hv0; congruence.
    - unfold ret; do 5 eexists.
      split; [reflexivity|]. split; [cbn [apiLog]; now rewrite <- app_assoc|].
      split; [exists p0'; exact Hanswer|].
      split; [discriminate|]. split; [reflexivity | discriminate].
    - unfold ret; do 5 eexists.
      split; [reflexivity|]. split; [cbn [apiLog]; now rewrite <- app_assoc|].
      split; [exists p0'; exact Hanswer|].
      split; [discriminate|]. split; discriminate. }
  destruct r as [s|e1]; unfold ret; do 4 eexists;
    (split; [reflexivity|]); (split; [cbn [apiLog]; now rewrite <- app_assoc | exact Hread]).
Qed.

End TransitTheorems.

(* ===================================================================== *)
(** * The health check on the transit client *)
(* ===================================================================== *)

Section TransitClientFacts.
Import Eff GoTime GoStrings GoValues OpenBao Transit.
Context {W : Type} `{Api W} `{Sys W} `{Base64}.

(** [TransitGetKeyInfo] always returns; the key information it returns
    bears the name that was asked for and the version 0, whatever the
    backend answered. *)
Lemma TransitGetKeyInfo_version (c : Client) (keyName : string) (p : Proc W) :
  exists r c1 p1,
    TransitGetKeyInfo c keyName p = Done ((r, c1), p1)
    /\ forall info, r = Ok info -> Name info = keyName /\ LatestVersion info = 0.
Proof.
  unfold TransitGetKeyInfo.
  destruct (appending_client_RefreshToken c p) as ([e c1] & p0 & pre & Hrun & _).
  unfold bind at 1. rewrite Hrun. cbn [snd]. cbv zeta.
  unfold bind, LogicalRead, call.
  destruct (logical_Read (token c1) _ (world p0)) as [r w].
  destruct r as [[secret|]|e']; unfold ret;
    try (do 3 eexists; split; [reflexivity|discriminate]).
  destruct (SecretData secret) as [d|]; [|do 3 eexists; split; [reflexivity|discriminate]].
  do 3 eexists. split; [reflexivity|].
  intros info [= <-]. cbn [Name LatestVersion]. split; [reflexivity|].
  destruct (lookup_entry "latest_version" d) as [v|]; [|reflexivity].
  now destruct v.
Qed.

(** The same for [TransitClient.GetKeyInfo]. *)
Lemma GetKeyInfo_version (c : Client) (keyName : string) (p : Proc W) :
  exists r c1 p1,
    GetKeyInfo c keyName p = Done ((r, c1), p1)
    /\ forall info, r = Ok info
                    -> KMS.Name info = keyName /\ KMS.LatestVersion info = 0.
Proof.
  destruct (TransitGetKeyInfo_version c keyName p) as (r & c1 & p1 & Hrun & Hinfo).
  unfold GetKeyInfo, bind. rewrite Hrun. cbn [fst snd].
  destruct r as [info|e]; unfold ret.
  - do 3 eexists. split; [reflexivity|].
    intros info' [= <-]. cbn [KMS.Name KMS.LatestVersion]. exact (Hinfo info eq_refl).
  - do 3 eexists. split; [reflexivity | discriminate].
Qed.

Ltac returning_steps :=
  repeat first
    [ apply appending_ret
    | apply appending_Now
    | apply appending_LogicalRead
    | apply appending_LogicalWrite
    | apply appending_client_RefreshToken
    | apply appending_bind; [|intros ?]
    | progress cbv zeta
    | match goal with
      | |- appending (if ?b then _ else _) => destruct b
      | |- appending (match ?x with _ => _ end) => destruct x
      end ].

(** The operations of the transit client always return. *)
Lemma transit_operations_return (c : Client) (keyName text : string) (p : Proc W) :
  (exists a, GetKeyInfo c keyName p = Done a)
  /\ (exists a, CreateKey c keyName text p = Done a)
  /\ (exists a, Encrypt c keyName text p = Done a)
  /\ (exists a, Decrypt c keyName text p = Done a).
Proof.
  assert (Hdone : forall {A} (op : M (Proc W) A), appending op -> exists a, op p = Done a).
  { intros A op Hop. destruct (Hop p) as (a & p' & pre & Hrun & _). now exists (a, p'). }
  split; [|split; [|split]]; apply Hdone.
  - unfold GetKeyInfo, TransitGetKeyInfo. returning_steps.
  - unfold CreateKey, TransitCreateKey. returning_steps.
  - unfold Encrypt, TransitEncrypt. returning_steps.
  - unfold Decrypt, TransitDecrypt. returning_steps.
Qed.

(** Whatever the backend answers, a health check of a server on the
    transit client returns, and a successful one leaves the key id
    [name:v0]: the version the backend reports never reaches the key
    id. *)
Lemma performHealthCheck_on_client (s : KMS.Server) (cs : ClientState W) :
  exists s' cs',
    KMS.performHealthCheck (H := transitClient) s cs = Done (s', cs')
    /\ KMS.config s' = KMS.config s
    /\ (KMS.healthy s' = true ->
        KMS.keyID s' = KMS.formatKeyID (KMS.KeyName (KMS.config s)) 0)
    /\ (KMS.healthy s' = false -> KMS.keyID s' = KMS.keyID s).
Proof.
  unfold KMS.performHealthCheck, KMS.GetKeyInfo, bind, call.
  cbn [KMS.transit_GetKeyInfo transitClient]. unfold runOp.
  destruct (GetKeyInfo_version (client cs) (KMS.KeyName (KMS.config s)) (process cs))
    as (r & c1 & p1 & Hrun & Hinfo).
  rewrite Hrun. destruct r as [info|e]; unfold ret.
  - do 2 eexists. split; [reflexivity|]. cbn [KMS.config KMS.healthy KMS.keyID].
    destruct (Hinfo info eq_refl) as [_ ->].
    split; [reflexivity|]. split; [|discriminate]. intros _.
    destruct (String.eqb_spec (KMS.formatKeyID (KMS.KeyName (KMS.config s)) 0) (KMS.keyID s))
      as [E|_]; cbn [negb]; congruence.
  - do 2 eexists. split; [reflexivity|]. cbn [KMS.config KMS.healthy KMS.keyID].
    split; [reflexivity|]. split; [discriminate | reflexivity].
Qed.

End TransitClientFacts.

Section KeyRotation.
Import Eff GoTime GoValues OpenBao Lab.

(** C2.  The claim fails on the code: the key id does not follow the
    version of the key.  The backend holds the key [etcd-key] at the
    version 1; the health check of the initialized server succeeds and
    reports the key id [etcd-key:v0].  The key is rotated to the version
    2; the next health check reads the key again, succeeds, and still
    reports [etcd-key:v0], where the claim has [etcd-key:v1] and then
    [etcd-key:v2]. *)
Theorem performHealthCheck_misses_key_rotation :
  let cfg := {| KMS.KeyName := "etcd-key"; KMS.KeyType := "aes256-gcm96";
                KMS.CreateKeyIfNotExists := false |} in
  let check := KMS.performHealthCheck (H := Transit.transitClient) in
  let backend (cs : Transit.ClientState KeyBackend) := world (Transit.process cs) in
  exists s0 cs0 s1 cs1 cs2 s2 cs3,
    KMS.initialize (H := Transit.transitClient) (KMS.newServer cfg) (keyClientAt 1)
    = Done ((None, s0), cs0)
    /\ check s0 cs0 = Done (s1, cs1)
    /\ Transit.runOp (fun c => Transit.RotateKey c "etcd-key") (Some "aborted") cs1
       = (None, cs2)
    /\ check s1 cs2 = Done (s2, cs3)
    /\ keyVersion (backend cs1) = 1
    /\ logical_Read "s.root" "transit/keys/etcd-key" (backend cs1)
       = (Ok (Some (keySecret 1)), backend cs1)
    /\ keyVersion (backend cs3) = 2
    /\ logical_Read "s.root" "transit/keys/etcd-key" (backend cs3)
       = (Ok (Some (keySecret 2)), backend cs3)
    /\ apiLog (Transit.process cs3)
       = [ApiRead "s.root" "transit/keys/etcd-key";
          ApiRead "s.root" "transit/keys/etcd-key";
          ApiWrite "s.root" "transit/keys/etcd-key/rotate" [];
          ApiRead "s.root" "transit/keys/etcd-key"]
    /\ KMS.healthy s1 = true /\ KMS.healthy s2 = true
    /\ KMS.KeyId (KMS.Status s1) = "etcd-key:v0"
    /\ KMS.KeyId (KMS.Status s2) = "etcd-key:v0"
    /\ KMS.KeyId (KMS.Status s1) <> KMS.formatKeyID "etcd-key" 1
    /\ KMS.KeyId (KMS.Status s2) <> KMS.formatKeyID "etcd-key" 2.
Proof.
  cbn zeta. do 7 eexists.
  split; [vm_compute; reflexivity|].
  split; [vm_compute; reflexivity|].
  split; [vm_compute; reflexivity|].
  split; [vm_compute; reflexivity|].
  repeat split; try (vm_compute; discriminate).
Qed.

End KeyRotation.

(* ===================================================================== *)
(** * The reconcilers: deletion, suspension, the target Secret *)
(* ===================================================================== *)

Section FinalizerFacts.
Import K8s.

Lemma RemoveFinalizer_removes (fs : list string) (f : string) :
  ContainsFinalizer (RemoveFinalizer fs f) f = false.
Proof.
  unfold ContainsFinalizer, RemoveFinalizer.
  induction fs as [|g fs IH]; [reflexivity|].
  cbn [List.filter]. destruct (String.eqb_spec g f) as [->|Hne]; cbn [negb]; [exact IH|].
  cbn [existsb]. rewrite IH.
  destruct (String.eqb_spec f g) as [->|_]; [contradiction | reflexivity].
Qed.

Lemma RemoveFinalizer_keeps_others (fs : list string) (f g : string) :
  g <> f -> ContainsFinalizer (RemoveFinalizer fs f) g = ContainsFinalizer fs g.
Proof.
  intros Hne. unfold ContainsFinalizer, RemoveFinalizer.
  induction fs as [|h fs IH]; [reflexivity|].
  cbn [List.filter existsb]. destruct (String.eqb_spec h f) as [->|Hhf]; cbn [negb].
  - rewrite IH. destruct (String.eqb_spec g f); [contradiction | reflexivity].
  - cbn [existsb]. now rewrite IH.
Qed.

End FinalizerFacts.

Section PolicyDeletion.
Import Eff GoTime K8s OpenBao Policy.
Context {W : Type} `{Api W} `{Sys W} `{Cluster W BaoPolicy}.

(** The reconcile of a BaoPolicy that is being deleted sends nothing to
    the backend: the policy that earlier reconciles wrote stays there.
    The reconciler only takes its finalizer off the object (the other
    finalizers stay), with one cluster update, and the result asks for
    no requeue; without the finalizer it does nothing at all. *)
Theorem BaoPolicy_deletion_keeps_backend_policy (visit : RangeOrders)
  (baoClient : option Client) (ns name : string) (st : Proc W) (p : BaoPolicy) (w1 : W) :
  k8s_Get ns name (world st) = (Found p, w1) ->
  timestampIsZero (DeletionTimestamp p) = false ->
  exists e st',
    Reconcile visit baoClient ns name st = Done ((NoRequeue, e, baoClient), st')
    /\ apiLog st' = apiLog st
    /\ (ContainsFinalizer (Finalizers p) baoPolicyFinalizer = false ->
        e = None /\ world st' = w1)
    /\ (ContainsFinalizer (Finalizers p) baoPolicyFinalizer = true ->
        let p' := setFinalizers p (RemoveFinalizer (Finalizers p) baoPolicyFinalizer) in
        (e, world st') = k8s_Update p' w1
        /\ ContainsFinalizer (Finalizers p') baoPolicyFinalizer = false
        /\ forall g, g <> baoPolicyFinalizer ->
                     ContainsFinalizer (Finalizers p') g = ContainsFinalizer (Finalizers p) g).
Proof.
  intros Hget Hdel.
  unfold Reconcile. unfold bind at 1. unfold Get, call. rewrite Hget, Hdel. cbn [negb].
  unfold handleDeletion.
  destruct (ContainsFinalizer (Finalizers p) baoPolicyFinalizer) eqn:Hfin.
  - unfold bind, Update, call, ret. cbn [world apiLog].
    destruct (k8s_Update _ w1) as [[e|] w2] eqn:Hupd;
      do 2 eexists; (split; [reflexivity|]); (split; [reflexivity|]);
      (split; [discriminate|]); intros _; cbn zeta; cbn [Finalizers setFinalizers world];
      (split; [reflexivity|]);
      (split; [apply RemoveFinalizer_removes | intros g Hg; now apply RemoveFinalizer_keeps_others]).
  - unfold bind, ret. do 2 eexists. split; [reflexivity|]. split; [reflexivity|].
    split; [now split | discriminate].
Qed.

End PolicyDeletion.

Section SecretSuspension.
Import Eff GoTime K8s OpenBao Template SecretSync.
Context {W : Type} `{Api W} `{Sys W} `{Cluster W} `{GoLib}.

(** While [suspendSync] is set, a reconcile of a live BaoSecret reads
    nothing from the backend and asks for no requeue: it records the
    condition Ready = False with the reason SyncSuspended, and the next
    reconcile comes only with the next change of the object. *)
Theorem BaoSecret_suspended_sync_sends_nothing (fuel : nat) (rng : Ranges)
  (baoClient : option Client) (ns name : string) (st : Proc W) (b : BaoSecret) (w1 : W) :
  k8s_Get ns name (world st) = (Found b, w1) ->
  Policy.timestampIsZero (DeletionTimestamp b) = true ->
  SuspendSync (Spec b) = true ->
  exists e st',
    Reconcile fuel rng baoClient ns name st = Done ((NoRequeue, e, baoClient), st')
    /\ apiLog st' = apiLog st
    /\ (ContainsFinalizer (Finalizers b) baoSecretFinalizer = true ->
        forall now w2,
          time_Now w1 = (now, w2) ->
          (e, world st')
          = k8s_StatusUpdate (setConditionOf now b ConditionTypeReady ConditionFalse
                                             ReasonSyncSuspended "Sync is suspended") w2).
Proof.
  intros Hget Hlive Hsus.
  unfold Reconcile. unfold bind at 1. unfold Get, call. rewrite Hget, Hlive. cbn [negb].
  destruct (ContainsFinalizer (Finalizers b) baoSecretFinalizer) eqn:Hfin; cbn [negb].
  - unfold bind at 1. unfold ret at 1. rewrite Hsus.
    unfold bind, Now, StatusUpdate, call, ret. cbn [world apiLog].
    destruct (time_Now w1) as [now w2]. cbn [world apiLog].
    match goal with
    | |- context [k8s_StatusUpdate ?o ?w] =>
        destruct (k8s_StatusUpdate o w) as [[e|] w3] eqn:Hupd
    end;
      do 2 eexists; (split; [reflexivity|]); (split; [reflexivity|]);
      intros _ now' w2' [= <- <-]; cbn [world]; now rewrite Hupd.
  - unfold bind at 1. unfold Update, call. cbn [world apiLog].
    match goal with
    | |- context [k8s_Update ?o ?w] => destruct (k8s_Update o w) as [[e|] w2]
    end.
    + do 2 eexists. split; [reflexivity|]. split; [reflexivity | discriminate].
    + cbn [Spec setFinalizers]. rewrite Hsus.
      unfold bind, Now, StatusUpdate, call, ret. cbn [world apiLog].
      destruct (time_Now w2) as [now w3]. cbn [world apiLog].
      match goal with
      | |- context [k8s_StatusUpdate ?o ?w] =>
          destruct (k8s_StatusUpdate o w) as [[e|] w4]
      end;
        do 2 eexists; (split; [reflexivity|]); (split; [reflexivity | discriminate]).
Qed.

(** The owner reference of the target Secret.  It is set, to the
    BaoSecret, only under the creation policy Owner (or none) and only
    when the Secret lives in the namespace of the BaoSecret; a Secret in
    another namespace, or under another policy, keeps whatever
    controller it had, so it is not garbage collected with the
    BaoSecret.  The mutation fails only when the reference is to be set
    and the Secret is controlled by another owner. *)
Theorem mutateSecret_owner_reference (baoSecret : BaoSecret)
  (targetNamespace version : string) (data : gmap string string) (secret : K8sSecret) :
  let policy := CreationPolicy (Target (Spec baoSecret)) in
  let owned := (String.eqb policy "Owner" || String.eqb policy EmptyString)
               && String.eqb targetNamespace (Namespace baoSecret) in
  (owned = false ->
   exists secret', mutateSecret baoSecret targetNamespace version data secret = Ok secret'
                   /\ Controller secret' = Controller secret)
  /\ (owned = true ->
      (Controller secret = None \/ Controller secret = Some (Namespace baoSecret, Name baoSecret)) ->
      exists secret', mutateSecret baoSecret targetNamespace version data secret = Ok secret'
                      /\ Controller secret' = Some (Namespace baoSecret, Name baoSecret))
  /\ (owned = true ->
      forall other, Controller secret = Some other ->
                    other <> (Namespace baoSecret, Name baoSecret) ->
                    mutateSecret baoSecret targetNamespace version data secret
                    = Err "Object is already owned by another controller").
Proof.
  cbn zeta. unfold mutateSecret.
  destruct (String.eqb (CreationPolicy (Target (Spec baoSecret))) "Owner"
            || String.eqb (CreationPolicy (Target (Spec baoSecret))) EmptyString);
    cbn [andb].
  2:{ split; [intros _; eexists; split; reflexivity|]. split; discriminate. }
  destruct (String.eqb targetNamespace (Namespace baoSecret)).
  2:{ split; [intros _; eexists; split; reflexivity|]. split; discriminate. }
  split; [discriminate|]. unfold SetControllerReference. cbn [Controller fst snd].
  split.
  - intros _ [Hc|Hc]; rewrite Hc.
    + eexists; split; reflexivity.
    + cbn [fst snd]. rewrite !String.eqb_refl. eexists; split; reflexivity.
  - intros _ [ons oname] Hc Hother. rewrite Hc. cbn [fst snd].
    destruct (String.eqb_spec ons (Namespace baoSecret)) as [->|_]; [|reflexivity].
    destruct (String.eqb_spec oname (Name baoSecret)) as [->|_]; [|reflexivity].
    contradiction.
Qed.

(** What a successful mutation leaves in the target Secret: the data is
    replaced as a whole; a label of the target specification wins over
    the two labels of the operator, which win over the labels the
    Secret had, and the labels that none of them names are kept; the
    annotations follow the same order; the type is the one of the
    specification, Opaque when it names none. *)
Theorem mutateSecret_labels_and_data (baoSecret : BaoSecret)
  (targetNamespace version : string) (data : gmap string string)
  (secret secret' : K8sSecret) :
  mutateSecret baoSecret targetNamespace version data secret = Ok secret' ->
  let target := Target (Spec baoSecret) in
  ObjData secret' = data
  /\ ObjName secret' = ObjName secret
  /\ ObjNamespace secret' = ObjNamespace secret
  /\ ObjType secret' = (if String.eqb (TargetType target) EmptyString
                        then "Opaque" else TargetType target)
  /\ (forall k,
        ObjLabels secret' !! k
        = match Labels target !! k with
          | Some v => Some v
          | None =>
              if String.eqb k "kubebao.io/baosecret" then Some (Name baoSecret)
              else if String.eqb k "kubebao.io/managed-by" then Some "kubebao-operator"
              else ObjLabels secret !! k
          end)
  /\ (forall k,
        ObjAnnotations secret' !! k
        = match Annotations target !! k with
          | Some v => Some v
          | None =>
              if String.eqb k "kubebao.io/version" then Some version
              else if String.eqb k "kubebao.io/source-path" then Some (SecretPath (Spec baoSecret))
              else ObjAnnotations secret !! k
          end).
Proof.
  intros Hmut. cbn zeta.
  assert (Hlookup : forall (m base : gmap string string) (k1 v1 k2 v2 k : string),
             (m ∪ <[k1 := v1]> (<[k2 := v2]> base)) !! k
             = match m !! k with
               | Some v => Some v
               | None => if String.eqb k k1 then Some v1
                         else if String.eqb k k2 then Some v2 else base !! k
               end).
  { intros m base k1 v1 k2 v2 k. rewrite lookup_union.
    destruct (m !! k) as [v|] eqn:Hm.
    - now destruct (<[k1:=v1]> (<[k2:=v2]> base) !! k).
    - rewrite (left_id None _).
      destruct (String.eqb_spec k k1) as [->|Hk1]; [apply lookup_insert_eq|].
      rewrite lookup_insert_ne by congruence.
      destruct (String.eqb_spec k k2) as [->|Hk2]; [apply lookup_insert_eq|].
      now rewrite lookup_insert_ne by congruence. }
  unfold mutateSecret in Hmut.
  set (result := {| ObjName := ObjName secret |}) in Hmut.
  assert (Hres : ObjData result = data
                 /\ ObjName result = ObjName secret
                 /\ ObjNamespace result = ObjNamespace secret
                 /\ ObjType result = (if String.eqb (TargetType (Target (Spec baoSecret))) EmptyString
                                      then "Opaque" else TargetType (Target (Spec baoSecret)))
                 /\ ObjLabels result
                    = Labels (Target (Spec baoSecret))
                      ∪ <["kubebao.io/baosecret" := Name baoSecret]>
                          (<["kubebao.io/managed-by" := "kubebao-operator"]> (ObjLabels secret))
                 /\ ObjAnnotations result
                    = Annotations (Target (Spec baoSecret))
                      ∪ <["kubebao.io/version" := version]>
                          (<["kubebao.io/source-path" := SecretPath (Spec baoSecret)]>
                             (ObjAnnotations secret))).
  { subst result. cbn [ObjData ObjName ObjNamespace ObjType ObjLabels ObjAnnotations].
    repeat split. now destruct (String.eqb (TargetType (Target (Spec baoSecret))) EmptyString). }
  clearbody result.
  assert (Hsame : ObjData secret' = ObjData result
                  /\ ObjName secret' = ObjName result
                  /\ ObjNamespace secret' = ObjNamespace result
                  /\ ObjType secret' = ObjType result
                  /\ ObjLabels secret' = ObjLabels result
                  /\ ObjAnnotations secret' = ObjAnnotations result).
  { destruct (String.eqb (CreationPolicy (Target (Spec baoSecret))) "Owner"
              || String.eqb (CreationPolicy (Target (Spec baoSecret))) EmptyString).
    - destruct (String.eqb targetNamespace (Namespace baoSecret)).
      + unfold SetControllerReference in Hmut.
        destruct (Controller result) as [r|].
        * destruct (String.eqb (fst r) _ && String.eqb (snd r) _); [|discriminate].
          injection Hmut as <-. now repeat split.
        * injection Hmut as <-. now repeat split.
      + injection Hmut as <-. now repeat split.
    - injection Hmut as <-. now repeat split. }
  destruct Hres as (R1 & R2 & R3 & R4 & R5 & R6).
  destruct Hsame as (S1 & S2 & S3 & S4 & S5 & S6).
  split; [congruence|]. split; [congruence|]. split; [congruence|]. split; [congruence|].
  split; intros k; [rewrite S5, R5 | rewrite S6, R6]; apply Hlookup.
Qed.

End SecretSuspension.

Section DeletionWitness.
Import Eff GoTime K8s OpenBao Lab.

(** The policy [reports] is being deleted: the reconcile removes the
    finalizer of the operator, keeps the other one and sends nothing to
    the backend. *)
Lemma BaoPolicy_deletion_keeps_backend_policy_witness :
  exists st',
    Policy.Reconcile Samples.listedOrder (Some operatorClient) "team-a" "reports" clusterProc
    = Done ((NoRequeue, None, Some operatorClient), st')
    /\ apiLog st' = []
    /\ policyObject (world st')
       = Some (Policy.setFinalizers deletedPolicy ["example.com/audit"]).
Proof.
  assert (Hget : Policy.k8s_Get "team-a" "reports" (world clusterProc)
                 = (Found deletedPolicy, clusterWorld)) by reflexivity.
  destruct (BaoPolicy_deletion_keeps_backend_policy Samples.listedOrder (Some operatorClient)
              "team-a" "reports" clusterProc deletedPolicy clusterWorld Hget eq_refl)
    as (e & st' & Hrun & Hlog & _ & Hfin).
  destruct (Hfin eq_refl) as (Hupd & _ & _).
  injection Hupd as -> Hw.
  exists st'. split; [exact Hrun|]. split; [exact Hlog|].
  rewrite Hw. reflexivity.
Defined.

End DeletionWitness.

Section SuspensionWitness.
Import Eff GoTime K8s OpenBao SecretSync Lab.

(** The suspended resource [tokens]: the reconcile records the
    condition and sends nothing to the backend. *)
Lemma BaoSecret_suspended_sync_sends_nothing_witness :
  exists st',
    Reconcile 10 Samples.listedRanges (Some operatorClient) "team-a" "tokens" clusterProc
    = Done ((NoRequeue, None, Some operatorClient), st')
    /\ apiLog st' = []
    /\ secretObject (world st')
       = Some (setConditionOf 1000 suspendedSecret ConditionTypeReady ConditionFalse
                              ReasonSyncSuspended "Sync is suspended").
Proof.
  assert (Hget : k8s_Get "team-a" "tokens" (world clusterProc)
                 = (Found suspendedSecret, clusterWorld)) by reflexivity.
  destruct (BaoSecret_suspended_sync_sends_nothing 10 Samples.listedRanges
              (Some operatorClient) "team-a" "tokens" clusterProc suspendedSecret
              clusterWorld Hget eq_refl eq_refl)
    as (e & st' & Hrun & Hlog & Hstatus).
  specialize (Hstatus eq_refl 1000 clusterWorld eq_refl).
  injection Hstatus as -> Hw.
  exists st'. split; [exact Hrun|]. split; [exact Hlog|].
  rewrite Hw. reflexivity.
Defined.

(** The mutation of an existing target Secret for the resource
    [tokens]: the label of the target specification wins over the label
    of the operator, the label of the object stays. *)
Lemma mutateSecret_labels_and_data_witness :
  exists secret',
    mutateSecret suspendedSecret "team-a" "v7" {[ "token" := "t-api" ]} existingTarget
    = Ok secret'
    /\ ObjData secret' = {[ "token" := "t-api" ]}
    /\ ObjLabels secret' !! "kubebao.io/managed-by" = Some "team-a"
    /\ ObjLabels secret' !! "kubebao.io/baosecret" = Some "tokens"
    /\ ObjLabels secret' !! "app" = Some "reports"
    /\ ObjAnnotations secret' !! "kubebao.io/source-path" = Some "app/tokens".
Proof.
  eexists. split; [vm_compute; reflexivity|].
  destruct (mutateSecret_labels_and_data suspendedSecret "team-a" "v7"
              {[ "token" := "t-api" ]} existingTarget _ ltac:(vm_compute; reflexivity))
    as (Hdata & _ & _ & _ & Hlabels & Hannot).
  split; [exact Hdata|].
  split; [rewrite Hlabels; vm_compute; reflexivity|].
  split; [rewrite Hlabels; vm_compute; reflexivity|].
  split; [rewrite Hlabels; vm_compute; reflexivity|].
  rewrite Hannot. vm_compute. reflexivity.
Defined.

End SuspensionWitness.

(* ===================================================================== *)
(** * The provider: what a mount request can lead to *)
(* ===================================================================== *)

Section MountInvariants.
Import Eff GoTime GoStrings GoValues OpenBao CSI.
Context {W : Type} `{Api W} `{Sys W} `{CsiLib}.
Variable cfg : Config.

(** ** Parameters *)

(** The parameters [parseMountParams] returns hold at least one object. *)
Lemma parseMountParams_objects (attribs : option (gmap string string))
  (params : MountParams) :
  parseMountParams cfg attribs = Ok params -> Objects params <> [].
Proof.
  unfold parseMountParams.
  destruct attribs as [m|]; [|discriminate].
  destruct (match m !! "objects" with
            | Some objectsStr => _
            | None => Ok []
            end) as [objects|e]; [|discriminate].
  cbn [RoleName Objects].
  destruct (String.eqb _ EmptyString); [discriminate|].
  destruct objects as [|obj objects]; [discriminate|]. cbn [length Nat.eqb].
  now intros [= <-].
Qed.

(** [parseMountParams] refuses a nil attribute map and returns only
    parameters that name a role and at least one object.  An attribute
    overrides the configured default also when its value is empty: a
    request with an empty [roleName] attribute is refused even when a
    default role is configured.  The objects are taken from the YAML
    reading of the [objects] attribute whenever that reading succeeds. *)
Theorem parseMountParams_accepts (attribs : option (gmap string string)) :
  parseMountParams cfg None = Err "attributes are required"
  /\ (forall params,
        parseMountParams cfg attribs = Ok params ->
        exists m,
          attribs = Some m
          /\ RoleName params <> EmptyString
          /\ Objects params <> []
          /\ RoleName params = match m !! "roleName" with
                               | Some v => v
                               | None => DefaultRole cfg
                               end
          /\ AuthMethod params = match m !! "authMethod" with
                                 | Some v => v
                                 | None => DefaultAuthMethod cfg
                                 end
          /\ AuthMountPath params = match m !! "authMountPath" with
                                    | Some v => v
                                    | None => "kubernetes"
                                    end)
  /\ (forall m, attribs = Some m -> m !! "roleName" = Some EmptyString ->
                exists e, parseMountParams cfg attribs = Err e)
  /\ (forall m text objects params,
        attribs = Some m -> m !! "objects" = Some text ->
        yaml_Unmarshal_objects text = Ok objects ->
        parseMountParams cfg attribs = Ok params ->
        Objects params = objects).
Proof.
  split; [reflexivity|]. split; [|split].
  - intros params. unfold parseMountParams.
    destruct attribs as [m|]; [|discriminate].
    destruct (match m !! "objects" with
              | Some objectsStr => _
              | None => Ok []
              end) as [objects|e]; [|discriminate].
    cbn [RoleName Objects].
    destruct (String.eqb_spec (match m !! "roleName" with
                               | Some v => v
                               | None => DefaultRole cfg
                               end) EmptyString) as [|Hrole]; [discriminate|].
    destruct objects as [|obj objects]; [discriminate|]. cbn [length Nat.eqb].
    intros [= <-]. exists m. cbn [RoleName Objects AuthMethod AuthMountPath].
    now repeat split.
  - intros m -> Hrole. unfold parseMountParams. rewrite Hrole.
    destruct (match m !! "objects" with
              | Some objectsStr => _
              | None => Ok []
              end) as [objects|e]; [|now exists e].
    cbn [RoleName String.eqb]. now eexists.
  - intros m text objects params -> Htext Hyaml. unfold parseMountParams.
    rewrite Htext, Hyaml. cbn [RoleName Objects].
    destruct (String.eqb _ EmptyString); [discriminate|].
    destruct (length objects =? 0)%nat; [discriminate|].
    now intros [= <-].
Qed.

(** ** Runs of fetches *)

Lemma fetch_run_objects (c c' : AuthenticatedClient) (objs : list SecretObject) (st st' : St W)
  (outs : list (SecretObject * Result FetchedSecret)) :
  fetch_run cfg c objs st outs c' st' -> List.map fst outs = objs.
Proof. induction 1; cbn [List.map fst]; congruence. Qed.

Lemma fetched_all (outs : list (SecretObject * Result FetchedSecret)) :
  failures outs = [] -> length (fetched outs) = length outs.
Proof.
  induction outs as [|[obj [s|e]] outs IH]; cbn [failures fetched length]; intros Hnone.
  - reflexivity.
  - now rewrite IH.
  - discriminate.
Qed.

(** What [Mount] went through when it answers without an error code. *)
Lemma Mount_success_run (req : MountRequest) (st st' : St W) (resp : MountResponse)
  (err : option string) :
  Mount cfg req st = Done ((resp, err), st') ->
  RespError resp = None ->
  exists attribs params client p1 outs c',
    requestAttributes req = (attribs, None)
    /\ parseMountParams cfg attribs = Ok params
    /\ authenticate cfg params (requestSecrets req) (proc st) = Done (Ok client, p1)
    /\ fetch_run cfg client (Objects params) {| proc := p1; entries := entries st |} outs c' st'
    /\ failures outs = []
    /\ Files resp = List.map (fun s => {| FilePath := FetchedName s; FileMode := Mode s;
                                          Contents := Content s |}) (fetched outs)
    /\ RespObjectVersion resp
       = List.map (fun s => {| Id := FetchedName s; ObjVersion := Version s |}) (fetched outs).
Proof.
  unfold Mount.
  destruct (requestAttributes req) as [attribs [e|]] eqn:Hattr;
    [intros [= <- _ _]; discriminate|].
  destruct (parseMountParams cfg attribs) as [params|e] eqn:Hparams;
    [|intros [= <- _ _]; discriminate].
  unfold bind at 1. unfold liftProc.
  destruct (authenticate cfg params (requestSecrets req) (proc st))
    as [[[client|e] p1]| |] eqn:Hauth; try discriminate; [|intros [= <- _ _]; discriminate].
  unfold bind.
  destruct (FetchSecrets cfg client (Objects params) _) as [[[secrets msg] st2]| |] eqn:Hfetch;
    try discriminate.
  cbn [fst snd]. destruct msg as [msg|]; [intros [= <- _ _]; discriminate|].
  pose proof (buildResponse_maps secrets [] []) as Hb.
  destruct (buildResponse secrets [] []) as [files versions].
  cbn [app] in Hb. injection Hb as -> ->. unfold ret. intros [= <- _ <-] _.
  assert (Hloop : exists r, fetchLoop cfg client (Objects params) [] []
                              {| proc := p1; entries := entries st |} = Done (r, st2)).
  { revert Hfetch. unfold FetchSecrets, bind.
    destruct (fetchLoop cfg client (Objects params) [] [] _) as [[[[ss es] c0] st0]| |];
      try discriminate.
    destruct (0 <? length es)%nat; unfold ret; intros E; inversion E; subst; now eexists. }
  destruct Hloop as [r Hloop].
  destruct (fetchLoop_returns _ _ _ _ _ _ _ _ Hloop) as (outs & c' & Hrun).
  rewrite (FetchSecrets_run _ _ _ _ _ _ _ Hrun) in Hfetch.
  injection Hfetch as Hsecrets Hmsg.
  assert (Hnone : failures outs = []) by (destruct (failures outs); [reflexivity | discriminate]).
  exists attribs, params, client, p1, outs, c'.
  cbn [Files RespObjectVersion]. rewrite <- Hsecrets. now repeat split.
Qed.

(** A mount that is answered without an error code delivers exactly one
    file and one object version for every object of the request, in the
    order of the request; each version entry bears the path of its file;
    and since the parameters hold at least one object, at least one file
    is delivered. *)
Theorem Mount_success_delivers_every_object (req : MountRequest) (st st' : St W)
  (resp : MountResponse) (err : option string) :
  Mount cfg req st = Done ((resp, err), st') ->
  RespError resp = None ->
  exists attribs params,
    requestAttributes req = (attribs, None)
    /\ parseMountParams cfg attribs = Ok params
    /\ length (Files resp) = length (Objects params)
    /\ length (RespObjectVersion resp) = length (Objects params)
    /\ List.map FilePath (Files resp) = List.map Id (RespObjectVersion resp)
    /\ Files resp <> [].
Proof.
  intros Hmount Hok.
  destruct (Mount_success_run _ _ _ _ _ Hmount Hok)
    as (attribs & params & client & p1 & outs & c' & Hattr & Hparams & _ & Hrun & Hnone
        & Hfiles & Hversions).
  exists attribs, params. split; [exact Hattr|]. split; [exact Hparams|].
  assert (Hlen : length (fetched outs) = length (Objects params)).
  { rewrite (fetched_all _ Hnone), <- (fetch_run_objects _ _ _ _ _ _ Hrun).
    now rewrite length_map. }
  rewrite Hfiles, Hversions, !length_map, !List.map_map. cbn [FilePath Id].
  repeat split; try exact Hlen.
  pose proof (parseMountParams_objects attribs params Hparams) as Hobjs.
  destruct (fetched outs) as [|s rest]; [|discriminate].
  cbn [length] in Hlen. destruct (Objects params); [contradiction | discriminate].
Qed.

(** ** Modes and versions *)

Lemma parseFilePermission_nonzero (perm : string) : parseFilePermission perm <> 0.
Proof.
  unfold parseFilePermission.
  destruct (String.eqb perm EmptyString); [discriminate|].
  match goal with |- context [fmt_Sscanf_octal ?x] => destruct (Z.eqb_spec (fmt_Sscanf_octal x) 0) end;
    [discriminate | assumption].
Qed.

Lemma readFromOpenBao_version_nonempty (client c1 : AuthenticatedClient) (obj : SecretObject)
  (p p1 : Proc W) (content version : string) :
  readFromOpenBao client obj p = Done ((Ok (content, version), c1), p1) ->
  version <> EmptyString.
Proof.
  unfold readFromOpenBao.
  destruct (0 <? size (SecretArgs obj))%nat.
  - unfold bind.
    destruct (CSI.WriteSecret client _ _ p) as [[[r0 c0] p0]| |]; try discriminate.
    cbn [fst snd].
    destruct r0 as [[resp|]|e]; try discriminate.
    destruct (SecretData resp) as [d|]; [|discriminate].
    unfold slice.
    destruct ((0 <=? 0) && (0 <=? 8) && (8 <=? len (RequestID resp))) eqn:Hb; [|discriminate].
    destruct (extractContent (VMap d) obj); [|discriminate].
    intros [= _ <- _ _] E. apply (f_equal String.length) in E.
    unfold substr in E. change (Z.to_nat 0) with 0%nat in E.
    change (Z.to_nat (8 - 0)) with 8%nat in E.
    apply andb_prop in Hb as [_ Hlen]. apply Z.leb_le in Hlen. unfold len in Hlen.
    rewrite length_substring_head in E by lia. discriminate E.
  - unfold bind.
    destruct (CSI.ReadSecret client _ p) as [[[r0 c0] p0]| |]; try discriminate.
    cbn [fst snd].
    destruct r0 as [[resp|]|e]; try discriminate.
    destruct (SecretData resp) as [d|]; [|discriminate].
    destruct (match lookup_entry "data" d with
              | Some data => (data, metadataVersion d)
              | None => (VMap d, EmptyString)
              end) as [sec version0].
    destruct (extractContent sec obj); [|discriminate].
    intros [= _ <- _ _].
    now destruct (String.eqb_spec version0 EmptyString).
Qed.

(** One fetch keeps a cache of secrets with a mode and a version, and
    what it returns has both. *)
Lemma fetchSecret_well_formed (client c1 : AuthenticatedClient) (obj : SecretObject)
  (st st1 : St W) (r : Result FetchedSecret) :
  (forall key entry, entries st !! key = Some entry ->
                     Mode (secret entry) <> 0 /\ Version (secret entry) <> EmptyString) ->
  fetchSecret cfg client obj st = Done ((r, c1), st1) ->
  (forall key entry, entries st1 !! key = Some entry ->
                     Mode (secret entry) <> 0 /\ Version (secret entry) <> EmptyString)
  /\ (forall s, r = Ok s -> Mode s <> 0 /\ Version s <> EmptyString).
Proof.
  intros Hinv.
  assert (Hmiss : forall st0, entries st0 = entries st ->
            fetchMiss cfg client obj st0 = Done ((r, c1), st1) ->
            (forall key entry, entries st1 !! key = Some entry ->
                               Mode (secret entry) <> 0 /\ Version (secret entry) <> EmptyString)
            /\ (forall s, r = Ok s -> Mode s <> 0 /\ Version s <> EmptyString)).
  { intros st0 Hsame. unfold fetchMiss. unfold bind at 1. unfold liftProc.
    destruct (readFromOpenBao client obj (proc st0)) as [[[r0 c0] p0]| |] eqn:Hread;
      try discriminate.
    cbn [fst snd]. destruct r0 as [[content version]|e].
    - destruct (time_Now (world p0)) as [tset w] eqn:Hnow.
      unfold bind. erewrite cache_set_stores by (cbn [proc]; exact Hnow).
      intros [= <- <- <-]. cbn [entries].
      assert (Hwf : Mode {| FetchedName := ObjectName obj; Content := content;
                            Version := version;
                            Mode := parseFilePermission (FilePermission obj) |} <> 0
                    /\ Version {| FetchedName := ObjectName obj; Content := content;
                                  Version := version;
                                  Mode := parseFilePermission (FilePermission obj) |}
                       <> EmptyString).
      { cbn [Mode Version]. split; [apply parseFilePermission_nonzero|].
        exact (readFromOpenBao_version_nonempty _ _ _ _ _ _ _ Hread). }
      split.
      + intros key entry. rewrite Hsame.
        destruct (decide (key = cacheKey obj)) as [->|Hne].
        * rewrite lookup_insert_eq. intros [= <-]. exact Hwf.
        * rewrite lookup_insert_ne by congruence. apply Hinv.
      + intros s [= <-]. exact Hwf.
    - intros [= <- <- <-]. cbn [entries]. rewrite Hsame.
      split; [exact Hinv | discriminate]. }
  unfold fetchSecret, bind.
  destruct (entries st !! cacheKey obj) as [e0|] eqn:Hlook.
  - destruct (time_Now (world (proc st))) as [now w] eqn:Hnow.
    rewrite (cache_get_present _ _ _ _ _ Hlook Hnow).
    destruct (expiresAt e0 <? now).
    + apply Hmiss. reflexivity.
    + intros [= <- <- <-]. cbn [after_clock entries].
      split; [exact Hinv|]. intros s [= <-]. exact (Hinv _ _ Hlook).
  - rewrite (cache_get_absent _ _ Hlook). apply Hmiss. reflexivity.
Qed.

Lemma fetch_run_well_formed (c c' : AuthenticatedClient) (objs : list SecretObject)
  (st st' : St W) (outs : list (SecretObject * Result FetchedSecret)) :
  fetch_run cfg c objs st outs c' st' ->
  (forall key entry, entries st !! key = Some entry ->
                     Mode (secret entry) <> 0 /\ Version (secret entry) <> EmptyString) ->
  (forall key entry, entries st' !! key = Some entry ->
                     Mode (secret entry) <> 0 /\ Version (secret entry) <> EmptyString)
  /\ Forall (fun s => Mode s <> 0 /\ Version s <> EmptyString) (fetched outs).
Proof.
  induction 1 as [c st | c c1 c2 obj objs st st1 st2 r outs Hfetch _ IH]; intros Hinv.
  - split; [exact Hinv | constructor].
  - destruct (fetchSecret_well_formed _ _ _ _ _ _ Hinv Hfetch) as [Hinv1 Hr].
    destruct (IH Hinv1) as [Hinv2 Hall]. split; [exact Hinv2|].
    destruct r as [s|e]; cbn [fetched]; [constructor; [now apply Hr | exact Hall] | exact Hall].
Qed.

(** Every secret in the cache has a file mode other than zero and a
    version that is not empty: this holds for the empty cache a provider
    starts with, every mount request keeps it, and so every file a mount
    delivers has such a mode and every object version such a version. *)
Theorem Mount_keeps_modes_and_versions (req : MountRequest) (st st' : St W)
  (resp : MountResponse) (err : option string) :
  (forall key entry, entries st !! key = Some entry ->
                     Mode (secret entry) <> 0 /\ Version (secret entry) <> EmptyString) ->
  Mount cfg req st = Done ((resp, err), st') ->
  (forall key entry, entries st' !! key = Some entry ->
                     Mode (secret entry) <> 0 /\ Version (secret entry) <> EmptyString)
  /\ Forall (fun f => FileMode f <> 0) (Files resp)
  /\ Forall (fun v => ObjVersion v <> EmptyString) (RespObjectVersion resp).
Proof.
  intros Hinv. unfold Mount.
  destruct (requestAttributes req) as [attribs [e|]] eqn:Hattr;
    [intros [= <- _ <-]; (split; [exact Hinv | split; constructor])|].
  destruct (parseMountParams cfg attribs) as [params|e] eqn:Hparams;
    [|intros [= <- _ <-]; (split; [exact Hinv | split; constructor])].
  unfold bind at 1. unfold liftProc.
  destruct (authenticate cfg params (requestSecrets req) (proc st))
    as [[[client|e] p1]| |] eqn:Hauth; try discriminate;
    [|intros [= <- _ <-]; (split; [exact Hinv | split; constructor])].
  unfold bind.
  destruct (FetchSecrets cfg client (Objects params) _) as [[[secrets msg] st2]| |] eqn:Hfetch;
    try discriminate.
  assert (Hloop : exists r, fetchLoop cfg client (Objects params) [] []
                              {| proc := p1; entries := entries st |} = Done (r, st2)).
  { revert Hfetch. unfold FetchSecrets, bind.
    destruct (fetchLoop cfg client (Objects params) [] [] _) as [[[[ss es] c0] st0]| |];
      try discriminate.
    destruct (0 <? length es)%nat; unfold ret; intros E; inversion E; subst; now eexists. }
  destruct Hloop as [r Hloop].
  destruct (fetchLoop_returns _ _ _ _ _ _ _ _ Hloop) as (outs & c' & Hrun).
  rewrite (FetchSecrets_run _ _ _ _ _ _ _ Hrun) in Hfetch.
  injection Hfetch as Hsecrets Hmsg.
  destruct (fetch_run_well_formed _ _ _ _ _ _ Hrun Hinv) as [Hinv' Hall].
  cbn [fst snd]. destruct msg as [msg|];
    [intros [= <- _ <-]; (split; [exact Hinv' | split; constructor])|].
  pose proof (buildResponse_maps secrets [] []) as Hb.
  destruct (buildResponse secrets [] []) as [files versions].
  cbn [app] in Hb. injection Hb as -> ->. unfold ret. intros [= <- _ <-].
  cbn [Files RespObjectVersion]. rewrite <- Hsecrets.
  split; [exact Hinv'|]. split; apply Forall_map; cbn [FileMode ObjVersion];
    eapply Forall_impl; try exact Hall; intros s [Hm Hv]; assumption.
Qed.

End MountInvariants.

Section MountSuccessWitness.
Import Eff GoTime GoStrings GoValues OpenBao CSI Lab.

(** The mount of the one object the sample pod asks for. *)
Lemma Mount_success_delivers_every_object_witness :
  exists resp st',
    Mount podConfig tokenRequest (podState 100) = Done ((resp, None), st')
    /\ RespError resp = None
    /\ length (Files resp) = 1%nat
    /\ List.map FilePath (Files resp) = List.map Id (RespObjectVersion resp).
Proof.
  assert (Hrun : exists resp st',
             Mount podConfig tokenRequest (podState 100) = Done ((resp, None), st')
             /\ RespError resp = None).
  { do 2 eexists. split; [vm_compute; reflexivity | reflexivity]. }
  destruct Hrun as (resp & st' & Hrun & Herr).
  destruct (Mount_success_delivers_every_object podConfig tokenRequest (podState 100) st'
              resp None Hrun Herr)
    as (attribs & params & Hattr & Hparams & Hfiles & _ & Hids & _).
  exists resp, st'. split; [exact Hrun|]. split; [exact Herr|].
  split; [|exact Hids].
  rewrite Hfiles.
  assert (Hattr' : requestAttributes tokenRequest = (Some {[ "objects" := "[token]" ]}, None))
    by (vm_compute; reflexivity).
  rewrite Hattr' in Hattr. injection Hattr as <-.
  assert (Hparams' : exists params',
             parseMountParams podConfig (Some {[ "objects" := "[token]" ]}) = Ok params'
             /\ length (Objects params') = 1%nat).
  { eexists. split; [vm_compute; reflexivity | reflexivity]. }
  destruct Hparams' as (params' & Hp & Hlen).
  rewrite Hp in Hparams. injection Hparams as <-. exact Hlen.
Defined.

(** The same mount, started with an empty cache: the file has a mode,
    the object a version, and so has the cache entry it leaves. *)
Lemma Mount_keeps_modes_and_versions_witness :
  exists resp st',
    Mount podConfig tokenRequest (podState 100) = Done ((resp, None), st')
    /\ (forall key entry, entries st' !! key = Some entry ->
                          Mode (secret entry) <> 0 /\ Version (secret entry) <> EmptyString)
    /\ Forall (fun f => FileMode f <> 0) (Files resp)
    /\ Forall (fun v => ObjVersion v <> EmptyString) (RespObjectVersion resp).
Proof.
  do 2 eexists.
  refine ((fun Hrun => conj Hrun
             (Mount_keeps_modes_and_versions podConfig tokenRequest (podState 100) _ _ None
                _ Hrun)) _).
  - intros key entry Hentry. cbn [entries podState] in Hentry.
    rewrite lookup_empty in Hentry. discriminate.
  - vm_compute. reflexivity.
Defined.

End MountSuccessWitness.

(* ===================================================================== *)
(** * Templates: which text ends up under which key *)
(* ===================================================================== *)

Section TemplateOverlay.
Import GoStrings GoValues Template.

(** One rendering loop over template entries with distinct keys: a key
    of the loop gets its rendered template, every other key keeps what
    it had. *)
Lemma renderFields_lookup (fuel : nat) (visit : string -> list (string * Value)) :
  forall (fields : list (string * string)) (result result' : gmap string string),
    NoDup fields.*1 ->
    renderFields fuel fields visit result = Some result' ->
    forall key,
      (forall tmpl, (key, tmpl) ∈ fields ->
                    exists v, substituteFields fuel (visit key) tmpl = Some v
                              /\ result' !! key = Some v)
      /\ (key ∉ fields.*1 -> result' !! key = result !! key).
Proof.
  induction fields as [|[k t] rest IH]; intros result result' Hnd Hrun key.
  - injection Hrun as <-. split; [intros tmpl Hin; inversion Hin | reflexivity].
  - cbn [renderFields] in Hrun.
    destruct (substituteFields fuel (visit k) t) as [value|] eqn:Hvalue; [|discriminate].
    cbn [fmap list_fmap fst] in Hnd. apply NoDup_cons in Hnd as [Hk Hnd].
    destruct (IH _ _ Hnd Hrun key) as [Hin Hout]. split.
    + intros tmpl Hel. apply elem_of_cons in Hel as [[= -> ->]|Hel].
      * exists value. split; [exact Hvalue|].
        destruct (IH _ _ Hnd Hrun k) as [_ Hout'].
        rewrite Hout' by exact Hk. apply lookup_insert_eq.
      * exact (Hin tmpl Hel).
    + intros Hnot. cbn [fmap list_fmap fst] in Hnot.
      apply not_elem_of_cons in Hnot as [Hne Hnot].
      rewrite (Hout Hnot). now rewrite lookup_insert_ne by congruence.
Qed.

(** A loop whose templates all render returns. *)
Lemma renderFields_returns (fuel : nat) (visit : string -> list (string * Value)) :
  forall (fields : list (string * string)) (result : gmap string string),
    (forall key tmpl, (key, tmpl) ∈ fields ->
                      exists v, substituteFields fuel (visit key) tmpl = Some v) ->
    exists result', renderFields fuel fields visit result = Some result'.
Proof.
  induction fields as [|[k t] rest IH]; intros result Hall; [now eexists|].
  cbn [renderFields].
  destruct (Hall k t) as [v ->]; [now left|].
  apply IH. intros key tmpl Hin. apply (Hall key tmpl). now right.
Qed.

Lemma visited_entries {A} (l : list (string * A)) (m : gmap string A) :
  l ≡ₚ map_to_list m ->
  NoDup l.*1 /\ forall key x, (key, x) ∈ l <-> m !! key = Some x.
Proof.
  intros Hperm. split.
  - rewrite Hperm. apply NoDup_fst_map_to_list.
  - intros key x. rewrite Hperm. apply elem_of_map_to_list.
Qed.

Lemma visited_keys {A} (l : list (string * A)) (m : gmap string A) (key : string) :
  l ≡ₚ map_to_list m -> m !! key = None -> key ∉ l.*1.
Proof.
  intros Hperm Hnone Hin. apply list_elem_of_fmap in Hin as ([k x] & -> & Hel).
  apply (visited_entries _ _ Hperm) in Hel. cbn [fst] in Hnone. congruence.
Qed.

Lemma applyTemplate_lookup (fuel : nat) (rng : Ranges) (data : gmap string string)
  (template : SecretTemplate) (sourceData : gmap string Value) (result : gmap string string) :
  ranges_valid rng ->
  applyTemplate fuel rng data template sourceData = Some result ->
  forall key,
    match Data template !! key with
    | Some tmpl =>
        exists v, substituteFields fuel (over_source_Data rng key sourceData) tmpl = Some v
                  /\ result !! key = Some v
    | None =>
        match StringData template !! key with
        | Some tmpl =>
            exists v,
              substituteFields fuel (over_source_StringData rng key sourceData) tmpl = Some v
              /\ result !! key = Some v
        | None => result !! key = data !! key
        end
    end.
Proof.
  intros (Hsd & Hd & _ & _) Hrun key. unfold applyTemplate in Hrun.
  destruct (renderFields fuel (over_StringData rng (StringData template)) _ data)
    as [result1|] eqn:Hfirst; [|discriminate].
  destruct (visited_entries _ _ (Hsd (StringData template))) as [Hnd1 Hel1].
  destruct (visited_entries _ _ (Hd (Data template))) as [Hnd2 Hel2].
  destruct (renderFields_lookup _ _ _ _ _ Hnd1 Hfirst key) as [Hin1 Hout1].
  destruct (renderFields_lookup _ _ _ _ _ Hnd2 Hrun key) as [Hin2 Hout2].
  destruct (Data template !! key) as [tmpl|] eqn:Hdata.
  - apply Hin2. now apply Hel2.
  - rewrite Hout2 by (eapply visited_keys; [apply Hd | exact Hdata]).
    destruct (StringData template !! key) as [tmpl|] eqn:Hstring.
    + apply Hin1. now apply Hel1.
    + apply Hout1. eapply visited_keys; [apply Hsd | exact Hstring].
Qed.

(** The result of [applyTemplate], key by key: a key of the [data]
    templates holds its rendered template, also when the [stringData]
    templates or the secret have the same key; a key of the
    [stringData] templates alone holds its rendered template; and every
    other key holds the value that was copied from the secret. *)
Theorem applyTemplate_data_over_stringData (fuel : nat) (rng : Ranges)
  (data : gmap string string) (template : SecretTemplate) (sourceData : gmap string Value)
  (result : gmap string string) :
  ranges_valid rng ->
  applyTemplate fuel rng data template sourceData = Some result ->
  forall key,
    match Data template !! key with
    | Some tmpl =>
        exists v, substituteFields fuel (over_source_Data rng key sourceData) tmpl = Some v
                  /\ result !! key = Some v
    | None =>
        match StringData template !! key with
        | Some tmpl =>
            exists v,
              substituteFields fuel (over_source_StringData rng key sourceData) tmpl = Some v
              /\ result !! key = Some v
        | None => result !! key = data !! key
        end
    end.
Proof. exact (applyTemplate_lookup fuel rng data template sourceData result). Qed.

(** When no template holds the placeholder of a field of the secret,
    [applyTemplate] returns after one iteration of every replacement
    loop, and its result is the templates as they are written, laid over
    the copied values: nothing is substituted. *)
Theorem applyTemplate_without_placeholders (fuel : nat) (rng : Ranges)
  (data : gmap string string) (template : SecretTemplate) (sourceData : gmap string Value) :
  ranges_valid rng ->
  (forall key tmpl k v,
     StringData template !! key = Some tmpl \/ Data template !! key = Some tmpl ->
     sourceData !! k = Some v ->
     indexOf tmpl (placeholder k) = -1) ->
  applyTemplate (S fuel) rng data template sourceData
  = Some (Data template ∪ StringData template ∪ data).
Proof.
  intros Hvalid Hplain.
  pose proof Hvalid as (Hsd & Hd & Hssd & Hsdd).
  assert (Hs1 : forall key tmpl, StringData template !! key = Some tmpl ->
                  substituteFields (S fuel) (over_source_StringData rng key sourceData) tmpl
                  = Some tmpl).
  { intros key tmpl Hkey. apply substituteFields_unmatched. intros k v Hin.
    apply list_elem_of_In in Hin. apply (visited_entries _ _ (Hssd key sourceData)) in Hin.
    rewrite (Hplain key tmpl k v); [lia | now left | exact Hin]. }
  assert (Hs2 : forall key tmpl, Data template !! key = Some tmpl ->
                  substituteFields (S fuel) (over_source_Data rng key sourceData) tmpl
                  = Some tmpl).
  { intros key tmpl Hkey. apply substituteFields_unmatched. intros k v Hin.
    apply list_elem_of_In in Hin. apply (visited_entries _ _ (Hsdd key sourceData)) in Hin.
    rewrite (Hplain key tmpl k v); [lia | now right | exact Hin]. }
  assert (Hret : exists result, applyTemplate (S fuel) rng data template sourceData = Some result).
  { unfold applyTemplate.
    destruct (renderFields_returns (S fuel)
                (fun key => over_source_StringData rng key sourceData)
                (over_StringData rng (StringData template)) data) as [result1 ->].
    { intros key tmpl Hin. exists tmpl. apply Hs1.
      now apply (visited_entries _ _ (Hsd (StringData template))). }
    apply renderFields_returns. intros key tmpl Hin. exists tmpl. apply Hs2.
    now apply (visited_entries _ _ (Hd (Data template))). }
  destruct Hret as [result Hrun]. rewrite Hrun. f_equal.
  apply map_eq. intros key.
  pose proof (applyTemplate_lookup _ _ _ _ _ _ Hvalid Hrun key) as Hkey.
  rewrite <- (assoc_L (∪)). rewrite lookup_union.
  destruct (Data template !! key) as [tmpl|] eqn:Hdata.
  - destruct Hkey as (v & Hv & ->). rewrite (Hs2 _ _ Hdata) in Hv. injection Hv as <-.
    now destruct ((StringData template ∪ data) !! key).
  - rewrite (left_id None _). rewrite lookup_union.
    destruct (StringData template !! key) as [tmpl|] eqn:Hstring.
    + destruct Hkey as (v & Hv & ->). rewrite (Hs1 _ _ Hstring) in Hv. injection Hv as <-.
      now destruct (data !! key).
    + now rewrite (left_id None _).
Qed.

End TemplateOverlay.

Section TemplateOverlayWitness.
Import GoStrings GoValues Template Lab.

(** The field [user] stands in both maps of the template and in the
    data read from the backend: the result holds the rendering of the
    [Data] template; the field [other] of the data is kept. *)
Lemma applyTemplate_data_over_stringData_witness :
  exists result,
    applyTemplate 10 Samples.listedRanges {[ "user" := "raw"; "other" := "kept" ]}
                  userTemplate userSource = Some result
    /\ result !! "user" = Some "alice"
    /\ result !! "realm" = Some "{{ .Data.realm }}"
    /\ result !! "other" = Some "kept".
Proof.
  assert (Hrun : exists result,
             applyTemplate 10 Samples.listedRanges {[ "user" := "raw"; "other" := "kept" ]}
                           userTemplate userSource = Some result).
  { eexists. vm_compute. reflexivity. }
  destruct Hrun as (result & Hrun).
  pose proof (applyTemplate_data_over_stringData 10 Samples.listedRanges _ _ _ result
                listedRanges_valid Hrun) as Hlookup.
  exists result. split; [exact Hrun|].
  split; [|split].
  - specialize (Hlookup "user").
    assert (Htmpl : Data userTemplate !! "user" = Some "{{ .Data.username }}")
      by (vm_compute; reflexivity).
    rewrite Htmpl in Hlookup. destruct Hlookup as (v & Hv & Hres).
    rewrite Hres. vm_compute in Hv. exact (eq_sym Hv).
  - specialize (Hlookup "realm").
    assert (Hd : Data userTemplate !! "realm" = None) by (vm_compute; reflexivity).
    assert (Hs : StringData userTemplate !! "realm" = Some "{{ .Data.realm }}")
      by (vm_compute; reflexivity).
    rewrite Hd, Hs in Hlookup. destruct Hlookup as (v & Hv & Hres).
    rewrite Hres. vm_compute in Hv. exact (eq_sym Hv).
  - specialize (Hlookup "other").
    assert (Hd : Data userTemplate !! "other" = None) by (vm_compute; reflexivity).
    assert (Hs : StringData userTemplate !! "other" = None) by (vm_compute; reflexivity).
    rewrite Hd, Hs in Hlookup. rewrite Hlookup. vm_compute. reflexivity.
Defined.

(** A template whose only field holds no placeholder of the source. *)
Lemma applyTemplate_without_placeholders_witness :
  ranges_valid Samples.listedRanges
  /\ (forall key tmpl k v,
        StringData plainTemplate !! key = Some tmpl \/ Data plainTemplate !! key = Some tmpl ->
        userSource !! k = Some v ->
        indexOf tmpl (placeholder k) = -1)
  /\ applyTemplate 1 Samples.listedRanges {[ "user" := "raw" ]} plainTemplate userSource
     = Some ({[ "motd" := "maintenance at noon" ]} ∪ {[ "user" := "raw" ]}).
Proof.
  assert (Hnone : forall key tmpl k v,
             StringData plainTemplate !! key = Some tmpl
             \/ Data plainTemplate !! key = Some tmpl ->
             userSource !! k = Some v ->
             indexOf tmpl (placeholder k) = -1).
  { intros key tmpl k v Htmpl Hk.
    unfold userSource in Hk. apply lookup_singleton_Some in Hk as [<- _].
    unfold plainTemplate in Htmpl. cbn [StringData Data] in Htmpl.
    destruct Htmpl as [Htmpl|Htmpl].
    - apply lookup_singleton_Some in Htmpl as [_ <-]. vm_compute. reflexivity.
    - rewrite lookup_empty in Htmpl. discriminate. }
  split; [exact listedRanges_valid|]. split; [exact Hnone|].
  rewrite (applyTemplate_without_placeholders 0 Samples.listedRanges {[ "user" := "raw" ]}
             plainTemplate userSource listedRanges_valid Hnone).
  unfold plainTemplate. cbn [StringData Data]. now rewrite (left_id ∅ _).
Defined.

End TemplateOverlayWitness.

(* ===================================================================== *)
(** * Version strings *)
(* ===================================================================== *)

Section VersionStrings.
Import SHA256.

Lemma round_length (st : list Z) (kw : Z * Z) : length (round st kw) = length st.
Proof.
  unfold round.
  destruct st as [|a [|b [|c [|d [|e [|f [|g [|h [|i rest]]]]]]]]]; reflexivity.
Qed.

Lemma rounds_length (kws : list (Z * Z)) (st : list Z) :
  length (fold_left round kws st) = length st.
Proof.
  revert st. induction kws as [|kw kws IH]; intros st; [reflexivity|].
  cbn [fold_left]. now rewrite IH, round_length.
Qed.

Lemma compress_length (h block : list Z) : length (compress h block) = length h.
Proof.
  unfold compress. rewrite length_map, length_combine, rounds_length. lia.
Qed.

Lemma blocks_length (n : nat) (h bs : list Z) : length (blocks n h bs) = length h.
Proof.
  revert h bs. induction n as [|n IH]; intros h bs; [reflexivity|].
  cbn [blocks]. destruct bs as [|b bs]; [reflexivity|].
  now rewrite IH, compress_length.
Qed.

Lemma be_bytes_length (n : nat) (x : Z) : length (be_bytes n x) = n.
Proof. induction n as [|n IH]; cbn [be_bytes length]; [reflexivity | now rewrite IH]. Qed.

Lemma be_bytes_range (n : nat) (x : Z) : Forall (fun b => 0 <= b < 256) (be_bytes n x).
Proof.
  induction n as [|n IH]; cbn [be_bytes]; constructor; [|exact IH].
  apply Z.mod_pos_bound. lia.
Qed.

Lemma words_bytes_length (ws : list Z) : length (flat_map (be_bytes 4) ws) = (4 * length ws)%nat.
Proof.
  induction ws as [|w ws IH]; [reflexivity|].
  cbn [flat_map]. rewrite length_app, be_bytes_length, IH. cbn [length]. lia.
Qed.

Lemma words_bytes_range (ws : list Z) : Forall (fun b => 0 <= b < 256) (flat_map (be_bytes 4) ws).
Proof.
  induction ws as [|w ws IH]; [constructor|].
  cbn [flat_map]. apply Forall_app. split; [apply be_bytes_range | exact IH].
Qed.

(** A digest has 32 bytes. *)
Lemma Sum256_length (msg : string) : length (Sum256 msg) = 32%nat.
Proof. unfold Sum256. now rewrite words_bytes_length, blocks_length. Qed.

Lemma Sum256_range (msg : string) : Forall (fun b => 0 <= b < 256) (Sum256 msg).
Proof. unfold Sum256. apply words_bytes_range. Qed.

Lemma hex_digit_cases (d : Z) :
  0 <= d < 16 ->
  In (hex_digit d) ["0"; "1"; "2"; "3"; "4"; "5"; "6"; "7";
                    "8"; "9"; "a"; "b"; "c"; "d"; "e"; "f"]%string.
Proof.
  intros Hd.
  assert (Hcase : d = 0 \/ d = 1 \/ d = 2 \/ d = 3 \/ d = 4 \/ d = 5 \/ d = 6 \/ d = 7
                  \/ d = 8 \/ d = 9 \/ d = 10 \/ d = 11 \/ d = 12 \/ d = 13 \/ d = 14
                  \/ d = 15) by lia.
  repeat (destruct Hcase as [->|Hcase]; [cbn; tauto|]). subst d. cbn; tauto.
Qed.

(** The characters of a text, all among the sixteen lower-case
    hexadecimal digits. *)
Lemma EncodeToString_hex (bs : list Z) :
  Forall (fun b => 0 <= b < 256) bs ->
  String.length (EncodeToString bs) = (2 * length bs)%nat
  /\ Forall (fun c => In c (list_ascii_of_string "0123456789abcdef"))
            (list_ascii_of_string (EncodeToString bs)).
Proof.
  induction 1 as [|b bs Hb _ [IHlen IHhex]]; [split; [reflexivity | constructor]|].
  cbn [EncodeToString].
  assert (Hhi : 0 <= b / 16 < 16) by (split; [apply Z.div_pos | apply Z.div_lt_upper_bound]; lia).
  assert (Hlo : 0 <= b mod 16 < 16) by (apply Z.mod_pos_bound; lia).
  pose proof (hex_digit_cases _ Hhi) as Hd1.
  pose proof (hex_digit_cases _ Hlo) as Hd2.
  assert (Hone : forall d, In d ["0"; "1"; "2"; "3"; "4"; "5"; "6"; "7";
                                 "8"; "9"; "a"; "b"; "c"; "d"; "e"; "f"]%string ->
                           exists c, d = String c EmptyString
                                     /\ In c (list_ascii_of_string "0123456789abcdef")).
  { intros d Hin. cbn [In] in Hin.
    repeat (destruct Hin as [<-|Hin]; [eexists; split; [reflexivity | cbn; tauto]|]).
    contradiction. }
  destruct (Hone _ Hd1) as (c1 & -> & Hc1).
  destruct (Hone _ Hd2) as (c2 & -> & Hc2).
  rewrite !append_cons, !append_empty_l. cbn [String.length list_ascii_of_string length].
  split; [rewrite IHlen; lia|].
  constructor; [exact Hc1|]. constructor; [exact Hc2 | exact IHhex].
Qed.

(** The versions the two reconcilers record -- [status.policyVersion],
    [status.secretVersion] and the annotation [kubebao.io/version] -- are
    always sixteen characters long, each a lower-case hexadecimal digit:
    the first eight bytes of a SHA-256 digest. *)
Theorem versions_are_sixteen_hex_digits `{SecretSync.GoLib} (doc : string)
  (data : gmap string string) :
  String.length (Policy.contentVersion doc) = 16%nat
  /\ Forall (fun c => In c (list_ascii_of_string "0123456789abcdef"))
            (list_ascii_of_string (Policy.contentVersion doc))
  /\ String.length (SecretSync.calculateVersion data) = 16%nat
  /\ Forall (fun c => In c (list_ascii_of_string "0123456789abcdef"))
            (list_ascii_of_string (SecretSync.calculateVersion data)).
Proof.
  assert (Hver : forall msg,
             String.length (EncodeToString (firstn 8 (Sum256 msg))) = 16%nat
             /\ Forall (fun c => In c (list_ascii_of_string "0123456789abcdef"))
                       (list_ascii_of_string (EncodeToString (firstn 8 (Sum256 msg))))).
  { intros msg.
    destruct (EncodeToString_hex (firstn 8 (Sum256 msg))) as [Hlen Hhex].
    { apply Forall_take. apply Sum256_range. }
    split; [|exact Hhex]. rewrite Hlen, length_firstn, Sum256_length. reflexivity. }
  unfold Policy.contentVersion, SecretSync.calculateVersion.
  destruct (Hver doc) as [H1 H2].
  destruct (Hver (SecretSync.json_Marshal_data data)) as [H3 H4].
  now repeat split.
Qed.

End VersionStrings.

(* ===================================================================== *)
(** * Token authentication of the provider *)
(* ===================================================================== *)

Section TokenAuth.
Import Eff GoTime GoStrings GoValues OpenBao CSI.
Context {W : Type} `{Api W} `{Sys W} `{CsiLib}.

(** With the auth method [token] the provider sends no login request
    and uses nothing of the pod: the client holds the token of the
    provider's own environment, [OPENBAO_TOKEN] before [VAULT_TOKEN], and
    creating it fails when both are empty.  The token of such a client
    never expires, so a later read is sent with that token and without
    any renewal before it. *)
Theorem token_auth_uses_provider_environment (config : AuthConfig) (p : Proc W) :
  AuthAddress config <> EmptyString ->
  AuthMethod_ config = "token" ->
  api_NewClient (AuthAddress config) = None ->
  let t := if String.eqb (os_Getenv "OPENBAO_TOKEN" (world p)) EmptyString
           then os_Getenv "VAULT_TOKEN" (world p)
           else os_Getenv "OPENBAO_TOKEN" (world p) in
  let c := {| authConfig := config; token := t; tokenExpiry := 0 |} in
  NewAuthenticatedClient config p
  = Done (if String.eqb t EmptyString
          then Err "authentication failed: no token available for token auth"
          else Ok c, p)
  /\ forall path p',
       ReadSecret c path p'
       = Done ((fst (logical_Read t path (world p')), c),
               {| world := snd (logical_Read t path (world p'));
                  apiLog := apiLog p' ++ [ApiRead t path] |}).
Proof.
  intros Haddr Hmethod Hlib t c. split.
  - unfold NewAuthenticatedClient.
    destruct (String.eqb_spec (AuthAddress config) EmptyString) as [E|_]; [contradiction|].
    rewrite Hlib. unfold authenticateClient. cbn [authConfig].
    rewrite Hmethod. cbn [String.eqb Ascii.eqb Bool.eqb].
    unfold authenticateToken, Getenv, bind, call, ret. cbn beta iota.
    subst c t.
    destruct (String.eqb (os_Getenv "OPENBAO_TOKEN" (world p)) EmptyString) eqn:E1.
    + cbn beta iota.
      destruct (String.eqb (os_Getenv "VAULT_TOKEN" (world p)) EmptyString); reflexivity.
    + cbn beta iota. rewrite E1. reflexivity.
  - intros path p'.
    unfold ReadSecret, RefreshToken, LogicalRead, bind, call, ret.
    subst c. cbn [tokenExpiry token IsZero Z.eqb snd fst].
    now destruct (logical_Read t path (world p')).
Qed.

End TokenAuth.

Section TokenAuthWitness.
Import Eff GoTime GoStrings GoValues OpenBao CSI Lab.

(** A pod that asks for token authentication in the environment of the
    sample plugin process: the client holds the token of that
    environment, and a read is sent with it. *)
Lemma token_auth_uses_provider_environment_witness :
  exists c,
    NewAuthenticatedClient (setAuthMethod (authConfig podClient) "token") envProc
    = Done (Ok c, envProc)
    /\ token c = "s.root"
    /\ exists r,
         ReadSecret c "secret/data/app/tokens" envProc
         = Done ((r, c), {| world := envWorld;
                            apiLog := [ApiRead "s.root" "secret/data/app/tokens"] |}).
Proof.
  destruct (token_auth_uses_provider_environment
              (setAuthMethod (authConfig podClient) "token") envProc
              ltac:(discriminate) eq_refl eq_refl) as (Hnew & Hread).
  eexists. split; [exact Hnew|]. split; [reflexivity|].
  eexists. exact (Hread "secret/data/app/tokens" envProc).
Defined.

End TokenAuthWitness.
